(** * Tennis match tracker: scoring state machine, statistics and undo

    A shallow embedding of [tennistracker.cpp].  The interactive program keeps
    one [MatchState], mutates it point by point and stores full copies of it on
    a history stack for undo.  Here every C++ function that takes
    [MatchState&] becomes a function from states to states; the statements of
    a body are chained with [let] in source order.

    Conventions.
    - [int] is modelled by [Z] without wrap-around: signed overflow is
      undefined in C++, and every counter of the program is bounded by the
      number of points entered.  [%] is [Z.rem], [abs] is [Z.abs].
    - Players are the integers the source uses (0 for player 1, 1 for
      player 2); the source tests them with [x==0 ? .. : ..] everywhere and so
      does the model.
    - [std::vector] is a list, [push_back x] is [++ [x]], [v[i]] is the total
      lookup at [Z.to_nat i] and an assignment through [v[i]] is [alter].
      Indexing outside the vector is undefined in C++; the model reads the
      default element and leaves the vector unchanged there, and
      [running_wf] shows that this never happens in a reachable state.
    - Console output is dropped; console input is passed in as the already
      parsed menu answers. *)

From Stdlib Require Import ZArith Lia Bool String.
From stdpp Require Import base list.

Local Open Scope Z_scope.

(** ** Data *)

Inductive ServeType : Type := SERVE_NONE | SERVE_FIRST | SERVE_SECOND.
Inductive DecidingSetType : Type := DECIDING_REGULAR | DECIDING_TB10.

Record FormatConfig : Type := MkFormatConfig {
  games_to_win_set : Z;
  tiebreak_at_games : Z;
  set_tiebreak_points : Z;
  deciding : DecidingSetType;
  deciding_tb_points : Z
}.

Record PlayerStats : Type := MkPlayerStats {
  first_serves_attempted : Z;
  first_serves_in : Z;
  second_serves_attempted : Z;
  second_serves_in : Z;
  aces_first : Z;
  aces_second : Z;
  service_winners_first : Z;
  service_winners_second : Z;
  double_faults : Z;
  points_won_on_first_serve : Z;
  points_won_on_second_serve : Z;
  return_points_won_vs_first : Z;
  return_points_won_vs_second : Z;
  return_winners : Z;
  return_unforced_errors : Z;
  return_forced_errors : Z;
  rally_winners : Z;
  unforced_errors : Z;
  forced_errors_drawn : Z;
  net_points_won : Z;
  net_points_total : Z;
  break_points_won : Z;
  break_points_total : Z;
  points_won : Z;
  points_played : Z
}.

Definition inc_first_serves_attempted (s : PlayerStats) : PlayerStats :=
  MkPlayerStats (first_serves_attempted s + 1) (first_serves_in s)
    (second_serves_attempted s) (second_serves_in s) (aces_first s)
    (aces_second s) (service_winners_first s) (service_winners_second s)
    (double_faults s) (points_won_on_first_serve s)
    (points_won_on_second_serve s) (return_points_won_vs_first s)
    (return_points_won_vs_second s) (return_winners s)
    (return_unforced_errors s) (return_forced_errors s) (rally_winners s)
    (unforced_errors s) (forced_errors_drawn s) (net_points_won s)
    (net_points_total s) (break_points_won s) (break_points_total s)
    (points_won s) (points_played s).

Definition inc_first_serves_in (s : PlayerStats) : PlayerStats :=
  MkPlayerStats (first_serves_attempted s) (first_serves_in s + 1)
    (second_serves_attempted s) (second_serves_in s) (aces_first s)
    (aces_second s) (service_winners_first s) (service_winners_second s)
    (double_faults s) (points_won_on_first_serve s)
    (points_won_on_second_serve s) (return_points_won_vs_first s)
    (return_points_won_vs_second s) (return_winners s)
    (return_unforced_errors s) (return_forced_errors s) (rally_winners s)
    (unforced_errors s) (forced_errors_drawn s) (net_points_won s)
    (net_points_total s) (break_points_won s) (break_points_total s)
    (points_won s) (points_played s).

Definition inc_second_serves_attempted (s : PlayerStats) : PlayerStats :=
  MkPlayerStats (first_serves_attempted s) (first_serves_in s)
    (second_serves_attempted s + 1) (second_serves_in s) (aces_first s)
    (aces_second s) (service_winners_first s) (service_winners_second s)
    (double_faults s) (points_won_on_first_serve s)
    (points_won_on_second_serve s) (return_points_won_vs_first s)
    (return_points_won_vs_second s) (return_winners s)
    (return_unforced_errors s) (return_forced_errors s) (rally_winners s)
    (unforced_errors s) (forced_errors_drawn s) (net_points_won s)
    (net_points_total s) (break_points_won s) (break_points_total s)
    (points_won s) (points_played s).

Definition inc_second_serves_in (s : PlayerStats) : PlayerStats :=
  MkPlayerStats (first_serves_attempted s) (first_serves_in s)
    (second_serves_attempted s) (second_serves_in s + 1) (aces_first s)
    (aces_second s) (service_winners_first s) (service_winners_second s)
    (double_faults s) (points_won_on_first_serve s)
    (points_won_on_second_serve s) (return_points_won_vs_first s)
    (return_points_won_vs_second s) (return_winners s)
    (return_unforced_errors s) (return_forced_errors s) (rally_winners s)
    (unforced_errors s) (forced_errors_drawn s) (net_points_won s)
    (net_points_total s) (break_points_won s) (break_points_total s)
    (points_won s) (points_played s).

Definition inc_aces_first (s : PlayerStats) : PlayerStats :=
  MkPlayerStats (first_serves_attempted s) (first_serves_in s)
    (second_serves_attempted s) (second_serves_in s) (aces_first s + 1)
    (aces_second s) (service_winners_first s) (service_winners_second s)
    (double_faults s) (points_won_on_first_serve s)
    (points_won_on_second_serve s) (return_points_won_vs_first s)
    (return_points_won_vs_second s) (return_winners s)
    (return_unforced_errors s) (return_forced_errors s) (rally_winners s)
    (unforced_errors s) (forced_errors_drawn s) (net_points_won s)
    (net_points_total s) (break_points_won s) (break_points_total s)
    (points_won s) (points_played s).

Definition inc_aces_second (s : PlayerStats) : PlayerStats :=
  MkPlayerStats (first_serves_attempted s) (first_serves_in s)
    (second_serves_attempted s) (second_serves_in s) (aces_first s)
    (aces_second s + 1) (service_winners_first s) (service_winners_second s)
    (double_faults s) (points_won_on_first_serve s)
    (points_won_on_second_serve s) (return_points_won_vs_first s)
    (return_points_won_vs_second s) (return_winners s)
    (return_unforced_errors s) (return_forced_errors s) (rally_winners s)
    (unforced_errors s) (forced_errors_drawn s) (net_points_won s)
    (net_points_total s) (break_points_won s) (break_points_total s)
    (points_won s) (points_played s).

Definition inc_service_winners_first (s : PlayerStats) : PlayerStats :=
  MkPlayerStats (first_serves_attempted s) (first_serves_in s)
    (second_serves_attempted s) (second_serves_in s) (aces_first s)
    (aces_second s) (service_winners_first s + 1) (service_winners_second s)
    (double_faults s) (points_won_on_first_serve s)
    (points_won_on_second_serve s) (return_points_won_vs_first s)
    (return_points_won_vs_second s) (return_winners s)
    (return_unforced_errors s) (return_forced_errors s) (rally_winners s)
    (unforced_errors s) (forced_errors_drawn s) (net_points_won s)
    (net_points_total s) (break_points_won s) (break_points_total s)
    (points_won s) (points_played s).

Definition inc_service_winners_second (s : PlayerStats) : PlayerStats :=
  MkPlayerStats (first_serves_attempted s) (first_serves_in s)
    (second_serves_attempted s) (second_serves_in s) (aces_first s)
    (aces_second s) (service_winners_first s) (service_winners_second s + 1)
    (double_faults s) (points_won_on_first_serve s)
    (points_won_on_second_serve s) (return_points_won_vs_first s)
    (return_points_won_vs_second s) (return_winners s)
    (return_unforced_errors s) (return_forced_errors s) (rally_winners s)
    (unforced_errors s) (forced_errors_drawn s) (net_points_won s)
    (net_points_total s) (break_points_won s) (break_points_total s)
    (points_won s) (points_played s).

Definition inc_double_faults (s : PlayerStats) : PlayerStats :=
  MkPlayerStats (first_serves_attempted s) (first_serves_in s)
    (second_serves_attempted s) (second_serves_in s) (aces_first s)
    (aces_second s) (service_winners_first s) (service_winners_second s)
    (double_faults s + 1) (points_won_on_first_serve s)
    (points_won_on_second_serve s) (return_points_won_vs_first s)
    (return_points_won_vs_second s) (return_winners s)
    (return_unforced_errors s) (return_forced_errors s) (rally_winners s)
    (unforced_errors s) (forced_errors_drawn s) (net_points_won s)
    (net_points_total s) (break_points_won s) (break_points_total s)
    (points_won s) (points_played s).

Definition inc_points_won_on_first_serve (s : PlayerStats) : PlayerStats :=
  MkPlayerStats (first_serves_attempted s) (first_serves_in s)
    (second_serves_attempted s) (second_serves_in s) (aces_first s)
    (aces_second s) (service_winners_first s) (service_winners_second s)
    (double_faults s) (points_won_on_first_serve s + 1)
    (points_won_on_second_serve s) (return_points_won_vs_first s)
    (return_points_won_vs_second s) (return_winners s)
    (return_unforced_errors s) (return_forced_errors s) (rally_winners s)
    (unforced_errors s) (forced_errors_drawn s) (net_points_won s)
    (net_points_total s) (break_points_won s) (break_points_total s)
    (points_won s) (points_played s).

Definition inc_points_won_on_second_serve (s : PlayerStats) : PlayerStats :=
  MkPlayerStats (first_serves_attempted s) (first_serves_in s)
    (second_serves_attempted s) (second_serves_in s) (aces_first s)
    (aces_second s) (service_winners_first s) (service_winners_second s)
    (double_faults s) (points_won_on_first_serve s)
    (points_won_on_second_serve s + 1) (return_points_won_vs_first s)
    (return_points_won_vs_second s) (return_winners s)
    (return_unforced_errors s) (return_forced_errors s) (rally_winners s)
    (unforced_errors s) (forced_errors_drawn s) (net_points_won s)
    (net_points_total s) (break_points_won s) (break_points_total s)
    (points_won s) (points_played s).

Definition inc_return_points_won_vs_first (s : PlayerStats) : PlayerStats :=
  MkPlayerStats (first_serves_attempted s) (first_serves_in s)
    (second_serves_attempted s) (second_serves_in s) (aces_first s)
    (aces_second s) (service_winners_first s) (service_winners_second s)
    (double_faults s) (points_won_on_first_serve s)
    (points_won_on_second_serve s) (return_points_won_vs_first s + 1)
    (return_points_won_vs_second s) (return_winners s)
    (return_unforced_errors s) (return_forced_errors s) (rally_winners s)
    (unforced_errors s) (forced_errors_drawn s) (net_points_won s)
    (net_points_total s) (break_points_won s) (break_points_total s)
    (points_won s) (points_played s).

Definition inc_return_points_won_vs_second (s : PlayerStats) : PlayerStats :=
  MkPlayerStats (first_serves_attempted s) (first_serves_in s)
    (second_serves_attempted s) (second_serves_in s) (aces_first s)
    (aces_second s) (service_winners_first s) (service_winners_second s)
    (double_faults s) (points_won_on_first_serve s)
    (points_won_on_second_serve s) (return_points_won_vs_first s)
    (return_points_won_vs_second s + 1) (return_winners s)
    (return_unforced_errors s) (return_forced_errors s) (rally_winners s)
    (unforced_errors s) (forced_errors_drawn s) (net_points_won s)
    (net_points_total s) (break_points_won s) (break_points_total s)
    (points_won s) (points_played s).

Definition inc_return_winners (s : PlayerStats) : PlayerStats :=
  MkPlayerStats (first_serves_attempted s) (first_serves_in s)
    (second_serves_attempted s) (second_serves_in s) (aces_first s)
    (aces_second s) (service_winners_first s) (service_winners_second s)
    (double_faults s) (points_won_on_first_serve s)
    (points_won_on_second_serve s) (return_points_won_vs_first s)
    (return_points_won_vs_second s) (return_winners s + 1)
    (return_unforced_errors s) (return_forced_errors s) (rally_winners s)
    (unforced_errors s) (forced_errors_drawn s) (net_points_won s)
    (net_points_total s) (break_points_won s) (break_points_total s)
    (points_won s) (points_played s).

Definition inc_return_unforced_errors (s : PlayerStats) : PlayerStats :=
  MkPlayerStats (first_serves_attempted s) (first_serves_in s)
    (second_serves_attempted s) (second_serves_in s) (aces_first s)
    (aces_second s) (service_winners_first s) (service_winners_second s)
    (double_faults s) (points_won_on_first_serve s)
    (points_won_on_second_serve s) (return_points_won_vs_first s)
    (return_points_won_vs_second s) (return_winners s)
    (return_unforced_errors s + 1) (return_forced_errors s) (rally_winners s)
    (unforced_errors s) (forced_errors_drawn s) (net_points_won s)
    (net_points_total s) (break_points_won s) (break_points_total s)
    (points_won s) (points_played s).

Definition inc_return_forced_errors (s : PlayerStats) : PlayerStats :=
  MkPlayerStats (first_serves_attempted s) (first_serves_in s)
    (second_serves_attempted s) (second_serves_in s) (aces_first s)
    (aces_second s) (service_winners_first s) (service_winners_second s)
    (double_faults s) (points_won_on_first_serve s)
    (points_won_on_second_serve s) (return_points_won_vs_first s)
    (return_points_won_vs_second s) (return_winners s)
    (return_unforced_errors s) (return_forced_errors s + 1) (rally_winners s)
    (unforced_errors s) (forced_errors_drawn s) (net_points_won s)
    (net_points_total s) (break_points_won s) (break_points_total s)
    (points_won s) (points_played s).

Definition inc_rally_winners (s : PlayerStats) : PlayerStats :=
  MkPlayerStats (first_serves_attempted s) (first_serves_in s)
    (second_serves_attempted s) (second_serves_in s) (aces_first s)
    (aces_second s) (service_winners_first s) (service_winners_second s)
    (double_faults s) (points_won_on_first_serve s)
    (points_won_on_second_serve s) (return_points_won_vs_first s)
    (return_points_won_vs_second s) (return_winners s)
    (return_unforced_errors s) (return_forced_errors s) (rally_winners s + 1)
    (unforced_errors s) (forced_errors_drawn s) (net_points_won s)
    (net_points_total s) (break_points_won s) (break_points_total s)
    (points_won s) (points_played s).

Definition inc_unforced_errors (s : PlayerStats) : PlayerStats :=
  MkPlayerStats (first_serves_attempted s) (first_serves_in s)
    (second_serves_attempted s) (second_serves_in s) (aces_first s)
    (aces_second s) (service_winners_first s) (service_winners_second s)
    (double_faults s) (points_won_on_first_serve s)
    (points_won_on_second_serve s) (return_points_won_vs_first s)
    (return_points_won_vs_second s) (return_winners s)
    (return_unforced_errors s) (return_forced_errors s) (rally_winners s)
    (unforced_errors s + 1) (forced_errors_drawn s) (net_points_won s)
    (net_points_total s) (break_points_won s) (break_points_total s)
    (points_won s) (points_played s).

Definition inc_forced_errors_drawn (s : PlayerStats) : PlayerStats :=
  MkPlayerStats (first_serves_attempted s) (first_serves_in s)
    (second_serves_attempted s) (second_serves_in s) (aces_first s)
    (aces_second s) (service_winners_first s) (service_winners_second s)
    (double_faults s) (points_won_on_first_serve s)
    (points_won_on_second_serve s) (return_points_won_vs_first s)
    (return_points_won_vs_second s) (return_winners s)
    (return_unforced_errors s) (return_forced_errors s) (rally_winners s)
    (unforced_errors s) (forced_errors_drawn s + 1) (net_points_won s)
    (net_points_total s) (break_points_won s) (break_points_total s)
    (points_won s) (points_played s).

Definition inc_net_points_won (s : PlayerStats) : PlayerStats :=
  MkPlayerStats (first_serves_attempted s) (first_serves_in s)
    (second_serves_attempted s) (second_serves_in s) (aces_first s)
    (aces_second s) (service_winners_first s) (service_winners_second s)
    (double_faults s) (points_won_on_first_serve s)
    (points_won_on_second_serve s) (return_points_won_vs_first s)
    (return_points_won_vs_second s) (return_winners s)
    (return_unforced_errors s) (return_forced_errors s) (rally_winners s)
    (unforced_errors s) (forced_errors_drawn s) (net_points_won s + 1)
    (net_points_total s) (break_points_won s) (break_points_total s)
    (points_won s) (points_played s).

Definition inc_net_points_total (s : PlayerStats) : PlayerStats :=
  MkPlayerStats (first_serves_attempted s) (first_serves_in s)
    (second_serves_attempted s) (second_serves_in s) (aces_first s)
    (aces_second s) (service_winners_first s) (service_winners_second s)
    (double_faults s) (points_won_on_first_serve s)
    (points_won_on_second_serve s) (return_points_won_vs_first s)
    (return_points_won_vs_second s) (return_winners s)
    (return_unforced_errors s) (return_forced_errors s) (rally_winners s)
    (unforced_errors s) (forced_errors_drawn s) (net_points_won s)
    (net_points_total s + 1) (break_points_won s) (break_points_total s)
    (points_won s) (points_played s).

Definition inc_break_points_won (s : PlayerStats) : PlayerStats :=
  MkPlayerStats (first_serves_attempted s) (first_serves_in s)
    (second_serves_attempted s) (second_serves_in s) (aces_first s)
    (aces_second s) (service_winners_first s) (service_winners_second s)
    (double_faults s) (points_won_on_first_serve s)
    (points_won_on_second_serve s) (return_points_won_vs_first s)
    (return_points_won_vs_second s) (return_winners s)
    (return_unforced_errors s) (return_forced_errors s) (rally_winners s)
    (unforced_errors s) (forced_errors_drawn s) (net_points_won s)
    (net_points_total s) (break_points_won s + 1) (break_points_total s)
    (points_won s) (points_played s).

Definition inc_break_points_total (s : PlayerStats) : PlayerStats :=
  MkPlayerStats (first_serves_attempted s) (first_serves_in s)
    (second_serves_attempted s) (second_serves_in s) (aces_first s)
    (aces_second s) (service_winners_first s) (service_winners_second s)
    (double_faults s) (points_won_on_first_serve s)
    (points_won_on_second_serve s) (return_points_won_vs_first s)
    (return_points_won_vs_second s) (return_winners s)
    (return_unforced_errors s) (return_forced_errors s) (rally_winners s)
    (unforced_errors s) (forced_errors_drawn s) (net_points_won s)
    (net_points_total s) (break_points_won s) (break_points_total s + 1)
    (points_won s) (points_played s).

Definition inc_points_won (s : PlayerStats) : PlayerStats :=
  MkPlayerStats (first_serves_attempted s) (first_serves_in s)
    (second_serves_attempted s) (second_serves_in s) (aces_first s)
    (aces_second s) (service_winners_first s) (service_winners_second s)
    (double_faults s) (points_won_on_first_serve s)
    (points_won_on_second_serve s) (return_points_won_vs_first s)
    (return_points_won_vs_second s) (return_winners s)
    (return_unforced_errors s) (return_forced_errors s) (rally_winners s)
    (unforced_errors s) (forced_errors_drawn s) (net_points_won s)
    (net_points_total s) (break_points_won s) (break_points_total s)
    (points_won s + 1) (points_played s).

Definition inc_points_played (s : PlayerStats) : PlayerStats :=
  MkPlayerStats (first_serves_attempted s) (first_serves_in s)
    (second_serves_attempted s) (second_serves_in s) (aces_first s)
    (aces_second s) (service_winners_first s) (service_winners_second s)
    (double_faults s) (points_won_on_first_serve s)
    (points_won_on_second_serve s) (return_points_won_vs_first s)
    (return_points_won_vs_second s) (return_winners s)
    (return_unforced_errors s) (return_forced_errors s) (rally_winners s)
    (unforced_errors s) (forced_errors_drawn s) (net_points_won s)
    (net_points_total s) (break_points_won s) (break_points_total s)
    (points_won s) (points_played s + 1).

(** [PlayerStats()]: every counter starts at zero. *)
Definition PlayerStats_new : PlayerStats :=
  MkPlayerStats 0 0 0 0 0 0 0 0 0 0 0 0 0 0 0 0 0 0 0 0 0 0 0 0 0.

Record PointLogEntry : Type := MkPointLogEntry {
  set_index : Z;
  game_index : Z;
  in_tiebreak : bool;
  tiebreak_point_number : Z;
  point_number_in_game : Z;
  server_player : Z;
  serve_type : ServeType;
  event_chain : string;
  point_winner : Z;
  was_break_point : bool;
  was_game_point : bool;
  was_set_point : bool;
  was_match_point : bool
}.

Definition with_serve_type (v : ServeType) (e : PointLogEntry) : PointLogEntry :=
  MkPointLogEntry (set_index e) (game_index e) (in_tiebreak e)
    (tiebreak_point_number e) (point_number_in_game e) (server_player e) v
    (event_chain e) (point_winner e) (was_break_point e) (was_game_point e)
    (was_set_point e) (was_match_point e).

Definition with_event_chain (v : string) (e : PointLogEntry) : PointLogEntry :=
  MkPointLogEntry (set_index e) (game_index e) (in_tiebreak e)
    (tiebreak_point_number e) (point_number_in_game e) (server_player e)
    (serve_type e) v (point_winner e) (was_break_point e) (was_game_point e)
    (was_set_point e) (was_match_point e).

Definition with_point_winner (v : Z) (e : PointLogEntry) : PointLogEntry :=
  MkPointLogEntry (set_index e) (game_index e) (in_tiebreak e)
    (tiebreak_point_number e) (point_number_in_game e) (server_player e)
    (serve_type e) (event_chain e) v (was_break_point e) (was_game_point e)
    (was_set_point e) (was_match_point e).

(** A default-constructed [PointLogEntry]. *)
Definition PointLogEntry_new : PointLogEntry :=
  MkPointLogEntry 0 0 false 0 0 0 SERVE_NONE EmptyString 0 false false false
    false.

(** The tiebreak counters of a set record are [tb_points_p1] and
    [tb_points_p2] in the source; they carry the prefix [ss_] here because
    [MatchState] has fields of the same names. *)
Record SetScore : Type := MkSetScore {
  games_player1 : Z;
  games_player2 : Z;
  set_finished : bool;
  set_tiebreak_played : bool;
  ss_tb_points_p1 : Z;
  ss_tb_points_p2 : Z
}.

Definition with_games_player1 (v : Z) (ss : SetScore) : SetScore :=
  MkSetScore v (games_player2 ss) (set_finished ss) (set_tiebreak_played ss)
    (ss_tb_points_p1 ss) (ss_tb_points_p2 ss).

Definition with_games_player2 (v : Z) (ss : SetScore) : SetScore :=
  MkSetScore (games_player1 ss) v (set_finished ss) (set_tiebreak_played ss)
    (ss_tb_points_p1 ss) (ss_tb_points_p2 ss).

Definition with_set_finished (v : bool) (ss : SetScore) : SetScore :=
  MkSetScore (games_player1 ss) (games_player2 ss) v (set_tiebreak_played ss)
    (ss_tb_points_p1 ss) (ss_tb_points_p2 ss).

Definition with_set_tiebreak_played (v : bool) (ss : SetScore) : SetScore :=
  MkSetScore (games_player1 ss) (games_player2 ss) (set_finished ss) v
    (ss_tb_points_p1 ss) (ss_tb_points_p2 ss).

Definition with_ss_tb_points_p1 (v : Z) (ss : SetScore) : SetScore :=
  MkSetScore (games_player1 ss) (games_player2 ss) (set_finished ss)
    (set_tiebreak_played ss) v (ss_tb_points_p2 ss).

Definition with_ss_tb_points_p2 (v : Z) (ss : SetScore) : SetScore :=
  MkSetScore (games_player1 ss) (games_player2 ss) (set_finished ss)
    (set_tiebreak_played ss) (ss_tb_points_p1 ss) v.

(** A default-constructed [SetScore]. *)
Definition SetScore_new : SetScore := MkSetScore 0 0 false false 0 0.

Record MatchState : Type := MkMatchState {
  player1_name : string;
  player2_name : string;
  location : string;
  format : FormatConfig;
  best_of_sets : Z;
  sets_to_win : Z;
  sets : list SetScore;
  per_set_stats_p1 : list PlayerStats;
  per_set_stats_p2 : list PlayerStats;
  current_set_index : Z;
  game_points_p1 : Z;
  game_points_p2 : Z;
  in_set_tiebreak : bool;
  in_match_tiebreak10 : bool;
  tb_points_p1 : Z;
  tb_points_p2 : Z;
  tb_start_server : Z;
  current_server : Z;
  sets_won_p1 : Z;
  sets_won_p2 : Z;
  match_stats_p1 : PlayerStats;
  match_stats_p2 : PlayerStats;
  current_point_serve : ServeType;
  log_entries : list PointLogEntry
}.

Definition with_player1_name (v : string) (st : MatchState) : MatchState :=
  MkMatchState v (player2_name st) (location st) (format st) (best_of_sets st)
    (sets_to_win st) (sets st) (per_set_stats_p1 st) (per_set_stats_p2 st)
    (current_set_index st) (game_points_p1 st) (game_points_p2 st)
    (in_set_tiebreak st) (in_match_tiebreak10 st) (tb_points_p1 st)
    (tb_points_p2 st) (tb_start_server st) (current_server st)
    (sets_won_p1 st) (sets_won_p2 st) (match_stats_p1 st) (match_stats_p2 st)
    (current_point_serve st) (log_entries st).

Definition with_player2_name (v : string) (st : MatchState) : MatchState :=
  MkMatchState (player1_name st) v (location st) (format st) (best_of_sets st)
    (sets_to_win st) (sets st) (per_set_stats_p1 st) (per_set_stats_p2 st)
    (current_set_index st) (game_points_p1 st) (game_points_p2 st)
    (in_set_tiebreak st) (in_match_tiebreak10 st) (tb_points_p1 st)
    (tb_points_p2 st) (tb_start_server st) (current_server st)
    (sets_won_p1 st) (sets_won_p2 st) (match_stats_p1 st) (match_stats_p2 st)
    (current_point_serve st) (log_entries st).

Definition with_location (v : string) (st : MatchState) : MatchState :=
  MkMatchState (player1_name st) (player2_name st) v (format st)
    (best_of_sets st) (sets_to_win st) (sets st) (per_set_stats_p1 st)
    (per_set_stats_p2 st) (current_set_index st) (game_points_p1 st)
    (game_points_p2 st) (in_set_tiebreak st) (in_match_tiebreak10 st)
    (tb_points_p1 st) (tb_points_p2 st) (tb_start_server st)
    (current_server st) (sets_won_p1 st) (sets_won_p2 st) (match_stats_p1 st)
    (match_stats_p2 st) (current_point_serve st) (log_entries st).

Definition with_format (v : FormatConfig) (st : MatchState) : MatchState :=
  MkMatchState (player1_name st) (player2_name st) (location st) v
    (best_of_sets st) (sets_to_win st) (sets st) (per_set_stats_p1 st)
    (per_set_stats_p2 st) (current_set_index st) (game_points_p1 st)
    (game_points_p2 st) (in_set_tiebreak st) (in_match_tiebreak10 st)
    (tb_points_p1 st) (tb_points_p2 st) (tb_start_server st)
    (current_server st) (sets_won_p1 st) (sets_won_p2 st) (match_stats_p1 st)
    (match_stats_p2 st) (current_point_serve st) (log_entries st).

Definition with_sets (v : list SetScore) (st : MatchState) : MatchState :=
  MkMatchState (player1_name st) (player2_name st) (location st) (format st)
    (best_of_sets st) (sets_to_win st) v (per_set_stats_p1 st)
    (per_set_stats_p2 st) (current_set_index st) (game_points_p1 st)
    (game_points_p2 st) (in_set_tiebreak st) (in_match_tiebreak10 st)
    (tb_points_p1 st) (tb_points_p2 st) (tb_start_server st)
    (current_server st) (sets_won_p1 st) (sets_won_p2 st) (match_stats_p1 st)
    (match_stats_p2 st) (current_point_serve st) (log_entries st).

Definition with_per_set_stats_p1 (v : list PlayerStats) (st : MatchState) : MatchState :=
  MkMatchState (player1_name st) (player2_name st) (location st) (format st)
    (best_of_sets st) (sets_to_win st) (sets st) v (per_set_stats_p2 st)
    (current_set_index st) (game_points_p1 st) (game_points_p2 st)
    (in_set_tiebreak st) (in_match_tiebreak10 st) (tb_points_p1 st)
    (tb_points_p2 st) (tb_start_server st) (current_server st)
    (sets_won_p1 st) (sets_won_p2 st) (match_stats_p1 st) (match_stats_p2 st)
    (current_point_serve st) (log_entries st).

Definition with_per_set_stats_p2 (v : list PlayerStats) (st : MatchState) : MatchState :=
  MkMatchState (player1_name st) (player2_name st) (location st) (format st)
    (best_of_sets st) (sets_to_win st) (sets st) (per_set_stats_p1 st) v
    (current_set_index st) (game_points_p1 st) (game_points_p2 st)
    (in_set_tiebreak st) (in_match_tiebreak10 st) (tb_points_p1 st)
    (tb_points_p2 st) (tb_start_server st) (current_server st)
    (sets_won_p1 st) (sets_won_p2 st) (match_stats_p1 st) (match_stats_p2 st)
    (current_point_serve st) (log_entries st).

Definition with_current_set_index (v : Z) (st : MatchState) : MatchState :=
  MkMatchState (player1_name st) (player2_name st) (location st) (format st)
    (best_of_sets st) (sets_to_win st) (sets st) (per_set_stats_p1 st)
    (per_set_stats_p2 st) v (game_points_p1 st) (game_points_p2 st)
    (in_set_tiebreak st) (in_match_tiebreak10 st) (tb_points_p1 st)
    (tb_points_p2 st) (tb_start_server st) (current_server st)
    (sets_won_p1 st) (sets_won_p2 st) (match_stats_p1 st) (match_stats_p2 st)
    (current_point_serve st) (log_entries st).

Definition with_game_points_p1 (v : Z) (st : MatchState) : MatchState :=
  MkMatchState (player1_name st) (player2_name st) (location st) (format st)
    (best_of_sets st) (sets_to_win st) (sets st) (per_set_stats_p1 st)
    (per_set_stats_p2 st) (current_set_index st) v (game_points_p2 st)
    (in_set_tiebreak st) (in_match_tiebreak10 st) (tb_points_p1 st)
    (tb_points_p2 st) (tb_start_server st) (current_server st)
    (sets_won_p1 st) (sets_won_p2 st) (match_stats_p1 st) (match_stats_p2 st)
    (current_point_serve st) (log_entries st).

Definition with_game_points_p2 (v : Z) (st : MatchState) : MatchState :=
  MkMatchState (player1_name st) (player2_name st) (location st) (format st)
    (best_of_sets st) (sets_to_win st) (sets st) (per_set_stats_p1 st)
    (per_set_stats_p2 st) (current_set_index st) (game_points_p1 st) v
    (in_set_tiebreak st) (in_match_tiebreak10 st) (tb_points_p1 st)
    (tb_points_p2 st) (tb_start_server st) (current_server st)
    (sets_won_p1 st) (sets_won_p2 st) (match_stats_p1 st) (match_stats_p2 st)
    (current_point_serve st) (log_entries st).

Definition with_in_set_tiebreak (v : bool) (st : MatchState) : MatchState :=
  MkMatchState (player1_name st) (player2_name st) (location st) (format st)
    (best_of_sets st) (sets_to_win st) (sets st) (per_set_stats_p1 st)
    (per_set_stats_p2 st) (current_set_index st) (game_points_p1 st)
    (game_points_p2 st) v (in_match_tiebreak10 st) (tb_points_p1 st)
    (tb_points_p2 st) (tb_start_server st) (current_server st)
    (sets_won_p1 st) (sets_won_p2 st) (match_stats_p1 st) (match_stats_p2 st)
    (current_point_serve st) (log_entries st).

Definition with_in_match_tiebreak10 (v : bool) (st : MatchState) : MatchState :=
  MkMatchState (player1_name st) (player2_name st) (location st) (format st)
    (best_of_sets st) (sets_to_win st) (sets st) (per_set_stats_p1 st)
    (per_set_stats_p2 st) (current_set_index st) (game_points_p1 st)
    (game_points_p2 st) (in_set_tiebreak st) v (tb_points_p1 st)
    (tb_points_p2 st) (tb_start_server st) (current_server st)
    (sets_won_p1 st) (sets_won_p2 st) (match_stats_p1 st) (match_stats_p2 st)
    (current_point_serve st) (log_entries st).

Definition with_tb_points_p1 (v : Z) (st : MatchState) : MatchState :=
  MkMatchState (player1_name st) (player2_name st) (location st) (format st)
    (best_of_sets st) (sets_to_win st) (sets st) (per_set_stats_p1 st)
    (per_set_stats_p2 st) (current_set_index st) (game_points_p1 st)
    (game_points_p2 st) (in_set_tiebreak st) (in_match_tiebreak10 st) v
    (tb_points_p2 st) (tb_start_server st) (current_server st)
    (sets_won_p1 st) (sets_won_p2 st) (match_stats_p1 st) (match_stats_p2 st)
    (current_point_serve st) (log_entries st).

Definition with_tb_points_p2 (v : Z) (st : MatchState) : MatchState :=
  MkMatchState (player1_name st) (player2_name st) (location st) (format st)
    (best_of_sets st) (sets_to_win st) (sets st) (per_set_stats_p1 st)
    (per_set_stats_p2 st) (current_set_index st) (game_points_p1 st)
    (game_points_p2 st) (in_set_tiebreak st) (in_match_tiebreak10 st)
    (tb_points_p1 st) v (tb_start_server st) (current_server st)
    (sets_won_p1 st) (sets_won_p2 st) (match_stats_p1 st) (match_stats_p2 st)
    (current_point_serve st) (log_entries st).

Definition with_tb_start_server (v : Z) (st : MatchState) : MatchState :=
  MkMatchState (player1_name st) (player2_name st) (location st) (format st)
    (best_of_sets st) (sets_to_win st) (sets st) (per_set_stats_p1 st)
    (per_set_stats_p2 st) (current_set_index st) (game_points_p1 st)
    (game_points_p2 st) (in_set_tiebreak st) (in_match_tiebreak10 st)
    (tb_points_p1 st) (tb_points_p2 st) v (current_server st) (sets_won_p1 st)
    (sets_won_p2 st) (match_stats_p1 st) (match_stats_p2 st)
    (current_point_serve st) (log_entries st).

Definition with_current_server (v : Z) (st : MatchState) : MatchState :=
  MkMatchState (player1_name st) (player2_name st) (location st) (format st)
    (best_of_sets st) (sets_to_win st) (sets st) (per_set_stats_p1 st)
    (per_set_stats_p2 st) (current_set_index st) (game_points_p1 st)
    (game_points_p2 st) (in_set_tiebreak st) (in_match_tiebreak10 st)
    (tb_points_p1 st) (tb_points_p2 st) (tb_start_server st) v
    (sets_won_p1 st) (sets_won_p2 st) (match_stats_p1 st) (match_stats_p2 st)
    (current_point_serve st) (log_entries st).

Definition with_sets_won_p1 (v : Z) (st : MatchState) : MatchState :=
  MkMatchState (player1_name st) (player2_name st) (location st) (format st)
    (best_of_sets st) (sets_to_win st) (sets st) (per_set_stats_p1 st)
    (per_set_stats_p2 st) (current_set_index st) (game_points_p1 st)
    (game_points_p2 st) (in_set_tiebreak st) (in_match_tiebreak10 st)
    (tb_points_p1 st) (tb_points_p2 st) (tb_start_server st)
    (current_server st) v (sets_won_p2 st) (match_stats_p1 st)
    (match_stats_p2 st) (current_point_serve st) (log_entries st).

Definition with_sets_won_p2 (v : Z) (st : MatchState) : MatchState :=
  MkMatchState (player1_name st) (player2_name st) (location st) (format st)
    (best_of_sets st) (sets_to_win st) (sets st) (per_set_stats_p1 st)
    (per_set_stats_p2 st) (current_set_index st) (game_points_p1 st)
    (game_points_p2 st) (in_set_tiebreak st) (in_match_tiebreak10 st)
    (tb_points_p1 st) (tb_points_p2 st) (tb_start_server st)
    (current_server st) (sets_won_p1 st) v (match_stats_p1 st)
    (match_stats_p2 st) (current_point_serve st) (log_entries st).

Definition with_match_stats_p1 (v : PlayerStats) (st : MatchState) : MatchState :=
  MkMatchState (player1_name st) (player2_name st) (location st) (format st)
    (best_of_sets st) (sets_to_win st) (sets st) (per_set_stats_p1 st)
    (per_set_stats_p2 st) (current_set_index st) (game_points_p1 st)
    (game_points_p2 st) (in_set_tiebreak st) (in_match_tiebreak10 st)
    (tb_points_p1 st) (tb_points_p2 st) (tb_start_server st)
    (current_server st) (sets_won_p1 st) (sets_won_p2 st) v
    (match_stats_p2 st) (current_point_serve st) (log_entries st).

Definition with_match_stats_p2 (v : PlayerStats) (st : MatchState) : MatchState :=
  MkMatchState (player1_name st) (player2_name st) (location st) (format st)
    (best_of_sets st) (sets_to_win st) (sets st) (per_set_stats_p1 st)
    (per_set_stats_p2 st) (current_set_index st) (game_points_p1 st)
    (game_points_p2 st) (in_set_tiebreak st) (in_match_tiebreak10 st)
    (tb_points_p1 st) (tb_points_p2 st) (tb_start_server st)
    (current_server st) (sets_won_p1 st) (sets_won_p2 st) (match_stats_p1 st)
    v (current_point_serve st) (log_entries st).

Definition with_current_point_serve (v : ServeType) (st : MatchState) : MatchState :=
  MkMatchState (player1_name st) (player2_name st) (location st) (format st)
    (best_of_sets st) (sets_to_win st) (sets st) (per_set_stats_p1 st)
    (per_set_stats_p2 st) (current_set_index st) (game_points_p1 st)
    (game_points_p2 st) (in_set_tiebreak st) (in_match_tiebreak10 st)
    (tb_points_p1 st) (tb_points_p2 st) (tb_start_server st)
    (current_server st) (sets_won_p1 st) (sets_won_p2 st) (match_stats_p1 st)
    (match_stats_p2 st) v (log_entries st).

Definition with_log_entries (v : list PointLogEntry) (st : MatchState) : MatchState :=
  MkMatchState (player1_name st) (player2_name st) (location st) (format st)
    (best_of_sets st) (sets_to_win st) (sets st) (per_set_stats_p1 st)
    (per_set_stats_p2 st) (current_set_index st) (game_points_p1 st)
    (game_points_p2 st) (in_set_tiebreak st) (in_match_tiebreak10 st)
    (tb_points_p1 st) (tb_points_p2 st) (tb_start_server st)
    (current_server st) (sets_won_p1 st) (sets_won_p2 st) (match_stats_p1 st)
    (match_stats_p2 st) (current_point_serve st) v.

(** [MatchState st;] as [main] declares it.  The member [format] has no
    default initialiser and [main] assigns it before it is read, so the
    constructor takes it as an argument. *)
Definition MatchState_new (fc : FormatConfig) : MatchState :=
  MkMatchState EmptyString EmptyString EmptyString fc 3 2 [] [] [] 0 0 0
    false false 0 0 0 0 0 0 PlayerStats_new PlayerStats_new SERVE_NONE [].

#[global] Instance SetScore_inhabited : Inhabited SetScore :=
  populate SetScore_new.
#[global] Instance PlayerStats_inhabited : Inhabited PlayerStats :=
  populate PlayerStats_new.

(** ** Vector access *)

(** [st.sets[st.current_set_index]], read. *)
Definition current_set (st : MatchState) : SetScore :=
  sets st !!! Z.to_nat (current_set_index st).

(** [st.sets[st.current_set_index]], written through. *)
Definition alter_current_set (f : SetScore -> SetScore) (st : MatchState)
  : MatchState :=
  with_sets (alter f (Z.to_nat (current_set_index st)) (sets st)) st.

(** ** Undo stack *)

(** The program and its global [history_stack]. *)
Record Tracker : Type := MkTracker {
  live : MatchState;
  history_stack : list MatchState
}.

Definition push_history (st : MatchState) (h : list MatchState)
  : list MatchState := h ++ [st].

(** [pop_history] returns its flag, the state left in [st] and the stack. *)
Definition pop_history (st : MatchState) (h : list MatchState)
  : bool * MatchState * list MatchState :=
  match last h with
  | None => (false, st, h)
  | Some top => (true, top, removelast h)
  end.

(** ** Tiebreak server *)

Definition compute_tiebreak_server (st : MatchState) : MatchState :=
  let total := tb_points_p1 st + tb_points_p2 st in
  let mod4 := Z.rem total 4 in
  let start := tb_start_server st in
  let opp := if start =? 0 then 1 else 0 in
  if (mod4 =? 0) || (mod4 =? 3) then with_current_server start st
  else with_current_server opp st.

(** ** Scoring helpers *)

Definition is_game_point_for (gp_winner gp_loser : Z) : bool :=
  if gp_winner <=? 2 then false
  else if (gp_winner =? 3) && (gp_loser <=? 2) then true
  else if (gp_winner >=? 3) && (gp_loser >=? 3) then
         if gp_winner =? gp_loser + 1 then true else false
  else false.

Definition is_break_point_if_receiver_wins (st : MatchState) : bool :=
  let receiver := if current_server st =? 0 then 1 else 0 in
  let gp_receiver :=
    if receiver =? 0 then game_points_p1 st else game_points_p2 st in
  let gp_server :=
    if receiver =? 0 then game_points_p2 st else game_points_p1 st in
  is_game_point_for gp_receiver gp_server.

Definition is_set_point_if_player_wins (st : MatchState) (player : Z) : bool :=
  if in_set_tiebreak st || in_match_tiebreak10 st then false
  else
    let ss := current_set st in
    let gp_you := if player =? 0 then game_points_p1 st else game_points_p2 st in
    let gp_opp := if player =? 0 then game_points_p2 st else game_points_p1 st in
    if negb (is_game_point_for gp_you gp_opp) then false
    else
      let g_you := if player =? 0 then games_player1 ss else games_player2 ss in
      let g_opp := if player =? 0 then games_player2 ss else games_player1 ss in
      let gy := g_you + 1 in
      if (gy >=? games_to_win_set (format st)) && (gy - g_opp >=? 2) then true
      else false.

Definition is_match_point_if_player_wins (st : MatchState) (player : Z)
  : bool :=
  if in_set_tiebreak st || in_match_tiebreak10 st then false
  else if negb (is_set_point_if_player_wins st player) then false
  else
    let sets_have := if player =? 0 then sets_won_p1 st else sets_won_p2 st in
    sets_have =? sets_to_win st - 1.

(** ** References to [PlayerStats] objects

    [add_stats_point_ownership] and [add_stats_net] take [PlayerStats&].  A
    reference is modelled by the place it denotes, and an update through it
    rewrites that place of the state, so that two references to one object
    would see each other's writes. *)
Inductive StatsRef : Type :=
  | MatchP1 | MatchP2
  | SetP1 (i : Z) | SetP2 (i : Z).

Definition update_ref (r : StatsRef) (f : PlayerStats -> PlayerStats)
  (st : MatchState) : MatchState :=
  match r with
  | MatchP1 => with_match_stats_p1 (f (match_stats_p1 st)) st
  | MatchP2 => with_match_stats_p2 (f (match_stats_p2 st)) st
  | SetP1 i =>
      with_per_set_stats_p1 (alter f (Z.to_nat i) (per_set_stats_p1 st)) st
  | SetP2 i =>
      with_per_set_stats_p2 (alter f (Z.to_nat i) (per_set_stats_p2 st)) st
  end.

Definition add_stats_point_ownership (winner loser : StatsRef)
  (st : MatchState) : MatchState :=
  let st := update_ref winner inc_points_won st in
  let st := update_ref winner inc_points_played st in
  update_ref loser inc_points_played st.

Definition add_stats_net (who : StatsRef) (won : bool) (st : MatchState)
  : MatchState :=
  let st := update_ref who inc_net_points_total st in
  if won then update_ref who inc_net_points_won st else st.

(** ** State transitions *)

Definition start_new_set (st : MatchState) : MatchState :=
  let st := with_sets (sets st ++ [SetScore_new]) st in
  let st := with_per_set_stats_p1 (per_set_stats_p1 st ++ [PlayerStats_new]) st in
  let st := with_per_set_stats_p2 (per_set_stats_p2 st ++ [PlayerStats_new]) st in
  let st := with_current_set_index (Z.of_nat (length (sets st)) - 1) st in
  let st := with_game_points_p1 0 st in
  let st := with_game_points_p2 0 st in
  let st := with_in_set_tiebreak false st in
  let st := with_tb_points_p1 0 st in
  with_tb_points_p2 0 st.

Definition award_game (st : MatchState) (player : Z) : MatchState :=
  let st :=
    if player =? 0
    then alter_current_set (fun ss => with_games_player1 (games_player1 ss + 1) ss) st
    else alter_current_set (fun ss => with_games_player2 (games_player2 ss + 1) ss) st in
  let st := with_current_server (if current_server st =? 0 then 1 else 0) st in
  let st := with_game_points_p1 0 st in
  with_game_points_p2 0 st.

Definition check_enter_set_tiebreak (st : MatchState) : bool :=
  let ss := current_set st in
  (games_player1 ss =? tiebreak_at_games (format st))
  && (games_player2 ss =? tiebreak_at_games (format st)).

(** [set_is_won_now] returns [true] and stores the winner through its
    reference argument, or returns [false]: [Some winner] or [None]. *)
Definition set_is_won_now (st : MatchState) : option Z :=
  let ss := current_set st in
  if in_set_tiebreak st then
    if ((tb_points_p1 st >=? set_tiebreak_points (format st))
        || (tb_points_p2 st >=? set_tiebreak_points (format st)))
       && (Z.abs (tb_points_p1 st - tb_points_p2 st) >=? 2)
    then Some (if tb_points_p1 st >? tb_points_p2 st then 0 else 1)
    else None
  else
    let g1 := games_player1 ss in
    let g2 := games_player2 ss in
    if ((g1 >=? games_to_win_set (format st))
        || (g2 >=? games_to_win_set (format st)))
       && (Z.abs (g1 - g2) >=? 2)
    then Some (if g1 >? g2 then 0 else 1)
    else None.

Definition close_set_and_prepare_next (st : MatchState) (set_winner : Z)
  : MatchState :=
  let st := alter_current_set (with_set_finished true) st in
  let st :=
    if set_winner =? 0 then with_sets_won_p1 (sets_won_p1 st + 1) st
    else with_sets_won_p2 (sets_won_p2 st + 1) st in
  let match_over :=
    (sets_won_p1 st =? sets_to_win st) || (sets_won_p2 st =? sets_to_win st) in
  if negb match_over then
    if (Z.of_nat (length (sets st)) =? 2)
       && (match deciding (format st) with
           | DECIDING_TB10 => true
           | DECIDING_REGULAR => false
           end)
       && (sets_won_p1 st =? 1) && (sets_won_p2 st =? 1)
    then
      let st := with_in_match_tiebreak10 true st in
      let st := with_tb_points_p1 0 st in
      with_tb_points_p2 0 st
    else start_new_set st
  else st.

(** As [set_is_won_now], the winner comes back as an option. *)
Definition match_tiebreak10_won (st : MatchState) : option Z :=
  if negb (in_match_tiebreak10 st) then None
  else if ((tb_points_p1 st >=? deciding_tb_points (format st))
           || (tb_points_p2 st >=? deciding_tb_points (format st)))
          && (Z.abs (tb_points_p1 st - tb_points_p2 st) >=? 2)
  then Some (if tb_points_p1 st >? tb_points_p2 st then 0 else 1)
  else None.

Definition match_is_over_now (st : MatchState) : bool :=
  (sets_won_p1 st =? sets_to_win st) || (sets_won_p2 st =? sets_to_win st).

(** ** Stats updates *)

(** Every [add_*] function below starts with
    [PlayerStats& ms = (who==0 ? st.match_stats_p1 : st.match_stats_p2);]
    [PlayerStats& ps = (who==0 ? st.per_set_stats_p1[st.current_set_index]
                               : st.per_set_stats_p2[st.current_set_index]);]
    and then increments one counter of [ms] and the same counter of [ps]. *)
Definition ms_ref (who : Z) : StatsRef :=
  if who =? 0 then MatchP1 else MatchP2.

Definition ps_ref (st : MatchState) (who : Z) : StatsRef :=
  if who =? 0 then SetP1 (current_set_index st)
  else SetP2 (current_set_index st).

(** [ms.x++; ps.x++;] *)
Definition bump (who : Z) (inc : PlayerStats -> PlayerStats) (st : MatchState)
  : MatchState :=
  let ms := ms_ref who in
  let ps := ps_ref st who in
  let st := update_ref ms inc st in
  update_ref ps inc st.

Definition add_serve_attempt (st : MatchState) (server : Z) (t : ServeType)
  (in_or_fault : bool) : MatchState :=
  match t with
  | SERVE_FIRST =>
      let st := bump server inc_first_serves_attempted st in
      if in_or_fault then bump server inc_first_serves_in st else st
  | SERVE_SECOND =>
      let st := bump server inc_second_serves_attempted st in
      if in_or_fault then bump server inc_second_serves_in st else st
  | SERVE_NONE => st
  end.

Definition add_double_fault (st : MatchState) (server : Z) : MatchState :=
  bump server inc_double_faults st.

Definition add_ace (st : MatchState) (server : Z) (t : ServeType)
  : MatchState :=
  match t with
  | SERVE_FIRST => bump server inc_aces_first st
  | SERVE_SECOND => bump server inc_aces_second st
  | SERVE_NONE => st
  end.

Definition add_service_winner (st : MatchState) (server : Z) (t : ServeType)
  : MatchState :=
  match t with
  | SERVE_FIRST => bump server inc_service_winners_first st
  | SERVE_SECOND => bump server inc_service_winners_second st
  | SERVE_NONE => st
  end.

(** The [kind] strings the callers pass to [add_return_outcome] and
    [add_rally_outcome] are literals; each function compares against three
    of them and ignores any other. *)
Definition add_return_outcome (st : MatchState) (returner : Z) (kind : string)
  : MatchState :=
  if String.eqb kind "winner" then bump returner inc_return_winners st
  else if String.eqb kind "ue" then bump returner inc_return_unforced_errors st
  else if String.eqb kind "fe" then bump returner inc_return_forced_errors st
  else st.

Definition add_rally_outcome (st : MatchState) (player : Z) (kind : string)
  : MatchState :=
  if String.eqb kind "winner" then bump player inc_rally_winners st
  else if String.eqb kind "ue" then bump player inc_unforced_errors st
  else if String.eqb kind "fedrawn" then bump player inc_forced_errors_drawn st
  else st.

Definition add_return_points_won (st : MatchState) (returner : Z)
  (t : ServeType) : MatchState :=
  match t with
  | SERVE_FIRST => bump returner inc_return_points_won_vs_first st
  | SERVE_SECOND => bump returner inc_return_points_won_vs_second st
  | SERVE_NONE => st
  end.

Definition add_server_point_won (st : MatchState) (server : Z) (t : ServeType)
  : MatchState :=
  match t with
  | SERVE_FIRST => bump server inc_points_won_on_first_serve st
  | SERVE_SECOND => bump server inc_points_won_on_second_serve st
  | SERVE_NONE => st
  end.

Definition maybe_count_break_point (st : MatchState)
  (was_bp returner_won : bool) : MatchState :=
  if negb was_bp then st
  else
    let returner_player := if current_server st =? 0 then 1 else 0 in
    let st := bump returner_player inc_break_points_total st in
    if returner_won then bump returner_player inc_break_points_won st else st.

Definition get_format_by_choice (c : Z) : FormatConfig :=
  if c =? 1 then MkFormatConfig 6 6 7 DECIDING_REGULAR 10
  else if c =? 2 then MkFormatConfig 6 6 7 DECIDING_TB10 10
  else MkFormatConfig 4 4 7 DECIDING_REGULAR 10.

(** ** Core point logic *)

Definition give_point_regular (st : MatchState) (winner_player : Z)
  : MatchState :=
  let st :=
    if winner_player =? 0 then with_game_points_p1 (game_points_p1 st + 1) st
    else with_game_points_p2 (game_points_p2 st + 1) st in
  let p1 := game_points_p1 st in
  let p2 := game_points_p2 st in
  if (p1 >=? 4) || (p2 >=? 4) then
    if Z.abs (p1 - p2) >=? 2 then
      let game_winner := if p1 >? p2 then 0 else 1 in
      let st := award_game st game_winner in
      let st :=
        if negb (in_match_tiebreak10 st) && check_enter_set_tiebreak st then
          let st := with_in_set_tiebreak true st in
          let st := alter_current_set (with_set_tiebreak_played true) st in
          let st := with_tb_points_p1 0 st in
          let st := with_tb_points_p2 0 st in
          with_tb_start_server (current_server st) st
        else st in
      if negb (in_set_tiebreak st) then
        match set_is_won_now st with
        | Some set_winner => close_set_and_prepare_next st set_winner
        | None => st
        end
      else st
    else st
  else st.

Definition give_point_tiebreak (st : MatchState) (winner_player : Z)
  (is_set_tb : bool) : MatchState :=
  let st :=
    if winner_player =? 0 then with_tb_points_p1 (tb_points_p1 st + 1) st
    else with_tb_points_p2 (tb_points_p2 st + 1) st in
  if is_set_tb then
    match set_is_won_now st with
    | Some set_winner =>
        let st :=
          alter_current_set (with_ss_tb_points_p1 (tb_points_p1 st)) st in
        let st :=
          alter_current_set (with_ss_tb_points_p2 (tb_points_p2 st)) st in
        let st := with_in_set_tiebreak false st in
        close_set_and_prepare_next st set_winner
    | None => st
    end
  else
    match match_tiebreak10_won st with
    | Some mw =>
        let st :=
          if mw =? 0 then with_sets_won_p1 (sets_won_p1 st + 1) st
          else with_sets_won_p2 (sets_won_p2 st + 1) st in
        let back := default SetScore_new (last (sets st)) in
        let fin := SetScore_new in
        let fin := with_games_player1 (games_player1 back) fin in
        let fin := with_games_player2 (games_player2 back) fin in
        let fin := with_set_tiebreak_played true fin in
        let fin := with_ss_tb_points_p1 (tb_points_p1 st) fin in
        let fin := with_ss_tb_points_p2 (tb_points_p2 st) fin in
        let st := with_sets (sets st ++ [fin]) st in
        let st :=
          with_per_set_stats_p1 (per_set_stats_p1 st ++ [PlayerStats_new]) st in
        let st :=
          with_per_set_stats_p2 (per_set_stats_p2 st ++ [PlayerStats_new]) st in
        with_in_match_tiebreak10 false st
    | None => st
    end.

(** ** Recording a point

    [record_point_and_stats] reads its menus in a loop; an invalid answer, the
    stats screens and "back" change nothing and ask again.  What reaches the
    state is the last, valid answer of each menu, and the types below list
    them.  The serve menu either ends the point ([ServeEnd]), puts a serve in
    play ([ServeIn]) or leads to the admin menu; a serve in play is followed
    by the return menu and, after "return in", by the rally menu. *)

(** Serve menu 1, 2 then 1, 3. *)
Inductive ServeIn : Type := FirstIn | FirstFaultSecondIn | SecondIn.

(** Serve menu 2 then anything but 1, 4, 5, 6, 7, 8. *)
Inductive ServeEnd : Type :=
  | FirstFaultDoubleFault | DoubleFault
  | AceFirst | AceSecond | ServiceWinnerFirst | ServiceWinnerSecond.

(** Return menu 1, 2, 3. *)
Inductive ReturnEnd : Type := ReturnWinner | ReturnUE | ReturnFE.

(** Rally menu 1 to 6. *)
Inductive RallyEnd : Type :=
  | ServerWinner | ReturnerWinner | ServerUE | ReturnerUE
  | ServerFE | ReturnerFE.

(** A completed point.  [net] is [Some np] when the net point was marked
    (answer 2), [np] being the answer to "Who was at net?". *)
Inductive PointEvent : Type :=
  | OnServe (c : ServeEnd)
  | OnReturn (s : ServeIn) (r : ReturnEnd)
  | InRally (s : ServeIn) (rv : RallyEnd) (net : option Z).

(** Everything a call of [record_point_and_stats] can end with. *)
Inductive PointEntry : Type :=
  | AdminUndo | AdminEndMatch
  | Played (ev : PointEvent).

(** The four flags computed before the menus.  Only [was_break_point] is
    read afterwards. *)
Definition point_flags (st : MatchState) : bool * bool * bool * bool :=
  if negb (in_set_tiebreak st) && negb (in_match_tiebreak10 st) then
    let was_break_point := is_break_point_if_receiver_wins st in
    let gp_p1 := is_game_point_for (game_points_p1 st) (game_points_p2 st) in
    let gp_p2 := is_game_point_for (game_points_p2 st) (game_points_p1 st) in
    let was_game_point := gp_p1 || gp_p2 in
    let was_set_point :=
      is_set_point_if_player_wins st 0 || is_set_point_if_player_wins st 1 in
    let was_match_point :=
      is_match_point_if_player_wins st 0
      || is_match_point_if_player_wins st 1 in
    (was_break_point, was_game_point, was_set_point, was_match_point)
  else (false, false, false, false).

(** [entry.event_chain += s] *)
Definition add_event (s : string) (e : PointLogEntry) : PointLogEntry :=
  with_event_chain (String.append (event_chain e) s) e.

(** The statements that end every branch of a completed point:
    [st.log_entries.push_back(entry);] and the dispatch on the tiebreak
    flags. *)
Definition log_and_give_point (st : MatchState) (entry : PointLogEntry)
  (winner : Z) : MatchState :=
  let st := with_log_entries (log_entries st ++ [entry]) st in
  if in_set_tiebreak st then give_point_tiebreak st winner true
  else if in_match_tiebreak10 st then give_point_tiebreak st winner false
  else give_point_regular st winner.

(** The three ways out of the serve menu by [break]. *)
Definition serve_in_play (c : ServeIn) (st : MatchState) (server : Z)
  (entry : PointLogEntry) : MatchState * PointLogEntry :=
  match c with
  | FirstIn =>
      let st := with_current_point_serve SERVE_FIRST st in
      let st := add_serve_attempt st server SERVE_FIRST true in
      (st, add_event "1st in; " entry)
  | FirstFaultSecondIn =>
      let st := add_serve_attempt st server SERVE_FIRST false in
      let entry := add_event "1st fault -> " entry in
      let st := with_current_point_serve SERVE_SECOND st in
      let st := add_serve_attempt st server SERVE_SECOND true in
      (st, add_event "2nd in; " entry)
  | SecondIn =>
      let st := with_current_point_serve SERVE_SECOND st in
      let st := add_serve_attempt st server SERVE_SECOND true in
      (st, add_event "2nd in; " entry)
  end.

(** [record_point_and_stats] from the computation of the flags to its
    [return], for a completed point.  [st] is the state after the snapshot
    was pushed and the tiebreak server was set.  The local [was_break_point]
    is [was_bp] here; the entry's four flags are never assigned and keep the
    values of a default-constructed entry. *)
Definition play_point (st : MatchState) (ev : PointEvent) : MatchState :=
  let '(was_bp, _, _, _) := point_flags st in
  let entry :=
    MkPointLogEntry
      (current_set_index st)
      (games_player1 (current_set st) + games_player2 (current_set st))
      (in_set_tiebreak st || in_match_tiebreak10 st)
      (tb_points_p1 st + tb_points_p2 st + 1)
      (game_points_p1 st + game_points_p2 st + 1)
      (current_server st)
      (serve_type PointLogEntry_new) (event_chain PointLogEntry_new)
      (point_winner PointLogEntry_new)
      (was_break_point PointLogEntry_new) (was_game_point PointLogEntry_new)
      (was_set_point PointLogEntry_new) (was_match_point PointLogEntry_new) in
  let server := current_server st in
  let returner := if server =? 0 then 1 else 0 in
  match ev with
  | OnServe FirstFaultDoubleFault =>
      let st := add_serve_attempt st server SERVE_FIRST false in
      let entry := add_event "1st fault -> " entry in
      let st := with_current_point_serve SERVE_SECOND st in
      let st := add_serve_attempt st server SERVE_SECOND false in
      let st := add_double_fault st server in
      let entry := add_event "double fault." entry in
      let mw := if returner =? 0 then MatchP1 else MatchP2 in
      let ml := if server =? 0 then MatchP1 else MatchP2 in
      let st := add_stats_point_ownership mw ml st in
      let st := maybe_count_break_point st was_bp true in
      let entry := with_serve_type SERVE_SECOND entry in
      let entry := with_point_winner returner entry in
      log_and_give_point st entry returner
  | OnServe DoubleFault =>
      let st := with_current_point_serve SERVE_SECOND st in
      let st := add_serve_attempt st server SERVE_SECOND false in
      let st := add_double_fault st server in
      let entry := add_event "double fault." entry in
      let mw := if returner =? 0 then MatchP1 else MatchP2 in
      let ml := if server =? 0 then MatchP1 else MatchP2 in
      let st := add_stats_point_ownership mw ml st in
      let st := maybe_count_break_point st was_bp true in
      let entry := with_serve_type SERVE_SECOND entry in
      let entry := with_point_winner returner entry in
      log_and_give_point st entry returner
  | OnServe AceFirst =>
      let st := with_current_point_serve SERVE_FIRST st in
      let st := add_serve_attempt st server SERVE_FIRST true in
      let st := add_ace st server SERVE_FIRST in
      let st := add_server_point_won st server SERVE_FIRST in
      let entry := add_event "Ace (1st)." entry in
      let mw := if server =? 0 then MatchP1 else MatchP2 in
      let ml := if returner =? 0 then MatchP1 else MatchP2 in
      let st := add_stats_point_ownership mw ml st in
      let st := maybe_count_break_point st was_bp false in
      let entry := with_serve_type SERVE_FIRST entry in
      let entry := with_point_winner server entry in
      log_and_give_point st entry server
  | OnServe AceSecond =>
      let st := with_current_point_serve SERVE_SECOND st in
      let st := add_serve_attempt st server SERVE_SECOND true in
      let st := add_ace st server SERVE_SECOND in
      let st := add_server_point_won st server SERVE_SECOND in
      let entry := add_event "Ace (2nd)." entry in
      let mw := if server =? 0 then MatchP1 else MatchP2 in
      let ml := if returner =? 0 then MatchP1 else MatchP2 in
      let st := add_stats_point_ownership mw ml st in
      let st := maybe_count_break_point st was_bp false in
      let entry := with_serve_type SERVE_SECOND entry in
      let entry := with_point_winner server entry in
      log_and_give_point st entry server
  | OnServe ServiceWinnerFirst =>
      let st := with_current_point_serve SERVE_FIRST st in
      let st := add_serve_attempt st server SERVE_FIRST true in
      let st := add_service_winner st server SERVE_FIRST in
      let st := add_server_point_won st server SERVE_FIRST in
      let entry := add_event "Service winner (1st)." entry in
      let mw := if server =? 0 then MatchP1 else MatchP2 in
      let ml := if returner =? 0 then MatchP1 else MatchP2 in
      let st := add_stats_point_ownership mw ml st in
      let st := maybe_count_break_point st was_bp false in
      let entry := with_serve_type SERVE_FIRST entry in
      let entry := with_point_winner server entry in
      log_and_give_point st entry server
  | OnServe ServiceWinnerSecond =>
      let st := with_current_point_serve SERVE_SECOND st in
      let st := add_serve_attempt st server SERVE_SECOND true in
      let st := add_service_winner st server SERVE_SECOND in
      let st := add_server_point_won st server SERVE_SECOND in
      let entry := add_event "Service winner (2nd)." entry in
      let mw := if server =? 0 then MatchP1 else MatchP2 in
      let ml := if returner =? 0 then MatchP1 else MatchP2 in
      let st := add_stats_point_ownership mw ml st in
      let st := maybe_count_break_point st was_bp false in
      let entry := with_serve_type SERVE_SECOND entry in
      let entry := with_point_winner server entry in
      log_and_give_point st entry server
  | OnReturn c r =>
      let '(st, entry) := serve_in_play c st server entry in
      match r with
      | ReturnWinner =>
          let st := add_return_outcome st returner "winner" in
          let st := add_return_points_won st returner (current_point_serve st) in
          let entry := add_event "Return winner." entry in
          let mw := if returner =? 0 then MatchP1 else MatchP2 in
          let ml := if server =? 0 then MatchP1 else MatchP2 in
          let st := add_stats_point_ownership mw ml st in
          let st := maybe_count_break_point st was_bp true in
          let entry := with_serve_type (current_point_serve st) entry in
          let entry := with_point_winner returner entry in
          log_and_give_point st entry returner
      | ReturnUE =>
          let st := add_return_outcome st returner "ue" in
          let st := add_server_point_won st server (current_point_serve st) in
          let entry := add_event "Return UE." entry in
          let mw := if server =? 0 then MatchP1 else MatchP2 in
          let ml := if returner =? 0 then MatchP1 else MatchP2 in
          let st := add_stats_point_ownership mw ml st in
          let st := maybe_count_break_point st was_bp false in
          let entry := with_serve_type (current_point_serve st) entry in
          let entry := with_point_winner server entry in
          log_and_give_point st entry server
      | ReturnFE =>
          let st := add_return_outcome st returner "fe" in
          let st := add_rally_outcome st server "fedrawn" in
          let st := add_server_point_won st server (current_point_serve st) in
          let entry := add_event "Return FE (drawn by server)." entry in
          let mw := if server =? 0 then MatchP1 else MatchP2 in
          let ml := if returner =? 0 then MatchP1 else MatchP2 in
          let st := add_stats_point_ownership mw ml st in
          let st := maybe_count_break_point st was_bp false in
          let entry := with_serve_type (current_point_serve st) entry in
          let entry := with_point_winner server entry in
          log_and_give_point st entry server
      end
  | InRally c rv net =>
      let '(st, entry) := serve_in_play c st server entry in
      let entry := add_event "Return in; " entry in
      let net_mark := match net with Some _ => true | None => false end in
      let net_player :=
        match net with
        | Some np => if np =? 1 then 0 else 1
        | None => -1
        end in
      let '(st, desc, point_winner) :=
        match rv with
        | ServerWinner =>
            let st := add_rally_outcome st server "winner" in
            let st := add_server_point_won st server (current_point_serve st) in
            (st, "Rally: server winner."%string, server)
        | ReturnerWinner =>
            let st := add_rally_outcome st returner "winner" in
            let st := add_return_points_won st returner (current_point_serve st) in
            (st, "Rally: returner winner."%string, returner)
        | ServerUE =>
            let st := add_rally_outcome st server "ue" in
            let st := add_return_points_won st returner (current_point_serve st) in
            (st, "Rally: server UE."%string, returner)
        | ReturnerUE =>
            let st := add_rally_outcome st returner "ue" in
            let st := add_server_point_won st server (current_point_serve st) in
            (st, "Rally: returner UE."%string, server)
        | ServerFE =>
            let st := add_rally_outcome st returner "fedrawn" in
            let st := add_return_points_won st returner (current_point_serve st) in
            (st, "Rally: server FE (drawn by returner)."%string, returner)
        | ReturnerFE =>
            let st := add_rally_outcome st server "fedrawn" in
            let st := add_server_point_won st server (current_point_serve st) in
            (st, "Rally: returner FE (drawn by server)."%string, server)
        end in
      let mw := if point_winner =? 0 then MatchP1 else MatchP2 in
      let ml := if point_winner =? 0 then MatchP2 else MatchP1 in
      let st := add_stats_point_ownership mw ml st in
      let st :=
        if net_mark then
          if net_player =? 0 then
            let st := add_stats_net MatchP1 (point_winner =? 0) st in
            add_stats_net (SetP1 (current_set_index st)) (point_winner =? 0) st
          else
            let st := add_stats_net MatchP2 (point_winner =? 1) st in
            add_stats_net (SetP2 (current_set_index st)) (point_winner =? 1) st
        else st in
      let returner_won := point_winner =? returner in
      let st := maybe_count_break_point st was_bp returner_won in
      let entry := add_event desc entry in
      let entry := with_serve_type (current_point_serve st) entry in
      let entry := with_point_winner point_winner entry in
      log_and_give_point st entry point_winner
  end.

Definition record_point_and_stats (e : PointEntry) (t : Tracker) : Tracker :=
  let st := live t in
  let h := push_history st (history_stack t) in
  let st :=
    if in_set_tiebreak st || in_match_tiebreak10 st
    then compute_tiebreak_server st else st in
  match e with
  | AdminUndo =>
      let '(_, st, h) := pop_history st h in
      let '(_, st, h) := pop_history st h in
      MkTracker st h
  | AdminEndMatch =>
      let '(_, st, h) := pop_history st h in
      MkTracker st h
  | Played ev => MkTracker (play_point st ev) h
  end.

(** ** Main *)

(** The answers [main] reads before its loop. *)
Record Setup : Type := MkSetup {
  setup_player1 : string;
  setup_player2 : string;
  setup_location : string;
  sfirst : Z;
  fchoice : Z
}.

Definition main_init (c : Setup) : Tracker :=
  let st := MatchState_new (get_format_by_choice (fchoice c)) in
  let st := with_player1_name (setup_player1 c) st in
  let st := with_player2_name (setup_player2 c) st in
  let st := with_location (setup_location c) st in
  let st := with_current_server (if sfirst c =? 2 then 1 else 0) st in
  let st := start_new_set st in
  MkTracker st [].

(** Main menu: 1 record next point, 2 stats menu, 3 undo last point, 4 end
    match, anything else is invalid. *)
Inductive MainChoice : Type :=
  | RecordPoint (e : PointEntry)
  | StatsMenu | UndoLastPoint | EndMatch | InvalidOption.

(** The top of the loop of [main], before the menu is shown.  [tbsv] is the
    answer to "Match TB10. Who serves first?", read only when that question
    is asked. *)
Definition before_menu (tbsv : Z) (st : MatchState) : MatchState :=
  let st :=
    if in_match_tiebreak10 st && (tb_points_p1 st =? 0)
       && (tb_points_p2 st =? 0)
    then
      let st := with_tb_start_server (if tbsv =? 2 then 1 else 0) st in
      with_current_server (tb_start_server st) st
    else st in
  if in_set_tiebreak st || in_match_tiebreak10 st
  then compute_tiebreak_server st else st.

(** One turn of the loop of [main]; the result carries the value of
    [done]. *)
Definition main_turn (tbsv : Z) (m : MainChoice) (t : Tracker)
  : Tracker * bool :=
  let st := before_menu tbsv (live t) in
  let h := history_stack t in
  match m with
  | RecordPoint e =>
      let t := record_point_and_stats e (MkTracker st h) in
      if match_is_over_now (live t) then (t, true) else (t, false)
  | StatsMenu => (MkTracker st h, false)
  | UndoLastPoint =>
      let '(_, st, h) := pop_history st h in
      (MkTracker st h, false)
  | EndMatch => (MkTracker st h, true)
  | InvalidOption => (MkTracker st h, false)
  end.

(** The loop of [main] on a list of turns; it stops at the first turn that
    sets [done]. *)
Fixpoint main_loop (turns : list (Z * MainChoice)) (t : Tracker)
  : Tracker * bool :=
  match turns with
  | [] => (t, false)
  | (tbsv, m) :: rest =>
      let '(t', done) := main_turn tbsv m t in
      if done then (t', true) else main_loop rest t'
  end.

Definition run (c : Setup) (turns : list (Z * MainChoice)) : Tracker * bool :=
  main_loop turns (main_init c).


(** * Vocabulary of the properties *)

(** [(p==0 ? 1 : 0)], the other player. *)
Definition opponent (p : Z) : Z := if p =? 0 then 1 else 0.

(** A state in a tiebreak started by [start] with [i] points played. *)
Definition tiebreak_at (st : MatchState) (start i : Z) : MatchState :=
  with_tb_start_server start (with_tb_points_p1 i (with_tb_points_p2 0 st)).


(** What an observation [g] of a [PlayerStats] object sees in a state: the
    two match-level objects and every per-set object. *)
Definition obs {X} (g : PlayerStats -> X) (st : MatchState)
  : (X * X) * (list X * list X) :=
  ((g (match_stats_p1 st), g (match_stats_p2 st)),
   (g <$> per_set_stats_p1 st, g <$> per_set_stats_p2 st)).

(** [f] does not change what [g] sees. *)
Definition keeps {X} (g : PlayerStats -> X) (f : PlayerStats -> PlayerStats)
  : Prop := forall s, g (f s) = g s.

(** Everything in a state apart from the statistics objects and the serve
    type of the point being entered; of the per-set vectors only the
    sizes. *)
Definition frame_of (st : MatchState) :=
  (player1_name st, player2_name st, location st, format st,
   best_of_sets st, sets_to_win st, sets st,
   length (per_set_stats_p1 st), length (per_set_stats_p2 st),
   current_set_index st, game_points_p1 st, game_points_p2 st,
   in_set_tiebreak st, in_match_tiebreak10 st,
   tb_points_p1 st, tb_points_p2 st, tb_start_server st, current_server st,
   sets_won_p1 st, sets_won_p2 st, log_entries st).

(** The two totals of a [PlayerStats] object. *)
Definition totals (s : PlayerStats) : Z * Z := (points_won s, points_played s).

(** The five return counters of a [PlayerStats] object. *)
Definition return_stats (s : PlayerStats) : Z * Z * Z * Z * Z :=
  (return_winners s, return_unforced_errors s, return_forced_errors s,
   return_points_won_vs_first s, return_points_won_vs_second s).

(** The match-level totals agree with the point log. *)
Definition stats_match_log (st : MatchState) : Prop :=
  let n := Z.of_nat (length (log_entries st)) in
  points_won (match_stats_p1 st) + points_won (match_stats_p2 st) = n
  /\ points_played (match_stats_p1 st) = n
  /\ points_played (match_stats_p2 st) = n.

(** What the scoring functions never write: the match-level statistics, the
    log and the serve type of the point. *)
Definition kept_by_scoring (st : MatchState) :=
  (match_stats_p1 st, match_stats_p2 st, log_entries st,
   current_point_serve st).

(** The effect of one point on the match-level totals of both players:
    the winner gains a point won, both gain a point played. *)
Definition point_to_p1 (t : (Z * Z) * (Z * Z)) : (Z * Z) * (Z * Z) :=
  ((fst (fst t) + 1, snd (fst t) + 1), (fst (snd t), snd (snd t) + 1)).
Definition point_to_p2 (t : (Z * Z) * (Z * Z)) : (Z * Z) * (Z * Z) :=
  ((fst (fst t), snd (fst t) + 1), (fst (snd t) + 1, snd (snd t) + 1)).

(** ** The invariant of the running match

    What holds of the state whenever the main menu is shown. *)
Record wf (st : MatchState) : Prop := MkWf {
  (* the current set is the last record *)
  wf_index :
    (0 < length (sets st))%nat
    /\ current_set_index st = Z.of_nat (length (sets st)) - 1;
  (* one statistics object per player and set record *)
  wf_len1 : length (per_set_stats_p1 st) = length (sets st);
  wf_len2 : length (per_set_stats_p2 st) = length (sets st);
  (* the game is still open *)
  wf_game :
    0 <= game_points_p1 st /\ 0 <= game_points_p2 st
    /\ ((game_points_p1 st <= 3 /\ game_points_p2 st <= 3)
        \/ Z.abs (game_points_p1 st - game_points_p2 st) <= 1);
  wf_tb : 0 <= tb_points_p1 st /\ 0 <= tb_points_p2 st;
  (* players are 0 and 1 *)
  wf_server :
    (current_server st = 0 \/ current_server st = 1)
    /\ (tb_start_server st = 0 \/ tb_start_server st = 1);
  (* best of three, not decided yet *)
  wf_to_win : sets_to_win st = 2;
  wf_won :
    0 <= sets_won_p1 st < 2 /\ 0 <= sets_won_p2 st < 2;
  (* the match tiebreak is played at one set all, outside any set *)
  wf_decider :
    in_match_tiebreak10 st = true ->
    in_set_tiebreak st = false /\ sets_won_p1 st = 1 /\ sets_won_p2 st = 1;
  (* the records before the current one are closed; the current one is
     closed exactly during the match tiebreak *)
  wf_finished :
    forall k s, sets st !! k = Some s ->
      set_finished s
      = (Z.of_nat k <? current_set_index st) || in_match_tiebreak10 st;
  (* every closed set was won by somebody *)
  wf_sum :
    sets_won_p1 st + sets_won_p2 st
    = current_set_index st + (if in_match_tiebreak10 st then 1 else 0)
}.

(** Number of set records marked finished. *)
Definition sets_completed (l : list SetScore) : Z :=
  Z.of_nat (length (List.filter set_finished l)).

(** The record at the back of [sets]. *)
Definition last_set (st : MatchState) : SetScore :=
  default SetScore_new (last (sets st)).

(** The match is over and the last record is not a closed set: it is the
    row [give_point_tiebreak] appends when the match tiebreak is won. *)
Definition decided_by_tiebreak10 (st : MatchState) : bool :=
  match_is_over_now st && negb (set_finished (last_set st)).

(** Where the current set index points: at the last record, or one before
    it once the match tiebreak has appended its row. *)
Definition index_ok (st : MatchState) : Prop :=
  current_set_index st
  = Z.of_nat (length (sets st)) - 1
    - (if decided_by_tiebreak10 st then 1 else 0).

(** How a decided match stands: the index is where it should be, and the
    row of the match tiebreak is there exactly when [tb10] says so. *)
Definition ends_by (tb10 : bool) (st : MatchState) : Prop :=
  index_ok st /\ decided_by_tiebreak10 st = tb10.



(** The games of player [p] in a set record. *)
Definition games_of (p : Z) (ss : SetScore) : Z :=
  if p =? 0 then games_player1 ss else games_player2 ss.

(** [deciding == DECIDING_TB10] *)
Definition is_tb10 (d : DecidingSetType) : bool :=
  match d with DECIDING_TB10 => true | DECIDING_REGULAR => false end.

(** The statistics objects of player [p]: match level, and set [i]. *)
Definition match_stats_of (p : Z) (st : MatchState) : PlayerStats :=
  if p =? 0 then match_stats_p1 st else match_stats_p2 st.

Definition set_stats_of (p : Z) (i : Z) (st : MatchState) : PlayerStats :=
  (if p =? 0 then per_set_stats_p1 st else per_set_stats_p2 st)
  !!! Z.to_nat i.

(** The per-set vectors of both players, and what they are after one
    [push_back(PlayerStats())] each. *)
Definition per_sets (st : MatchState) : list PlayerStats * list PlayerStats :=
  (per_set_stats_p1 st, per_set_stats_p2 st).

Definition grown (st : MatchState) : list PlayerStats * list PlayerStats :=
  (per_set_stats_p1 st ++ [PlayerStats_new],
   per_set_stats_p2 st ++ [PlayerStats_new]).

(** No per-set object has counted a point won or played. *)
Definition per_set_totals_zero (st : MatchState) : Prop :=
  Forall (fun s => totals s = (0, 0)) (per_set_stats_p1 st)
  /\ Forall (fun s => totals s = (0, 0)) (per_set_stats_p2 st).

(** What holds of every state of a running match, live or stored. *)
Definition good (st : MatchState) : Prop :=
  wf st /\ stats_match_log st /\ per_set_totals_zero st.

Record tracker_ok (t : Tracker) : Prop := MkTrackerOk {
  ok_live : good (live t);
  ok_history : Forall good (history_stack t)
}.

(** What holds of the state [main] ends with. *)
Definition settled (st : MatchState) : Prop :=
  index_ok st /\ stats_match_log st /\ per_set_totals_zero st.

(** The raw game points of player [p]. *)
Definition game_points_of (p : Z) (st : MatchState) : Z :=
  if p =? 0 then game_points_p1 st else game_points_p2 st.

(** The statements of [give_point_regular] that follow [award_game]: the
    entry into the set tiebreak, and the check whether the set is won. *)
Definition after_award_game (st : MatchState) : MatchState :=
  let st :=
    if negb (in_match_tiebreak10 st) && check_enter_set_tiebreak st then
      let st := with_in_set_tiebreak true st in
      let st := alter_current_set (with_set_tiebreak_played true) st in
      let st := with_tb_points_p1 0 st in
      let st := with_tb_points_p2 0 st in
      with_tb_start_server (current_server st) st
    else st in
  if negb (in_set_tiebreak st) then
    match set_is_won_now st with
    | Some set_winner => close_set_and_prepare_next st set_winner
    | None => st
    end
  else st.

(** What the game count, the server and the game points look like from
    outside. *)
Definition game_view (k : nat) (st : MatchState) : Z * Z * Z :=
  (games_player1 (sets st !!! k), games_player2 (sets st !!! k),
   current_server st).

(** ** Concrete matches *)

(** A main-menu turn that records a completed point.  The first component
    answers the match-tiebreak question, player 1 to serve first, and is
    read only when that question is asked. *)
Definition point (ev : PointEvent) : Z * MainChoice :=
  (1, RecordPoint (Played ev)).

Definition ace : Z * MainChoice := point (OnServe AceFirst).
Definition double_fault : Z * MainChoice := point (OnServe DoubleFault).

(** Four points to the server, and four to the receiver. *)
Definition hold : list (Z * MainChoice) := [ace; ace; ace; ace].
Definition break : list (Z * MainChoice) :=
  [double_fault; double_fault; double_fault; double_fault].

(** Six games to love for the player who serves the first of them, and for
    the one who receives it. *)
Definition set_to_first_server : list (Z * MainChoice) :=
  hold ++ break ++ hold ++ break ++ hold ++ break.
Definition set_to_first_receiver : list (Z * MainChoice) :=
  break ++ hold ++ break ++ hold ++ break ++ hold.

(** Player 1 serves first; format 2, the match tiebreak as decider. *)
Definition setup_tb10 : Setup :=
  MkSetup "A" "B" "Court 1" 1 2.


(** Player 1 serves first; format 1, three full sets. *)
Definition setup_full : Setup :=
  MkSetup "A" "B" "Court 1" 1 1.

From Stdlib Require Import Ascii DecimalString.

(** * Further parts of the program *)

(** ** Text helpers *)

(** [string(n, c)] *)
Fixpoint fill (n : nat) (c : ascii) : string :=
  match n with
  | O => EmptyString
  | S n => String c (fill n c)
  end.

(** [(int)s.size()] *)
Definition size (s : string) : Z := Z.of_nat (String.length s).

Definition left_pad (s : string) (width : Z) : string :=
  if size s >=? width then s
  else String.append (fill (Z.to_nat (width - size s)) " ") s.

Definition right_pad (s : string) (width : Z) : string :=
  if size s >=? width then s
  else String.append s (fill (Z.to_nat (width - size s)) " ").

(** [std::to_string] of an [int]: decimal digits, with a minus sign for a
    negative number. *)
Definition to_string (n : Z) : string := NilZero.string_of_int (Z.to_int n).

(** ** The points row of the scoreboard *)

Definition tennis_point_to_string (p : Z) : string :=
  if p <=? 0 then "0"
  else if p =? 1 then "15"
  else if p =? 2 then "30"
  else if p >=? 3 then "40"
  else "0".

(** The strings [pts1] and [pts2] that [print_scoreboard] computes for its
    points row. *)
Definition scoreboard_points (st : MatchState) : string * string :=
  if in_set_tiebreak st || in_match_tiebreak10 st then
    (to_string (tb_points_p1 st), to_string (tb_points_p2 st))
  else if (game_points_p1 st >=? 3) && (game_points_p2 st >=? 3) then
    if game_points_p1 st =? game_points_p2 st then ("40"%string, "40"%string)
    else if game_points_p1 st =? game_points_p2 st + 1 then ("Ad"%string, EmptyString)
    else if game_points_p2 st =? game_points_p1 st + 1 then (EmptyString, "Ad"%string)
    else (tennis_point_to_string (game_points_p1 st),
          tennis_point_to_string (game_points_p2 st))
  else (tennis_point_to_string (game_points_p1 st),
        tennis_point_to_string (game_points_p2 st)).

(** ** Characters written to the export files *)

(** The characters the export loops compare with: the double quote, the
    apostrophe and the backslash. *)
Definition dquote : ascii := ascii_of_nat 34.
Definition apostrophe : ascii := ascii_of_nat 39.
Definition backslash : ascii := ascii_of_nat 92.

(** The loop over [ev] in [save_csvs] that overwrites every double quote
    with an apostrophe: the event text as it is written between the quotes
    of the last column of [_points.csv]. *)
Fixpoint csv_event (ev : string) : string :=
  match ev with
  | EmptyString => EmptyString
  | String c rest =>
      String (if Ascii.eqb c dquote then apostrophe else c) (csv_event rest)
  end.

(** The loop of [save_match_files] that writes the event text of a log
    entry into the JSON file: a double quote and a backslash are written with
    a backslash before them, every other character as it is. *)
Fixpoint json_event (ev : string) : string :=
  match ev with
  | EmptyString => EmptyString
  | String c rest =>
      if Ascii.eqb c dquote
      then String backslash (String dquote (json_event rest))
      else if Ascii.eqb c backslash
      then String backslash (String backslash (json_event rest))
      else String c (json_event rest)
  end.

(** [for (char& c : base) if (c==' ') c='_';] *)
Fixpoint underscores (base : string) : string :=
  match base with
  | EmptyString => EmptyString
  | String c rest =>
      String (if Ascii.eqb c " " then "_"%char else c) (underscores rest)
  end.

(** The base name of the files [save_match_files] writes; [stamp] is what
    [now_date_time_string] returned. *)
Definition file_base (st : MatchState) (stamp : string) : string :=
  underscores
    (String.append (player1_name st)
       (String.append "_vs_"
          (String.append (player2_name st) (String.append "_" stamp)))).

(** Reading back what [json_event] wrote: a backslash stands for the
    character after it. *)
Fixpoint json_unescape (s : string) : string :=
  match s with
  | EmptyString => EmptyString
  | String c rest =>
      if Ascii.eqb c backslash then
        match rest with
        | EmptyString => EmptyString
        | String d rest' => String d (json_unescape rest')
        end
      else String c (json_unescape rest)
  end.

(** The characters of a string. *)
Definition chars (s : string) : list ascii := list_ascii_of_string s.

(** ** Turns of the main menu *)

(** Turns that record completed points, and turns that choose "undo last
    point"; the first component of a turn answers the match-tiebreak
    question. *)
Definition played_turns (pts : list (Z * PointEvent)) : list (Z * MainChoice) :=
  (fun p => (fst p, RecordPoint (Played (snd p)))) <$> pts.

Definition undo_turns (answers : list Z) : list (Z * MainChoice) :=
  (fun a => (a, UndoLastPoint)) <$> answers.

(** The snapshots on the undo stack are the states before each point of
    the log: there is one for every log entry, and the one at position [i]
    has the first [i] entries as its log. *)
Definition history_follows_log (t : Tracker) : Prop :=
  length (history_stack t) = length (log_entries (live t))
  /\ forall i s, history_stack t !! i = Some s ->
       log_entries s = take i (log_entries (live t)).

(** ** What holds of every state, decided or not *)

(** The current set index is an index of [sets], and the per-set vectors
    have one object for every record of [sets]. *)
Definition vectors_in_step (st : MatchState) : Prop :=
  0 <= current_set_index st < Z.of_nat (length (sets st))
  /\ length (per_set_stats_p1 st) = length (sets st)
  /\ length (per_set_stats_p2 st) = length (sets st).

(** The index [show_by_set] reads the per-set vectors at when the answer
    to its question is [s]; [None] when it returns without reading. *)
Definition show_by_set_index (st : MatchState) (s : Z) : option Z :=
  if (s <? 1) || (s >? Z.of_nat (length (sets st))) then None
  else Some (s - 1).

(** At most one of the two tiebreak flags is set. *)
Definition one_mode (st : MatchState) : Prop :=
  in_set_tiebreak st && in_match_tiebreak10 st = false.

Definition steady (st : MatchState) : Prop := one_mode st /\ vectors_in_step st.

(** ** Log entries *)

(** None of the four flags of a log entry is set. *)
Definition flags_clear (e : PointLogEntry) : Prop :=
  was_break_point e = false /\ was_game_point e = false
  /\ was_set_point e = false /\ was_match_point e = false.

(** The entry names one of the two players as server and as winner, and a
    first or second serve. *)
Definition names_players (e : PointLogEntry) : Prop :=
  (server_player e = 0 \/ server_player e = 1)
  /\ (point_winner e = 0 \/ point_winner e = 1)
  /\ (serve_type e = SERVE_FIRST \/ serve_type e = SERVE_SECOND).

(** The number of log entries won by player [p]. *)
Definition points_logged_for (p : Z) (log : list PointLogEntry) : Z :=
  Z.of_nat (length (List.filter (fun e => point_winner e =? p) log)).

(** The sets won by player [p]. *)
Definition sets_won_of (p : Z) (st : MatchState) : Z :=
  if p =? 0 then sets_won_p1 st else sets_won_p2 st.

(** Player 1 serves first and wins five games, then leads 40-0 on the
    serve of player 2: a break point that is a set point; after a first set
    won 6-0 the same is a match point. *)
Definition set_point_turns : list (Z * MainChoice) :=
  hold ++ break ++ hold ++ break ++ hold
  ++ [double_fault; double_fault; double_fault].

Definition at_set_point : MatchState :=
  live (fst (run setup_full set_point_turns)).

Definition at_match_point : MatchState :=
  live (fst (run setup_full (set_to_first_server ++ set_point_turns))).

(** ** The statistics objects of a state, rewritten

    [on_stats f1 f2 h1 h2 st] is [st] with [f1] and [f2] applied to the
    match-level objects of the two players and [h1] and [h2] to their
    objects of the current set. *)
Definition on_stats (f1 f2 h1 h2 : PlayerStats -> PlayerStats)
  (st : MatchState) : MatchState :=
  let i := Z.to_nat (current_set_index st) in
  with_per_set_stats_p2 (alter h2 i (per_set_stats_p2 st))
    (with_per_set_stats_p1 (alter h1 i (per_set_stats_p1 st))
       (with_match_stats_p2 (f2 (match_stats_p2 st))
          (with_match_stats_p1 (f1 (match_stats_p1 st)) st))).

(** What [maybe_count_break_point] adds to the objects of the receiver, and
    what [add_stats_net] adds to the object it is handed. *)
Definition break_point_count (was_bp returner_won : bool)
  : PlayerStats -> PlayerStats :=
  if was_bp
  then if returner_won
       then compose inc_break_points_won inc_break_points_total
       else inc_break_points_total
  else id.

Definition net_count (won : bool) : PlayerStats -> PlayerStats :=
  if won then compose inc_net_points_won inc_net_points_total
  else inc_net_points_total.

(** ** Accounting of the statistics *)

(** The counters of [d] added to those of [s]. *)
Definition shift (d s : PlayerStats) : PlayerStats :=
  MkPlayerStats
    (first_serves_attempted s + first_serves_attempted d)
    (first_serves_in s + first_serves_in d)
    (second_serves_attempted s + second_serves_attempted d)
    (second_serves_in s + second_serves_in d) (aces_first s + aces_first d)
    (aces_second s + aces_second d)
    (service_winners_first s + service_winners_first d)
    (service_winners_second s + service_winners_second d)
    (double_faults s + double_faults d)
    (points_won_on_first_serve s + points_won_on_first_serve d)
    (points_won_on_second_serve s + points_won_on_second_serve d)
    (return_points_won_vs_first s + return_points_won_vs_first d)
    (return_points_won_vs_second s + return_points_won_vs_second d)
    (return_winners s + return_winners d)
    (return_unforced_errors s + return_unforced_errors d)
    (return_forced_errors s + return_forced_errors d)
    (rally_winners s + rally_winners d)
    (unforced_errors s + unforced_errors d)
    (forced_errors_drawn s + forced_errors_drawn d)
    (net_points_won s + net_points_won d)
    (net_points_total s + net_points_total d)
    (break_points_won s + break_points_won d)
    (break_points_total s + break_points_total d)
    (points_won s + points_won d) (points_played s + points_played d).

(** [f] adds the same to every object: what it makes of a fresh one. *)
Definition is_shift (f : PlayerStats -> PlayerStats) : Prop :=
  forall s, f s = shift (f PlayerStats_new) s.

(** Every counter of a statistics object but the two totals. *)
Definition set_counters : list (PlayerStats -> Z) :=
  [first_serves_attempted; first_serves_in; second_serves_attempted;
   second_serves_in; aces_first; aces_second; service_winners_first;
   service_winners_second; double_faults; points_won_on_first_serve;
   points_won_on_second_serve; return_points_won_vs_first;
   return_points_won_vs_second; return_winners; return_unforced_errors;
   return_forced_errors; rally_winners; unforced_errors; forced_errors_drawn;
   net_points_won; net_points_total; break_points_won; break_points_total].

(** The sum of a counter over the per-set objects. *)
Definition sum_over (g : PlayerStats -> Z) (l : list PlayerStats) : Z :=
  foldr (fun s acc => g s + acc) 0 l.

Definition counters_nonneg (s : PlayerStats) : Prop :=
  0 <= first_serves_attempted s /\ 0 <= first_serves_in s /\
  0 <= second_serves_attempted s /\ 0 <= second_serves_in s /\
  0 <= aces_first s /\ 0 <= aces_second s /\ 0 <= service_winners_first s /\
  0 <= service_winners_second s /\ 0 <= double_faults s /\
  0 <= points_won_on_first_serve s /\ 0 <= points_won_on_second_serve s /\
  0 <= return_points_won_vs_first s /\ 0 <= return_points_won_vs_second s /\
  0 <= return_winners s /\ 0 <= return_unforced_errors s /\
  0 <= return_forced_errors s /\ 0 <= rally_winners s /\
  0 <= unforced_errors s /\ 0 <= forced_errors_drawn s /\
  0 <= net_points_won s /\ 0 <= net_points_total s /\
  0 <= break_points_won s /\ 0 <= break_points_total s /\
  0 <= points_won s /\ 0 <= points_played s.

(** What the counters of a player [a] and of the opponent [b] say about the
    points [a] served: a serve put in play ends in a point for the server
    or for the receiver, a second serve is in or a double fault, a first
    serve that was not in is followed by a second, and aces and service
    winners are points won on that serve. *)
Definition serving_accounted (a b : PlayerStats) : Prop :=
  first_serves_in a
  = points_won_on_first_serve a + return_points_won_vs_first b
  /\ second_serves_in a
     = points_won_on_second_serve a + return_points_won_vs_second b
  /\ second_serves_attempted a = second_serves_in a + double_faults a
  /\ first_serves_in a <= first_serves_attempted a
  /\ first_serves_attempted a
     <= first_serves_in a + second_serves_attempted a
  /\ aces_first a + service_winners_first a <= points_won_on_first_serve a
  /\ aces_second a + service_winners_second a
     <= points_won_on_second_serve a
  /\ return_winners b
     <= return_points_won_vs_first b + return_points_won_vs_second b
  /\ return_unforced_errors b + return_forced_errors b
     <= points_won_on_first_serve a + points_won_on_second_serve a
  /\ net_points_won a <= net_points_total a
  /\ break_points_won a <= break_points_total a.

Definition accounted (a b : PlayerStats) : Prop :=
  counters_nonneg a /\ counters_nonneg b
  /\ serving_accounted a b /\ serving_accounted b a.

(** The points won by [a] are the points [a] won on serve and on return and
    the double faults of the opponent [b]. *)
Definition points_won_accounted (a b : PlayerStats) : Prop :=
  points_won a
  = points_won_on_first_serve a + points_won_on_second_serve a
    + return_points_won_vs_first a + return_points_won_vs_second a
    + double_faults b.

(** The points a player served, as the serve counters have them. *)
Definition serves_counted (s : PlayerStats) : Z :=
  first_serves_in s + second_serves_in s + double_faults s.

(** The number of log entries served by player [p]. *)
Definition points_served_by (p : Z) (log : list PointLogEntry) : Z :=
  Z.of_nat (length (List.filter (fun e => server_player e =? p) log)).

(** The seven ratios the statistics screens print are between 0 and 1. *)
Definition ratios_bounded (s : PlayerStats) : Prop :=
  0 <= first_serves_in s <= first_serves_attempted s
  /\ 0 <= points_won_on_first_serve s <= first_serves_in s
  /\ 0 <= second_serves_in s <= second_serves_attempted s
  /\ 0 <= points_won_on_second_serve s <= second_serves_in s
  /\ 0 <= net_points_won s <= net_points_total s
  /\ 0 <= break_points_won s <= break_points_total s
  /\ 0 <= points_won s <= points_played s.

(** The match-level counters are the sums of the per-set counters. *)
Definition sets_add_up (st : MatchState) : Prop :=
  Forall
    (fun g =>
       g (match_stats_p1 st) = sum_over g (per_set_stats_p1 st)
       /\ g (match_stats_p2 st) = sum_over g (per_set_stats_p2 st))
    set_counters.

(** What a completed point adds to the four statistics objects it writes:
    the same to the match-level and the per-set object of a player apart
    from the totals, which only the match-level objects get; the serve of
    the server is counted once; and what is added is accounted for by
    itself. *)
Definition point_counted (server winner : Z)
  (f1 f2 h1 h2 : PlayerStats -> PlayerStats) : Prop :=
  let d1 := f1 PlayerStats_new in
  let d2 := f2 PlayerStats_new in
  let e1 := h1 PlayerStats_new in
  let e2 := h2 PlayerStats_new in
  accounted d1 d2 /\ accounted e1 e2
  /\ points_won_accounted d1 d2 /\ points_won_accounted d2 d1
  /\ ((fun g => g d1) <$> set_counters) = ((fun g => g e1) <$> set_counters)
  /\ ((fun g => g d2) <$> set_counters) = ((fun g => g e2) <$> set_counters)
  /\ totals e1 = (0, 0) /\ totals e2 = (0, 0)
  /\ serves_counted d1 = (if server =? 0 then 1 else 0)
  /\ serves_counted d2 = (if server =? 0 then 0 else 1)
  /\ totals d1 = (if winner =? 0 then (1, 1) else (0, 1))
  /\ totals d2 = (if winner =? 0 then (0, 1) else (1, 1)).

(** What the statistics of a state say together. *)
Definition stats_accounted (st : MatchState) : Prop :=
  accounted (match_stats_p1 st) (match_stats_p2 st)
  /\ Forall2 accounted (per_set_stats_p1 st) (per_set_stats_p2 st)
  /\ points_won_accounted (match_stats_p1 st) (match_stats_p2 st)
  /\ points_won_accounted (match_stats_p2 st) (match_stats_p1 st)
  /\ sets_add_up st
  /\ serves_counted (match_stats_p1 st) = points_served_by 0 (log_entries st)
  /\ serves_counted (match_stats_p2 st) = points_served_by 1 (log_entries st).

(** ** What is entered before the first point *)

(** The names, the location and the format of a state. *)
Definition setup_of (st : MatchState) :=
  (player1_name st, player2_name st, location st, format st,
   best_of_sets st, sets_to_win st).

(** ** Tiebreaks *)

(** The tiebreak points of player [p]. *)
Definition tb_points_of (p : Z) (st : MatchState) : Z :=
  if p =? 0 then tb_points_p1 st else tb_points_p2 st.

(** At the tiebreak score of the state nobody has won a tiebreak to
    [target] points. *)
Definition tiebreak_open (target : Z) (st : MatchState) : Prop :=
  ((tb_points_p1 st >=? target) || (tb_points_p2 st >=? target))
  && (Z.abs (tb_points_p1 st - tb_points_p2 st) >=? 2) = false.

(** The targets are positive, and a tiebreak that is being played is not
    decided. *)
Definition tiebreaks_open (st : MatchState) : Prop :=
  0 < set_tiebreak_points (format st) /\ 0 < deciding_tb_points (format st)
  /\ (in_set_tiebreak st = true ->
      tiebreak_open (set_tiebreak_points (format st)) st)
  /\ (in_match_tiebreak10 st = true ->
      tiebreak_open (deciding_tb_points (format st)) st).

(** Forty-seven points won by the server: 6-5 for player 1 and 40-0 for
    player 2 on serve.  One more is 6-6, and the tiebreak begins. *)
Definition before_tiebreak : MatchState :=
  live (fst (run setup_full (replicate 47 ace))).

(** Six tiebreak points for player 1, who serves the first, fourth and
    fifth of them. *)
Definition tiebreak_six_love : MatchState :=
  live (fst (run setup_full
               (replicate 48 ace
                ++ [ace; double_fault; double_fault; ace; ace;
                    double_fault]))).

(** One set all and 9-0 for player 1 in the match tiebreak. *)
Definition match_tiebreak_nine_love : MatchState :=
  live (fst (run setup_tb10
               (set_to_first_server ++ set_to_first_receiver
                ++ [ace; double_fault; double_fault; ace; ace;
                    double_fault; double_fault; ace; ace]))).

(** ** Best of three *)

(** Nobody has more than two sets, the two players have at most three
    between them, and there are at most three set records. *)
Definition best_of_three (st : MatchState) : Prop :=
  0 <= sets_won_p1 st <= 2 /\ 0 <= sets_won_p2 st <= 2
  /\ sets_won_p1 st + sets_won_p2 st <= 3
  /\ (length (sets st) <= 3)%nat.

(** * Properties *)

(** ** The undo stack *)

Lemma pop_push st0 st h :
  pop_history st0 (push_history st h) = (true, st, h).
Proof.
  unfold pop_history, push_history.
  now rewrite last_snoc, removelast_last.
Qed.

Lemma last_None_nil {A} (l : list A) : last l = None -> l = [].
Proof.
  destruct l as [|x l] using rev_ind; [reflexivity|].
  now rewrite last_snoc.
Qed.

(** C9.  [pop_history] answers [false] exactly on an empty stack, and then
    it hands back the state and the stack it was given; when it answers
    [true] the state is the snapshot that was on top and the stack has lost
    that snapshot. *)
Theorem undo_fails_exactly_on_empty_history (st : MatchState)
  (h : list MatchState) :
  let '(ok, st', h') := pop_history st h in
  (ok = false <-> h = [])
  /\ (ok = false -> st' = st /\ h' = h)
  /\ (ok = true -> h = h' ++ [st']).
Proof.
  unfold pop_history.
  destruct h as [|top h] using rev_ind.
  - cbn. repeat split; intros; congruence.
  - rewrite last_snoc, removelast_last.
    repeat split; try congruence.
    intros E. symmetry in E. now apply app_cons_not_nil in E.
Qed.

(** The top-level undo of [main] is [pop_history] on the live state: on an
    empty stack the turn leaves the state as the menu showed it. *)
Lemma undo_turn_empty tbsv st :
  main_turn tbsv UndoLastPoint (MkTracker st [])
  = (MkTracker (before_menu tbsv st) [], false).
Proof. reflexivity. Qed.

(** C3.  Recording a point and then choosing "undo last point" in the main
    menu gives back the very state the menu showed before the point, and
    the stack it had then.  Equality of [MatchState] is equality of every
    field: the scores, both levels of statistics and the whole point log.
    This holds for every state, every completed point and whatever is
    answered at the top of the two turns. *)
Theorem record_then_undo_restores (tbsv tbsv' : Z) (ev : PointEvent)
  (t : Tracker) :
  let shown := before_menu tbsv (live t) in
  let after := fst (main_turn tbsv (RecordPoint (Played ev)) t) in
  history_stack after = history_stack t ++ [shown]
  /\ pop_history (live after) (history_stack after)
     = (true, shown, history_stack t)
  /\ fst (main_turn tbsv' UndoLastPoint after)
     = MkTracker shown (history_stack t).
Proof.
  cbv zeta.
  assert (E : fst (main_turn tbsv (RecordPoint (Played ev)) t)
              = record_point_and_stats (Played ev)
                  (MkTracker (before_menu tbsv (live t)) (history_stack t))).
  { unfold main_turn. now destruct (match_is_over_now _). }
  rewrite E. unfold record_point_and_stats. cbn [live history_stack].
  split; [reflexivity|]. split.
  - apply pop_push.
  - unfold main_turn. cbn [live history_stack].
    now rewrite pop_push.
Qed.

(** ** The tiebreak server *)

Lemma opponent_differs p : opponent p <> p.
Proof. unfold opponent. destruct (Z.eqb_spec p 0); lia. Qed.

(** C2.  With [i] tiebreak points played, [compute_tiebreak_server] makes
    the start server serve exactly when [i mod 4] is 0 or 3 and the other
    player otherwise; the first twelve servers of a tiebreak opened by
    player 0 are 0,1,1,0,0,1,1,0,0,1,1,0. *)
Theorem tiebreak_server_pattern (st : MatchState) :
  0 <= tb_points_p1 st -> 0 <= tb_points_p2 st ->
  let i := tb_points_p1 st + tb_points_p2 st in
  let start := tb_start_server st in
  let server := current_server (compute_tiebreak_server st) in
  (server = start <-> (i mod 4 = 0 \/ i mod 4 = 3))
  /\ (~ (i mod 4 = 0 \/ i mod 4 = 3) -> server = opponent start)
  /\ map (fun k => current_server (compute_tiebreak_server (tiebreak_at st 0 k)))
       [0; 1; 2; 3; 4; 5; 6; 7; 8; 9; 10; 11]
     = [0; 1; 1; 0; 0; 1; 1; 0; 0; 1; 1; 0].
Proof.
  intros H1 H2 i start server.
  assert (Hrem : Z.rem i 4 = i mod 4) by (apply Z.rem_mod_nonneg; lia).
  assert (Hs : server = if (i mod 4 =? 0) || (i mod 4 =? 3)
                        then start else opponent start).
  { subst server. unfold compute_tiebreak_server. fold i. rewrite Hrem.
    now destruct ((i mod 4 =? 0) || (i mod 4 =? 3)). }
  pose proof (opponent_differs start) as Hop.
  destruct (Z.eqb_spec (i mod 4) 0) as [E0|E0];
    destruct (Z.eqb_spec (i mod 4) 3) as [E3|E3]; cbn in Hs;
    (split; [|split]); try reflexivity; try tauto;
    split; intros; try tauto; try congruence.
Qed.

(** ** Game point *)

(** C7, as the code has it.  [is_game_point_for] is true exactly at 40
    against less than 40 (3 points against at most 2) and at advantage
    (one point ahead with at least 3); a leader with 4 or more points and a
    trailer with at most 2, a score no game can reach, is not a game
    point. *)
Theorem is_game_point_for_spec (leader trailer : Z) :
  is_game_point_for leader trailer = true
  <-> 3 <= leader /\ ((leader = 3 /\ trailer <= 2) \/ leader = trailer + 1).
Proof.
  unfold is_game_point_for.
  destruct (Z.leb_spec leader 2); [split; [discriminate|lia]|].
  destruct (Z.eqb_spec leader 3); destruct (Z.leb_spec trailer 2); cbn;
    try (split; [lia | reflexivity]).
  - destruct (Z.geb_spec leader 3); destruct (Z.geb_spec trailer 3);
      cbn; try lia.
    destruct (Z.eqb_spec leader (trailer + 1)); split; try lia; try discriminate;
      reflexivity.
  - destruct (Z.geb_spec leader 3); destruct (Z.geb_spec trailer 3);
      cbn; try lia; try (split; [discriminate | lia]).
  - destruct (Z.geb_spec leader 3); destruct (Z.geb_spec trailer 3);
      cbn; try lia.
    destruct (Z.eqb_spec leader (trailer + 1)); split; try lia; try discriminate;
      reflexivity.
Qed.

(** Against C7 as worded: the score 4 to 2 separates the code from "at
    least 3 and trailer at most 2". *)
Lemma is_game_point_for_4_2 :
  ~ (is_game_point_for 4 2 = true <-> 3 <= 4 /\ (2 <= 2 \/ 4 = 2 + 1)).
Proof. cbn. intros [_ H]. discriminate H. lia. Qed.

(** ** What the statistics updates leave alone *)

Section Observation.
Context {X : Type} (g : PlayerStats -> X).

Lemma fmap_alter_keeps f i (l : list PlayerStats) :
  keeps g f -> g <$> alter f i l = g <$> l.
Proof.
  intros K. revert i.
  induction l as [|x l IH]; intros [|i]; cbn; try reflexivity.
  - now rewrite K.
  - f_equal. apply IH.
Qed.

Lemma obs_update_ref r f st :
  keeps g f -> obs g (update_ref r f st) = obs g st.
Proof.
  intros K. destruct r; unfold obs; cbn;
    rewrite ?K, ?(fmap_alter_keeps _ _ _ K); reflexivity.
Qed.

Lemma obs_bump who f st : keeps g f -> obs g (bump who f st) = obs g st.
Proof. intros K. unfold bump. now rewrite !obs_update_ref. Qed.

Lemma obs_with_current_point_serve t st :
  obs g (with_current_point_serve t st) = obs g st.
Proof. reflexivity. Qed.

Lemma obs_add_serve_attempt st server t b :
  keeps g inc_first_serves_attempted -> keeps g inc_first_serves_in ->
  keeps g inc_second_serves_attempted -> keeps g inc_second_serves_in ->
  obs g (add_serve_attempt st server t b) = obs g st.
Proof.
  intros. unfold add_serve_attempt.
  destruct t, b; rewrite ?obs_bump; auto.
Qed.

Lemma obs_add_double_fault st server :
  keeps g inc_double_faults -> obs g (add_double_fault st server) = obs g st.
Proof. intros. unfold add_double_fault. now rewrite obs_bump. Qed.

Lemma obs_add_ace st server t :
  keeps g inc_aces_first -> keeps g inc_aces_second ->
  obs g (add_ace st server t) = obs g st.
Proof. intros. unfold add_ace. destruct t; rewrite ?obs_bump; auto. Qed.

Lemma obs_add_service_winner st server t :
  keeps g inc_service_winners_first -> keeps g inc_service_winners_second ->
  obs g (add_service_winner st server t) = obs g st.
Proof.
  intros. unfold add_service_winner. destruct t; rewrite ?obs_bump; auto.
Qed.

Lemma obs_add_return_outcome st returner kind :
  keeps g inc_return_winners -> keeps g inc_return_unforced_errors ->
  keeps g inc_return_forced_errors ->
  obs g (add_return_outcome st returner kind) = obs g st.
Proof.
  intros. unfold add_return_outcome.
  repeat destruct (String.eqb _ _); rewrite ?obs_bump; auto.
Qed.

Lemma obs_add_rally_outcome st player kind :
  keeps g inc_rally_winners -> keeps g inc_unforced_errors ->
  keeps g inc_forced_errors_drawn ->
  obs g (add_rally_outcome st player kind) = obs g st.
Proof.
  intros. unfold add_rally_outcome.
  repeat destruct (String.eqb _ _); rewrite ?obs_bump; auto.
Qed.

Lemma obs_add_return_points_won st returner t :
  keeps g inc_return_points_won_vs_first ->
  keeps g inc_return_points_won_vs_second ->
  obs g (add_return_points_won st returner t) = obs g st.
Proof.
  intros. unfold add_return_points_won. destruct t; rewrite ?obs_bump; auto.
Qed.

Lemma obs_add_server_point_won st server t :
  keeps g inc_points_won_on_first_serve ->
  keeps g inc_points_won_on_second_serve ->
  obs g (add_server_point_won st server t) = obs g st.
Proof.
  intros. unfold add_server_point_won. destruct t; rewrite ?obs_bump; auto.
Qed.

Lemma obs_maybe_count_break_point st was_bp returner_won :
  keeps g inc_break_points_total -> keeps g inc_break_points_won ->
  obs g (maybe_count_break_point st was_bp returner_won) = obs g st.
Proof.
  intros. unfold maybe_count_break_point.
  destruct was_bp, returner_won; cbn; rewrite ?obs_bump; auto.
Qed.

Lemma obs_add_stats_net who won st :
  keeps g inc_net_points_total -> keeps g inc_net_points_won ->
  obs g (add_stats_net who won st) = obs g st.
Proof.
  intros. unfold add_stats_net. destruct won; now rewrite ?obs_update_ref.
Qed.

Lemma obs_add_stats_point_ownership winner loser st :
  keeps g inc_points_won -> keeps g inc_points_played ->
  obs g (add_stats_point_ownership winner loser st) = obs g st.
Proof.
  intros. unfold add_stats_point_ownership. now rewrite !obs_update_ref.
Qed.

Lemma obs_serve_in_play c st server entry :
  keeps g inc_first_serves_attempted -> keeps g inc_first_serves_in ->
  keeps g inc_second_serves_attempted -> keeps g inc_second_serves_in ->
  obs g (fst (serve_in_play c st server entry)) = obs g st.
Proof.
  intros. destruct c; cbn [serve_in_play fst];
    repeat first [ rewrite obs_add_serve_attempt by assumption
                 | rewrite obs_with_current_point_serve ];
    reflexivity.
Qed.

(** Through the match-level references the per-set objects are out of
    reach, whatever is written. *)
Lemma obs_sets_ownership_match winner loser st :
  (winner = MatchP1 \/ winner = MatchP2) ->
  (loser = MatchP1 \/ loser = MatchP2) ->
  snd (obs g (add_stats_point_ownership winner loser st)) = snd (obs g st).
Proof. intros [->| ->] [->| ->]; reflexivity. Qed.
End Observation.

(** The side conditions [keeps g inc_x] hold by computation when [g] does
    not read the counter [x]. *)
Ltac keeps_tac := intros ?; reflexivity.

Create Rewrite HintDb obs.
#[local] Hint Rewrite
  @obs_maybe_count_break_point @obs_add_stats_net
  @obs_add_stats_point_ownership @obs_add_serve_attempt
  @obs_add_double_fault @obs_add_ace @obs_add_service_winner
  @obs_add_return_outcome @obs_add_rally_outcome
  @obs_add_return_points_won @obs_add_server_point_won
  @obs_serve_in_play
  using keeps_tac : obs.
#[local] Hint Rewrite @obs_with_current_point_serve : obs.

Ltac obs_simpl := autorewrite with obs.

(** The statistics updates touch nothing outside the statistics objects. *)

Lemma frame_update_ref r f st : frame_of (update_ref r f st) = frame_of st.
Proof. destruct r; unfold frame_of; cbn; rewrite ?length_alter; reflexivity. Qed.

Lemma frame_bump who f st : frame_of (bump who f st) = frame_of st.
Proof. unfold bump. now rewrite !frame_update_ref. Qed.

Lemma frame_with_current_point_serve t st :
  frame_of (with_current_point_serve t st) = frame_of st.
Proof. reflexivity. Qed.

Lemma frame_add_serve_attempt st server t b :
  frame_of (add_serve_attempt st server t b) = frame_of st.
Proof.
  unfold add_serve_attempt. destruct t, b; now rewrite ?frame_bump.
Qed.

Lemma frame_add_double_fault st server :
  frame_of (add_double_fault st server) = frame_of st.
Proof. apply frame_bump. Qed.

Lemma frame_add_ace st server t : frame_of (add_ace st server t) = frame_of st.
Proof. unfold add_ace. destruct t; now rewrite ?frame_bump. Qed.

Lemma frame_add_service_winner st server t :
  frame_of (add_service_winner st server t) = frame_of st.
Proof. unfold add_service_winner. destruct t; now rewrite ?frame_bump. Qed.

Lemma frame_add_return_outcome st returner kind :
  frame_of (add_return_outcome st returner kind) = frame_of st.
Proof.
  unfold add_return_outcome.
  repeat destruct (String.eqb _ _); now rewrite ?frame_bump.
Qed.

Lemma frame_add_rally_outcome st player kind :
  frame_of (add_rally_outcome st player kind) = frame_of st.
Proof.
  unfold add_rally_outcome.
  repeat destruct (String.eqb _ _); now rewrite ?frame_bump.
Qed.

Lemma frame_add_return_points_won st returner t :
  frame_of (add_return_points_won st returner t) = frame_of st.
Proof. unfold add_return_points_won. destruct t; now rewrite ?frame_bump. Qed.

Lemma frame_add_server_point_won st server t :
  frame_of (add_server_point_won st server t) = frame_of st.
Proof. unfold add_server_point_won. destruct t; now rewrite ?frame_bump. Qed.

Lemma frame_maybe_count_break_point st was_bp returner_won :
  frame_of (maybe_count_break_point st was_bp returner_won) = frame_of st.
Proof.
  unfold maybe_count_break_point.
  destruct was_bp, returner_won; cbn; now rewrite ?frame_bump.
Qed.

Lemma frame_add_stats_net who won st :
  frame_of (add_stats_net who won st) = frame_of st.
Proof. unfold add_stats_net. destruct won; now rewrite ?frame_update_ref. Qed.

Lemma frame_add_stats_point_ownership winner loser st :
  frame_of (add_stats_point_ownership winner loser st) = frame_of st.
Proof. unfold add_stats_point_ownership. now rewrite !frame_update_ref. Qed.

Lemma frame_serve_in_play c st server entry :
  frame_of (fst (serve_in_play c st server entry)) = frame_of st.
Proof.
  destruct c; cbn [serve_in_play fst];
    now rewrite ?frame_add_serve_attempt, ?frame_with_current_point_serve,
                ?frame_add_serve_attempt.
Qed.

Create Rewrite HintDb frame.
#[local] Hint Rewrite
  frame_maybe_count_break_point frame_add_stats_net
  frame_add_stats_point_ownership frame_add_serve_attempt
  frame_add_double_fault frame_add_ace frame_add_service_winner
  frame_add_return_outcome frame_add_rally_outcome
  frame_add_return_points_won frame_add_server_point_won
  frame_serve_in_play frame_with_current_point_serve : frame.

Ltac frame_simpl := autorewrite with frame.

(** The fields the properties read are components of [frame_of]. *)
Lemma frame_fields a b :
  frame_of a = frame_of b ->
  format a = format b /\ sets_to_win a = sets_to_win b /\ sets a = sets b
  /\ length (per_set_stats_p1 a) = length (per_set_stats_p1 b)
  /\ length (per_set_stats_p2 a) = length (per_set_stats_p2 b)
  /\ current_set_index a = current_set_index b
  /\ game_points_p1 a = game_points_p1 b /\ game_points_p2 a = game_points_p2 b
  /\ in_set_tiebreak a = in_set_tiebreak b
  /\ in_match_tiebreak10 a = in_match_tiebreak10 b
  /\ tb_points_p1 a = tb_points_p1 b /\ tb_points_p2 a = tb_points_p2 b
  /\ tb_start_server a = tb_start_server b
  /\ current_server a = current_server b
  /\ sets_won_p1 a = sets_won_p1 b /\ sets_won_p2 a = sets_won_p2 b
  /\ log_entries a = log_entries b.
Proof. unfold frame_of. intros E. injection E. intros. repeat split; assumption. Qed.

(** ** What awarding the point leaves alone *)

(** The scoring functions do not touch the match-level statistics, and the
    only thing they do to the log is the one [push_back] before the
    dispatch. *)
Lemma kept_start_new_set st : kept_by_scoring (start_new_set st) = kept_by_scoring st.
Proof. reflexivity. Qed.

Lemma kept_award_game st p : kept_by_scoring (award_game st p) = kept_by_scoring st.
Proof. unfold award_game. destruct (p =? 0); reflexivity. Qed.

Lemma kept_close_set st w :
  kept_by_scoring (close_set_and_prepare_next st w) = kept_by_scoring st.
Proof.
  unfold close_set_and_prepare_next.
  destruct (w =? 0); cbv zeta;
    repeat match goal with
           | |- context [if ?c then _ else _] => destruct c
           end; rewrite ?kept_start_new_set; reflexivity.
Qed.

Lemma kept_give_point_regular st w :
  kept_by_scoring (give_point_regular st w) = kept_by_scoring st.
Proof.
  unfold give_point_regular. cbv zeta.
  repeat match goal with
         | |- context [if ?c then _ else _] => destruct c
         | |- context [match ?c with Some _ => _ | None => _ end] => destruct c
         end; rewrite ?kept_close_set, ?kept_award_game; reflexivity.
Qed.

Lemma kept_give_point_tiebreak st w b :
  kept_by_scoring (give_point_tiebreak st w b) = kept_by_scoring st.
Proof.
  unfold give_point_tiebreak. cbv zeta.
  repeat match goal with
         | |- context [if ?c then _ else _] => destruct c
         | |- context [match ?c with Some _ => _ | None => _ end] => destruct c
         end; rewrite ?kept_close_set; reflexivity.
Qed.

Lemma give_point_keeps st entry w :
  let st' := log_and_give_point st entry w in
  match_stats_p1 st' = match_stats_p1 st
  /\ match_stats_p2 st' = match_stats_p2 st
  /\ log_entries st' = log_entries st ++ [entry].
Proof.
  assert (E : kept_by_scoring (log_and_give_point st entry w)
              = kept_by_scoring (with_log_entries (log_entries st ++ [entry]) st)).
  { unfold log_and_give_point. cbv zeta.
    repeat match goal with
           | |- context [if ?c then _ else _] => destruct c
           end;
      now rewrite ?kept_give_point_tiebreak, ?kept_give_point_regular. }
  unfold kept_by_scoring in E. cbn in E. injection E. intros. now repeat split.
Qed.

(** ** The totals and the log *)

Lemma ownership_totals_p1 st :
  fst (obs totals (add_stats_point_ownership MatchP1 MatchP2 st))
  = point_to_p1 (fst (obs totals st)).
Proof. reflexivity. Qed.

Lemma ownership_totals_p2 st :
  fst (obs totals (add_stats_point_ownership MatchP2 MatchP1 st))
  = point_to_p2 (fst (obs totals st)).
Proof. reflexivity. Qed.

(** One point owned by either player, one entry pushed. *)
Lemma stats_match_log_give st S entry w :
  stats_match_log st ->
  log_entries S = log_entries st ->
  (fst (obs totals S) = point_to_p1 (fst (obs totals st))
   \/ fst (obs totals S) = point_to_p2 (fst (obs totals st))) ->
  stats_match_log (log_and_give_point S entry w).
Proof.
  intros (H1 & H2 & H3) HL HO.
  destruct (give_point_keeps S entry w) as (E1 & E2 & E3).
  unfold stats_match_log. rewrite E1, E2, E3, length_app, HL. cbn [length].
  unfold obs, totals, point_to_p1, point_to_p2 in HO. cbn [fst snd] in HO.
  destruct HO as [HO|HO]; injection HO; intros; lia.
Qed.

Lemma log_entries_frame a b :
  frame_of a = frame_of b -> log_entries a = log_entries b.
Proof. intros E. apply frame_fields in E. tauto. Qed.

(** Case analysis on a completed point: the flags, the event, and who
    serves.  Every goal it leaves is about
    [log_and_give_point S entry w] for an explicit chain [S] of statistics
    updates. *)
Ltac play_cases st ev :=
  unfold play_point;
  destruct (point_flags st) as [[[? ?] ?] ?];
  destruct ev as [[]|[] []|[] [] [?|]];
  cbn [serve_in_play];
  destruct (current_server st =? 0) eqn:?;
  cbn [Z.eqb];
  repeat match goal with
         | |- context [?np =? 1] => destruct (np =? 1); cbn [Z.eqb]
         end.

Ltac totals_chain :=
  obs_simpl;
  first [ rewrite ownership_totals_p1; obs_simpl; left; reflexivity
        | rewrite ownership_totals_p2; obs_simpl; right; reflexivity ].

Lemma play_point_stats_match_log st ev :
  stats_match_log st -> stats_match_log (play_point st ev).
Proof.
  intros H. play_cases st ev.
  all: apply (stats_match_log_give st);
    [ assumption
    | apply log_entries_frame; frame_simpl; reflexivity
    | totals_chain ].
Qed.

(** ** Closing a set *)

Lemma filter_all_finished (l : list SetScore) :
  (forall k s, l !! k = Some s -> set_finished s = true) ->
  List.filter set_finished l = l.
Proof.
  induction l as [|x l IH]; intros H; [reflexivity|].
  cbn. rewrite (H 0%nat x eq_refl). f_equal.
  apply IH. intros k s Hk. apply (H (S k) s Hk).
Qed.

(** Once the current set of a running match in regular mode is marked
    finished, every record is. *)
Lemma closed_all_finished st :
  wf st -> in_match_tiebreak10 st = false ->
  forall k s,
    alter (with_set_finished true) (Z.to_nat (current_set_index st)) (sets st)
    !! k = Some s ->
    set_finished s = true.
Proof.
  intros W M k s Hk.
  destruct (wf_index st W) as [Hn Hi].
  destruct (decide (Z.to_nat (current_set_index st) = k)) as [<-|Hne].
  - rewrite list_lookup_alter_eq in Hk.
    destruct (sets st !! _); cbn in Hk; [|discriminate].
    injection Hk as <-. reflexivity.
  - rewrite list_lookup_alter_ne in Hk by assumption.
    rewrite (wf_finished st W k s Hk), M, orb_false_r.
    apply Z.ltb_lt.
    assert (k < length (sets st))%nat by (eapply lookup_lt_Some; eassumption).
    lia.
Qed.

Lemma sets_completed_closed st :
  wf st -> in_match_tiebreak10 st = false ->
  sets_completed
    (alter (with_set_finished true) (Z.to_nat (current_set_index st)) (sets st))
  = Z.of_nat (length (sets st)).
Proof.
  intros W M. unfold sets_completed.
  rewrite filter_all_finished by (apply closed_all_finished; assumption).
  now rewrite length_alter.
Qed.

(** C6.  Closing the current set of a running match.  If the match is
    thereby decided, nothing is started: the records are the old ones with
    the current one marked finished, and no tiebreak flag is set.
    Otherwise, if two sets are completed, each player has one and the
    decider is the match tiebreak, the state enters the match tiebreak at
    0-0 without a new record; in every other case a fresh record and fresh
    statistics objects are appended and become current, and the game and
    tiebreak counters and both tiebreak flags are clear. *)
Theorem close_set_decides_next (st : MatchState) (set_winner : Z) :
  wf st -> in_set_tiebreak st = false -> in_match_tiebreak10 st = false ->
  let st' := close_set_and_prepare_next st set_winner in
  let closed :=
    alter (with_set_finished true) (Z.to_nat (current_set_index st)) (sets st) in
  if match_is_over_now st' then
    sets st' = closed
    /\ current_set_index st' = current_set_index st
    /\ in_set_tiebreak st' = false /\ in_match_tiebreak10 st' = false
  else if (sets_completed closed =? 2)
          && (sets_won_p1 st' =? 1) && (sets_won_p2 st' =? 1)
          && is_tb10 (deciding (format st'))
  then
    in_match_tiebreak10 st' = true /\ in_set_tiebreak st' = false
    /\ tb_points_p1 st' = 0 /\ tb_points_p2 st' = 0
    /\ sets st' = closed
    /\ current_set_index st' = current_set_index st
  else
    sets st' = closed ++ [SetScore_new]
    /\ per_set_stats_p1 st' = per_set_stats_p1 st ++ [PlayerStats_new]
    /\ per_set_stats_p2 st' = per_set_stats_p2 st ++ [PlayerStats_new]
    /\ current_set_index st' = Z.of_nat (length (sets st')) - 1
    /\ game_points_p1 st' = 0 /\ game_points_p2 st' = 0
    /\ tb_points_p1 st' = 0 /\ tb_points_p2 st' = 0
    /\ in_set_tiebreak st' = false /\ in_match_tiebreak10 st' = false.
Proof.
  intros W HS HM. cbv zeta.
  rewrite (sets_completed_closed st W HM).
  unfold close_set_and_prepare_next. cbv zeta.
  set (st2 := if set_winner =? 0 then _ else _).
  assert (F : frame_of (with_sets_won_p2 (sets_won_p2 st2) (with_sets_won_p1 (sets_won_p1 st2)
                 (alter_current_set (with_set_finished true) st)))
              = frame_of st2 /\ per_set_stats_p1 st2 = per_set_stats_p1 st
                /\ per_set_stats_p2 st2 = per_set_stats_p2 st).
  { subst st2. destruct (set_winner =? 0); repeat split; reflexivity. }
  destruct F as (F & P1 & P2). apply frame_fields in F. cbn in F.
  destruct F as (Ff & Ftw & Fs & _ & _ & Fi & Fg1 & Fg2 & Fst & Fmt & Ft1 & Ft2
                 & _ & _ & _ & _ & _).
  change ((sets_won_p1 st2 =? sets_to_win st2)
          || (sets_won_p2 st2 =? sets_to_win st2))
    with (match_is_over_now st2).
  assert (Dec : (Z.of_nat (length (sets st)) =? 2)
                && (sets_won_p1 st2 =? 1) && (sets_won_p2 st2 =? 1)
                && is_tb10 (deciding (format st2))
                = (Z.of_nat (length (sets st2)) =? 2)
                  && match deciding (format st2) with
                     | DECIDING_TB10 => true
                     | DECIDING_REGULAR => false
                     end
                  && (sets_won_p1 st2 =? 1) && (sets_won_p2 st2 =? 1)).
  { rewrite <- Fs, length_alter.
    destruct (_ =? 2), (_ =? 1), (_ =? 1), (deciding _); reflexivity. }
  destruct (match_is_over_now st2) eqn:Over; cbn [negb].
  - rewrite Over. rewrite <- Fs, <- Fi, <- Fst, <- Fmt.
    repeat split; assumption.
  - destruct (_ && (sets_won_p2 st2 =? 1)) eqn:C in |- *.
    + change (match_is_over_now (with_tb_points_p2 0 (with_tb_points_p1 0
                (with_in_match_tiebreak10 true st2))))
        with (match_is_over_now st2).
      rewrite Over. cbn. rewrite Dec, C. rewrite <- Fs, <- Fi, <- Fst.
      repeat split; assumption.
    + change (match_is_over_now (start_new_set st2))
        with (match_is_over_now st2).
      rewrite Over.
      change (sets_won_p1 (start_new_set st2)) with (sets_won_p1 st2).
      change (sets_won_p2 (start_new_set st2)) with (sets_won_p2 st2).
      change (format (start_new_set st2)) with (format st2).
      rewrite Dec, C. unfold start_new_set. cbn.
      rewrite <- Fs, P1, P2, <- Fmt. repeat split; try reflexivity; assumption.
Qed.

Lemma last_set_finished (l : list SetScore) :
  (0 < length l)%nat ->
  (forall k s, l !! k = Some s -> set_finished s = true) ->
  set_finished (default SetScore_new (last l)) = true.
Proof.
  intros Hn H. rewrite last_lookup.
  destruct (l !! pred (length l)) as [s|] eqn:E.
  - apply (H _ _ E).
  - apply lookup_ge_None in E. lia.
Qed.

Lemma finished_after_new_set (l : list SetScore) :
  (forall k s, l !! k = Some s -> set_finished s = true) ->
  forall k s, (l ++ [SetScore_new]) !! k = Some s ->
    set_finished s
    = (Z.of_nat k <? Z.of_nat (length (l ++ [SetScore_new])) - 1) || false.
Proof.
  intros H k s Hk. rewrite length_app, orb_false_r. cbn [length].
  destruct (decide (k < length l)%nat) as [Hlt|Hge].
  - rewrite lookup_app_l in Hk by assumption.
    rewrite (H _ _ Hk). symmetry. apply Z.ltb_lt. lia.
  - rewrite lookup_app_r in Hk by lia.
    destruct (k - length l)%nat as [|j] eqn:Ej; cbn in Hk; [|discriminate].
    injection Hk as <-. cbn. symmetry. apply Z.ltb_ge. lia.
Qed.

(** Closing a set keeps the match running in a good state or decides
    it. *)
Lemma close_set_wf st w :
  wf st -> in_set_tiebreak st = false -> in_match_tiebreak10 st = false ->
  let st' := close_set_and_prepare_next st w in
  if match_is_over_now st' then ends_by false st' else wf st'.
Proof.
  intros W HS HM. cbv zeta.
  pose proof (closed_all_finished st W HM) as Hfin.
  destruct W as [[Hn Hi] L1 L2 G T Sv TW [W1 W2] _ _ Sum].
  rewrite HM in Sum.
  unfold close_set_and_prepare_next, alter_current_set. cbv zeta.
  destruct (w =? 0); cbn -[Z.of_nat].
  all: rewrite TW, length_alter.
  all: destruct (_ || _) eqn:Over; cbn [negb].
  all: try destruct (_ && (_ =? 1)) eqn:C in |- *.
  all: unfold match_is_over_now; cbn -[Z.of_nat]; rewrite TW, Over.
  all: try (unfold ends_by, index_ok, decided_by_tiebreak10,
              match_is_over_now, last_set;
            cbn -[Z.of_nat];
            rewrite TW, Over, length_alter,
              (last_set_finished _ ltac:(rewrite length_alter; exact Hn) Hfin);
            cbn; split; [lia|reflexivity]).
  all: apply orb_false_iff in Over; destruct Over as [O1 O2];
    apply Z.eqb_neq in O1, O2.
  all: try (repeat (apply andb_prop in C; destruct C as [C ?]);
            repeat match goal with
                   | H : (_ =? _) = true |- _ => apply Z.eqb_eq in H
                   end).
  all: constructor; cbn -[Z.of_nat];
    rewrite ?length_app, ?length_alter, ?HM; cbn [length];
    try solve [ auto | lia | intros; lia | intros; repeat split; auto; lia
              | discriminate ].
  all: try solve [ intros k s Hk; rewrite orb_true_r; eapply Hfin; eassumption ].
  all: try solve [ intros k s Hk;
                   rewrite (finished_after_new_set _ Hfin k s Hk);
                   rewrite length_app, length_alter; reflexivity ].
Qed.

(** ** Awarding a point *)

Lemma wf_not_over st : wf st -> match_is_over_now st = false.
Proof.
  intros W. unfold match_is_over_now. rewrite (wf_to_win st W).
  destruct (wf_won st W) as [W1 W2].
  apply orb_false_iff. split; apply Z.eqb_neq; lia.
Qed.

Lemma wf_index_ok st : wf st -> index_ok st.
Proof.
  intros W. unfold index_ok, decided_by_tiebreak10.
  rewrite (wf_not_over st W). cbn. destruct (wf_index st W). lia.
Qed.

(** Writing through [sets[i]] without touching the finished flag keeps what
    is known about the flags. *)
Lemma finished_alter (f : SetScore -> SetScore) (l : list SetScore) i
  (P : nat -> bool) :
  (forall s, set_finished (f s) = set_finished s) ->
  (forall k s, l !! k = Some s -> set_finished s = P k) ->
  forall k s, alter f i l !! k = Some s -> set_finished s = P k.
Proof.
  intros Hf H k s Hk.
  destruct (decide (i = k)) as [->|Hne].
  - rewrite list_lookup_alter_eq in Hk.
    destruct (l !! k) as [s0|] eqn:E; cbn in Hk; [|discriminate].
    injection Hk as <-. rewrite Hf. apply (H _ _ E).
  - rewrite list_lookup_alter_ne in Hk by assumption. apply (H _ _ Hk).
Qed.

(** Builds [wf] of a state written with the updaters from the fields of
    [wf] of the state it was made from, which must be in the context. *)
Ltac wf_fields :=
  constructor; cbn -[Z.of_nat];
  rewrite ?length_app, ?length_alter; cbn [length];
  try solve [ auto | lia | intros; lia | discriminate | congruence
            | intros; repeat split; auto; lia
            | match goal with
              | D : in_match_tiebreak10 _ = true -> _ |- _ -> _ =>
                  let E := fresh in
                  intros E; destruct (D E) as (? & ? & ?);
                  repeat split; auto; congruence
              end
            | repeat (apply finished_alter; [intros; reflexivity|]); assumption ].

Lemma give_point_tiebreak_set_wf st w :
  wf st -> in_set_tiebreak st = true ->
  let st' := give_point_tiebreak st w true in
  if match_is_over_now st' then ends_by false st' else wf st'.
Proof.
  intros W HS. cbv zeta.
  assert (HM : in_match_tiebreak10 st = false).
  { destruct (in_match_tiebreak10 st) eqn:E; [|reflexivity].
    destruct (wf_decider st W E). congruence. }
  unfold give_point_tiebreak. cbv zeta.
  set (st1 := if w =? 0 then _ else _).
  assert (W1 : wf st1).
  { destruct W as [[Hn Hi] L1 L2 G T Sv TW Wn D Fin Sum].
    subst st1. destruct (w =? 0); wf_fields. }
  destruct (set_is_won_now st1) as [sw|].
  - apply close_set_wf.
    + destruct W1 as [[Hn Hi] L1 L2 G T Sv TW Wn D Fin Sum].
      assert (HM1 : in_match_tiebreak10 st1 = false)
        by (subst st1; destruct (w =? 0); exact HM).
      unfold alter_current_set. wf_fields.
    + reflexivity.
    + subst st1. destruct (w =? 0); exact HM.
  - rewrite (wf_not_over _ W1). exact W1.
Qed.

Lemma give_point_tiebreak_match_wf st w :
  wf st -> in_match_tiebreak10 st = true ->
  let st' := give_point_tiebreak st w false in
  if match_is_over_now st' then ends_by true st' else wf st'.
Proof.
  intros W HM. cbv zeta.
  unfold give_point_tiebreak. cbv zeta.
  set (st1 := if w =? 0 then _ else _).
  assert (W1 : wf st1).
  { destruct W as [[Hn Hi] L1 L2 G T Sv TW Wn D Fin Sum].
    subst st1. destruct (w =? 0); wf_fields. }
  assert (HM1 : in_match_tiebreak10 st1 = true)
    by (subst st1; destruct (w =? 0); exact HM).
  destruct (match_tiebreak10_won st1) as [mw|].
  - destruct W1 as [[Hn Hi] L1 L2 G T Sv TW Wn D Fin Sum].
    destruct (D HM1) as (_ & D1 & D2).
    unfold ends_by, match_is_over_now, index_ok, decided_by_tiebreak10,
      match_is_over_now, last_set.
    destruct (mw =? 0); cbn -[Z.of_nat];
      rewrite last_snoc, TW, D1, D2, length_app;
      change (1 + 1 =? 2) with true; cbn; (split; [lia|reflexivity]).
  - rewrite (wf_not_over _ W1). exact W1.
Qed.

Lemma wf_award_game st st1 p :
  wf st ->
  st1 = with_game_points_p1 (game_points_p1 st1) st
  \/ st1 = with_game_points_p2 (game_points_p2 st1) st ->
  wf (award_game st1 p)
  /\ in_set_tiebreak (award_game st1 p) = in_set_tiebreak st
  /\ in_match_tiebreak10 (award_game st1 p) = in_match_tiebreak10 st.
Proof.
  intros W E.
  destruct W as [[Hn Hi] L1 L2 (G1 & G2 & G) T [Sv1 Sv2] TW Wn D Fin Sum].
  unfold award_game, alter_current_set.
  destruct E as [-> | ->], (p =? 0); (split; [|split; reflexivity]);
    wf_fields.
  all: split; [|exact Sv2]; destruct Sv1 as [-> | ->]; cbn; auto.
Qed.

(** The statements of [give_point_regular] that enter the set tiebreak. *)
Lemma wf_enter_set_tiebreak st :
  wf st -> in_match_tiebreak10 st = false ->
  wf (with_tb_start_server (current_server st)
        (with_tb_points_p2 0
           (with_tb_points_p1 0
              (alter_current_set (with_set_tiebreak_played true)
                 (with_in_set_tiebreak true st))))).
Proof.
  intros W HM.
  destruct W as [[Hn Hi] L1 L2 (G1 & G2 & G) T [Sv1 Sv2] TW Wn D Fin Sum].
  unfold alter_current_set. wf_fields.
Qed.

Lemma wf_point_in_open_game st st1 :
  wf st ->
  (st1 = with_game_points_p1 (game_points_p1 st + 1) st
   \/ st1 = with_game_points_p2 (game_points_p2 st + 1) st) ->
  ((game_points_p1 st1 >=? 4) || (game_points_p2 st1 >=? 4))
  && (Z.abs (game_points_p1 st1 - game_points_p2 st1) >=? 2) = false ->
  wf st1.
Proof.
  intros W E C.
  destruct W as [[Hn Hi] L1 L2 (G1 & G2 & G) T [Sv1 Sv2] TW Wn D Fin Sum].
  destruct E as [-> | ->]; cbn in C; wf_fields.
  all: repeat split; try lia.
  all: destruct (Z.geb_spec (game_points_p1 st + 1) 4);
    destruct (Z.geb_spec (game_points_p2 st) 4);
    destruct (Z.geb_spec (game_points_p1 st) 4);
    destruct (Z.geb_spec (game_points_p2 st + 1) 4);
    cbn in C; try lia;
    match type of C with
    | (?x >=? 2) = false => destruct (Z.geb_spec x 2); [discriminate|lia]
    | _ => lia
    end.
Qed.

Lemma give_point_regular_wf st w :
  wf st -> in_set_tiebreak st = false -> in_match_tiebreak10 st = false ->
  let st' := give_point_regular st w in
  if match_is_over_now st' then ends_by false st' else wf st'.
Proof.
  intros W HS HM. cbv zeta.
  unfold give_point_regular. cbv zeta.
  set (st1 := if w =? 0 then _ else _).
  assert (E : st1 = with_game_points_p1 (game_points_p1 st + 1) st
              \/ st1 = with_game_points_p2 (game_points_p2 st + 1) st)
    by (subst st1; destruct (w =? 0); auto).
  assert (E' : st1 = with_game_points_p1 (game_points_p1 st1) st
               \/ st1 = with_game_points_p2 (game_points_p2 st1) st).
  { destruct E as [E|E]; [left|right]; rewrite E at 1; rewrite E; reflexivity. }
  pose proof (wf_point_in_open_game st st1 W E) as Open.
  destruct (_ || _) eqn:C1; cbn [andb] in Open.
  2: { specialize (Open eq_refl). now rewrite (wf_not_over _ Open). }
  destruct (_ >=? 2) eqn:C2.
  2: { specialize (Open eq_refl). now rewrite (wf_not_over _ Open). }
  clear Open.
  set (gw := if _ >? _ then 0 else 1).
  destruct (wf_award_game st st1 gw W E') as (W2 & S2 & M2).
  set (st2 := award_game st1 gw) in *.
  rewrite HS in S2. rewrite HM in M2.
  destruct (negb (in_match_tiebreak10 st2) && check_enter_set_tiebreak st2).
  - pose proof (wf_enter_set_tiebreak st2 W2 M2) as W3.
    match goal with
    | |- context [negb (in_set_tiebreak ?s)] => set (st3 := s)
    end.
    change (wf st3) in W3. change (in_set_tiebreak st3) with true.
    cbn [negb]. now rewrite (wf_not_over _ W3).
  - rewrite S2. cbn [negb].
    destruct (set_is_won_now st2) as [sw|].
    + now apply close_set_wf.
    + now rewrite (wf_not_over _ W2).
Qed.

(** [wf] reads nothing but the frame. *)
Lemma wf_frame a b : frame_of a = frame_of b -> wf b -> wf a.
Proof.
  intros E W. apply frame_fields in E.
  destruct E as (Ef & Etw & Es & El1 & El2 & Ei & Eg1 & Eg2 & Est & Emt
                 & Et1 & Et2 & Ets & Ecs & Ew1 & Ew2 & _).
  destruct W as [I L1 L2 G T Sv TW Wn D Fin Sum].
  constructor;
    rewrite ?Es, ?El1, ?El2, ?Ei, ?Eg1, ?Eg2, ?Est, ?Emt, ?Et1, ?Et2, ?Ets,
      ?Ecs, ?Ew1, ?Ew2, ?Etw; assumption.
Qed.

Lemma frame_with_log_entries l a b :
  frame_of a = frame_of b ->
  frame_of (with_log_entries l a) = frame_of (with_log_entries l b).
Proof. unfold frame_of. cbn. intros E. injection E. intros. congruence. Qed.

Lemma wf_with_log_entries l st : wf st -> wf (with_log_entries l st).
Proof. intros W. destruct W. constructor; assumption. Qed.

Lemma log_and_give_point_wf st S entry w :
  wf st -> frame_of S = frame_of st ->
  let st' := log_and_give_point S entry w in
  if match_is_over_now st' then ends_by (in_match_tiebreak10 st) st'
  else wf st'.
Proof.
  intros W F. cbv zeta. unfold log_and_give_point. cbv zeta.
  set (S1 := with_log_entries _ S).
  assert (W1 : wf S1).
  { eapply wf_frame.
    - apply frame_with_log_entries, F.
    - now apply wf_with_log_entries. }
  assert (EM : in_match_tiebreak10 st = in_match_tiebreak10 S1).
  { apply frame_fields in F. subst S1. cbn. intuition congruence. }
  rewrite EM.
  destruct (in_set_tiebreak S1) eqn:HS.
  - replace (in_match_tiebreak10 S1) with false.
    + now apply give_point_tiebreak_set_wf.
    + destruct (in_match_tiebreak10 S1) eqn:HM; [|reflexivity].
      destruct (wf_decider _ W1 HM). congruence.
  - destruct (in_match_tiebreak10 S1) eqn:HM.
    + now apply give_point_tiebreak_match_wf.
    + now apply give_point_regular_wf.
Qed.

Lemma play_point_wf st ev :
  wf st ->
  let st' := play_point st ev in
  if match_is_over_now st' then ends_by (in_match_tiebreak10 st) st'
  else wf st'.
Proof.
  intros W. cbv zeta. play_cases st ev.
  all: apply (log_and_give_point_wf st); [assumption|].
  all: frame_simpl; reflexivity.
Qed.

(** ** The per-set vectors under the scoring functions *)

Lemma per_sets_start_new_set st : per_sets (start_new_set st) = grown st.
Proof. reflexivity. Qed.

Lemma per_sets_award_game st p : per_sets (award_game st p) = per_sets st.
Proof. unfold award_game. destruct (p =? 0); reflexivity. Qed.

Lemma grown_per_sets a b : per_sets a = per_sets b -> grown a = grown b.
Proof. unfold per_sets, grown. intros E. injection E as -> ->. reflexivity. Qed.

Lemma per_sets_close_set st w :
  per_sets (close_set_and_prepare_next st w) = per_sets st
  \/ per_sets (close_set_and_prepare_next st w) = grown st.
Proof.
  unfold close_set_and_prepare_next. cbv zeta.
  destruct (w =? 0);
    repeat match goal with
           | |- context [if ?c then _ else _] => destruct c
           end; rewrite ?per_sets_start_new_set; auto.
Qed.

Lemma per_sets_give_point_regular st w :
  per_sets (give_point_regular st w) = per_sets st
  \/ per_sets (give_point_regular st w) = grown st.
Proof.
  unfold give_point_regular. cbv zeta.
  set (st1 := if w =? 0 then _ else _).
  assert (E : per_sets st1 = per_sets st /\ grown st1 = grown st)
    by (subst st1; destruct (w =? 0); split; reflexivity).
  destruct E as [<- <-].
  destruct (_ || _); [|auto]. destruct (_ >=? 2); [|auto].
  set (st2 := award_game st1 _).
  assert (E : per_sets st2 = per_sets st1) by apply per_sets_award_game.
  rewrite <- (grown_per_sets _ _ E), <- E.
  destruct (_ && _); cbn [negb in_set_tiebreak with_tb_start_server
    with_tb_points_p1 with_tb_points_p2 alter_current_set with_sets
    with_in_set_tiebreak]; [auto|].
  destruct (negb _); [|auto].
  destruct (set_is_won_now st2); [|auto].
  apply per_sets_close_set.
Qed.

Lemma per_sets_give_point_tiebreak st w b :
  per_sets (give_point_tiebreak st w b) = per_sets st
  \/ per_sets (give_point_tiebreak st w b) = grown st.
Proof.
  unfold give_point_tiebreak. cbv zeta.
  set (st1 := if w =? 0 then _ else _).
  assert (E : per_sets st1 = per_sets st /\ grown st1 = grown st)
    by (subst st1; destruct (w =? 0); split; reflexivity).
  destruct E as [<- <-].
  destruct b.
  - destruct (set_is_won_now st1); [|auto].
    match goal with
    | |- context [close_set_and_prepare_next ?s ?w] =>
        change (per_sets st1) with (per_sets s);
        change (grown st1) with (grown s)
    end.
    apply per_sets_close_set.
  - destruct (match_tiebreak10_won st1) as [mw|]; [|auto].
    right. destruct (mw =? 0); reflexivity.
Qed.

Lemma per_sets_log_and_give_point st entry w :
  per_sets (log_and_give_point st entry w) = per_sets st
  \/ per_sets (log_and_give_point st entry w) = grown st.
Proof.
  unfold log_and_give_point. cbv zeta.
  set (st1 := with_log_entries _ st).
  change (per_sets st) with (per_sets st1).
  change (grown st) with (grown st1).
  destruct (in_set_tiebreak st1); [|destruct (in_match_tiebreak10 st1)];
    auto using per_sets_give_point_tiebreak, per_sets_give_point_regular.
Qed.

(** ** Per-set totals *)

Lemma per_set_totals_zero_obs st :
  per_set_totals_zero st
  <-> Forall (eq (0, 0)) (fst (snd (obs totals st)))
      /\ Forall (eq (0, 0)) (snd (snd (obs totals st))).
Proof.
  unfold per_set_totals_zero, obs. cbn [fst snd].
  rewrite !Forall_fmap. unfold compose.
  split; intros [H1 H2]; split;
    (eapply Forall_impl; [eassumption|]); cbn; intros; congruence.
Qed.

Lemma per_set_totals_zero_give st S entry w :
  per_set_totals_zero st ->
  snd (obs totals S) = snd (obs totals st) ->
  per_set_totals_zero (log_and_give_point S entry w).
Proof.
  intros Z E.
  apply per_set_totals_zero_obs in Z. rewrite <- E in Z.
  apply per_set_totals_zero_obs.
  unfold obs in *. cbn [fst snd] in *.
  destruct Z as [Z1 Z2].
  destruct (per_sets_log_and_give_point S entry w) as [P|P];
    unfold per_sets, grown in P; injection P as -> ->.
  - auto.
  - rewrite !fmap_app. split; apply Forall_app; split; auto;
      repeat constructor.
Qed.

Lemma play_point_per_set_totals_zero st ev :
  per_set_totals_zero st -> per_set_totals_zero (play_point st ev).
Proof.
  intros H. play_cases st ev.
  all: apply (per_set_totals_zero_give st); [assumption|].
  all: obs_simpl; rewrite obs_sets_ownership_match by auto; obs_simpl;
    reflexivity.
Qed.

(** ** Return statistics on a double fault *)

Lemma lookup_total_snoc_new (l : list PlayerStats) i :
  (l ++ [PlayerStats_new]) !!! i = l !!! i.
Proof.
  revert i. induction l as [|x l IH]; intros [|i]; cbn; try reflexivity.
  apply IH.
Qed.

Lemma fmap_lookup_total {X} (g : PlayerStats -> X) (l l' : list PlayerStats) i :
  g <$> l = g <$> l' -> g (l !!! i) = g (l' !!! i).
Proof.
  revert l' i. induction l as [|x l IH]; intros [|x' l'] [|i] E; cbn in *;
    try discriminate; try reflexivity.
  - now injection E.
  - injection E as _ E. now apply IH.
Qed.

(** No statistics update of a double-fault point writes a return counter,
    and awarding the point only appends fresh per-set objects. *)
Lemma return_stats_give st S entry w p i :
  obs return_stats S = obs return_stats st ->
  let st' := log_and_give_point S entry w in
  return_stats (match_stats_of p st') = return_stats (match_stats_of p st)
  /\ return_stats (set_stats_of p i st') = return_stats (set_stats_of p i st).
Proof.
  intros E. cbv zeta.
  destruct (give_point_keeps S entry w) as (E1 & E2 & _).
  pose proof (f_equal (fun o => fst (fst o)) E) as M1.
  pose proof (f_equal (fun o => snd (fst o)) E) as M2.
  pose proof (f_equal (fun o => fst (snd o)) E) as P1.
  pose proof (f_equal (fun o => snd (snd o)) E) as P2.
  cbn in M1, M2, P1, P2. clear E.
  unfold match_stats_of, set_stats_of.
  split.
  - destruct (p =? 0); congruence.
  - destruct (per_sets_log_and_give_point S entry w) as [P|P];
      unfold per_sets, grown in P; injection P as -> ->;
      destruct (p =? 0); rewrite ?lookup_total_snoc_new;
      now apply fmap_lookup_total.
Qed.

(** The two ways to enter a double fault: serve menu 4, and serve menu 2
    followed by anything but 1. *)
Lemma double_fault_return_stats st c p i :
  c = DoubleFault \/ c = FirstFaultDoubleFault ->
  let st' := play_point st (OnServe c) in
  return_stats (match_stats_of p st') = return_stats (match_stats_of p st)
  /\ return_stats (set_stats_of p i st') = return_stats (set_stats_of p i st).
Proof.
  intros Hc. cbv zeta. unfold play_point.
  destruct (point_flags st) as [[[? ?] ?] ?].
  destruct Hc as [-> | ->]; cbv zeta;
    apply return_stats_give; obs_simpl; reflexivity.
Qed.

(** C10.  A double fault, entered either way, leaves the five return
    counters of the receiver as they were, in the match-level object and in
    the object of the set the point was played in. *)
Theorem double_fault_keeps_receiver_return_stats (st : MatchState) :
  let receiver := opponent (current_server st) in
  let set := current_set_index st in
  let unchanged st' :=
    return_stats (match_stats_of receiver st')
    = return_stats (match_stats_of receiver st)
    /\ return_stats (set_stats_of receiver set st')
       = return_stats (set_stats_of receiver set st) in
  unchanged (play_point st (OnServe DoubleFault))
  /\ unchanged (play_point st (OnServe FirstFaultDoubleFault)).
Proof. split; apply double_fault_return_stats; auto. Qed.

(** ** The loop of [main] *)

Lemma wf_compute_tiebreak_server st : wf st -> wf (compute_tiebreak_server st).
Proof.
  intros W.
  destruct W as [[Hn Hi] L1 L2 G T [Sv1 Sv2] TW Wn D Fin Sum].
  unfold compute_tiebreak_server. cbv zeta.
  destruct (_ || _); wf_fields.
  split; [|exact Sv2]. destruct Sv2 as [-> | ->]; cbn; auto.
Qed.

Lemma wf_before_menu tbsv st : wf st -> wf (before_menu tbsv st).
Proof.
  intros W. unfold before_menu. cbv zeta.
  set (st1 := if _ && (tb_points_p2 st =? 0) then _ else st).
  assert (W1 : wf st1).
  { subst st1. destruct (_ && _); [|exact W].
    destruct W as [[Hn Hi] L1 L2 G T [Sv1 Sv2] TW Wn D Fin Sum].
    wf_fields. destruct (tbsv =? 2); auto. }
  destruct (_ || _); [now apply wf_compute_tiebreak_server | exact W1].
Qed.

(** The top of the loop writes two server fields and nothing else. *)
Lemma before_menu_keeps tbsv st :
  kept_by_scoring (before_menu tbsv st) = kept_by_scoring st
  /\ per_sets (before_menu tbsv st) = per_sets st.
Proof.
  unfold before_menu, compute_tiebreak_server. cbv zeta.
  repeat match goal with
         | |- context [if ?c then _ else _] => destruct c
         end; split; reflexivity.
Qed.

Lemma good_before_menu tbsv st : good st -> good (before_menu tbsv st).
Proof.
  intros (W & S & Z).
  destruct (before_menu_keeps tbsv st) as [K P].
  unfold kept_by_scoring in K. injection K as K1 K2 K3 _.
  unfold per_sets in P. injection P as P1 P2.
  split; [now apply wf_before_menu|]. split.
  - unfold stats_match_log in *. now rewrite K1, K2, K3.
  - unfold per_set_totals_zero in *. now rewrite P1, P2.
Qed.

Lemma good_tiebreak_server st :
  good st ->
  good (if in_set_tiebreak st || in_match_tiebreak10 st
        then compute_tiebreak_server st else st).
Proof.
  intros G. destruct (_ || _); [|exact G].
  destruct G as (W & S & Z).
  split; [now apply wf_compute_tiebreak_server|].
  unfold compute_tiebreak_server. cbv zeta.
  destruct (_ || _); now split.
Qed.

Lemma good_main_init c : good (live (main_init c)).
Proof.
  unfold main_init, get_format_by_choice. cbn.
  split; [|split].
  - constructor; cbn; try lia; try (intros; discriminate); auto.
    + split; [|auto]. destruct (sfirst c =? 2); auto.
    + intros [|k] s Hk; cbn in Hk; [|discriminate].
      injection Hk as <-. reflexivity.
  - repeat split.
  - split; repeat constructor.
Qed.

Lemma good_settled st : good st -> settled st.
Proof. intros (W & S & Z). split; [now apply wf_index_ok | now split]. Qed.

(** A completed point leaves a good state, or decides the match. *)
Lemma play_point_good st ev :
  good st ->
  let st' := play_point st ev in
  settled st' /\ (match_is_over_now st' = false -> good st').
Proof.
  intros (W & S & Z). cbv zeta.
  pose proof (play_point_wf st ev W) as H. cbv zeta in H.
  pose proof (play_point_stats_match_log st ev S) as S'.
  pose proof (play_point_per_set_totals_zero st ev Z) as Z'.
  destruct (match_is_over_now (play_point st ev)).
  - split; [|discriminate]. split; [exact (proj1 H)|]. now split.
  - split; [apply good_settled|intros _]; (split; [exact H|]); now split.
Qed.

Lemma pop_history_good st h :
  good st -> Forall good h ->
  let '(_, st', h') := pop_history st h in good st' /\ Forall good h'.
Proof.
  intros G H. unfold pop_history.
  destruct h as [|top h _] using rev_ind; [now split|].
  rewrite last_snoc, removelast_last.
  apply Forall_app in H as [H1 H2]. split; [|assumption].
  now apply Forall_inv in H2.
Qed.

Lemma main_turn_ok tbsv m t :
  tracker_ok t ->
  let '(t', done) := main_turn tbsv m t in
  settled (live t') /\ (done = false -> tracker_ok t').
Proof.
  intros [G H]. unfold main_turn. cbv zeta.
  pose proof (good_before_menu tbsv _ G) as G1.
  set (st := before_menu tbsv (live t)) in *.
  destruct m as [[| |ev]| | | |]; cbn [live history_stack].
  - (* admin menu, undo *)
    unfold record_point_and_stats. cbn [live history_stack].
    rewrite pop_push.
    pose proof (pop_history_good st (history_stack t) G1 H) as P.
    destruct (pop_history st (history_stack t)) as [[ok st'] h'].
    destruct P as [G' H']. cbn [live].
    destruct G' as (W' & S' & Z').
    rewrite (wf_not_over _ W').
    split; [now apply good_settled|intros _]. now split.
  - (* admin menu, end match *)
    unfold record_point_and_stats. cbn [live history_stack].
    rewrite pop_push. cbn [live].
    destruct G1 as (W' & S' & Z').
    rewrite (wf_not_over _ W').
    split; [now apply good_settled|intros _]. now split.
  - (* a completed point *)
    unfold record_point_and_stats. cbn [live history_stack].
    pose proof (good_tiebreak_server st G1) as G2.
    set (st0 := if _ || _ then _ else st) in *.
    destruct (play_point_good st0 ev G2) as [Se Go].
    destruct (match_is_over_now (play_point st0 ev)); cbn [live].
    + split; [assumption|discriminate].
    + split; [assumption|intros _]. split; cbn [live history_stack].
      * now apply Go.
      * unfold push_history. apply Forall_app. split; [assumption|].
        constructor; [exact G1|constructor].
  - split; [now apply good_settled|intros _]. now split.
  - pose proof (pop_history_good st (history_stack t) G1 H) as P.
    destruct (pop_history st (history_stack t)) as [[ok st'] h'].
    destruct P as [G' H']. cbn [live].
    split; [now apply good_settled|intros _]. now split.
  - split; [now apply good_settled|discriminate].
  - split; [now apply good_settled|intros _]. now split.
Qed.

Lemma main_loop_ok turns t :
  tracker_ok t ->
  settled (live (fst (main_loop turns t)))
  /\ (snd (main_loop turns t) = false -> tracker_ok (fst (main_loop turns t))).
Proof.
  revert t. induction turns as [|[tbsv m] turns IH]; intros t T; cbn.
  - split; [|auto]. apply good_settled, T.
  - pose proof (main_turn_ok tbsv m t T) as H.
    destruct (main_turn tbsv m t) as [t' done].
    destruct H as [Se Go]. destruct done; cbn.
    + split; [assumption|discriminate].
    + apply IH. now apply Go.
Qed.

Lemma main_init_ok c : tracker_ok (main_init c).
Proof. split; [apply good_main_init|constructor]. Qed.

Lemma run_ok c turns :
  settled (live (fst (run c turns)))
  /\ (snd (run c turns) = false -> tracker_ok (fst (run c turns))).
Proof. apply main_loop_ok, main_init_ok. Qed.

(** While [main] has not set [done], the state satisfies the invariant. *)
Lemma running_wf c turns :
  snd (run c turns) = false -> wf (live (fst (run c turns))).
Proof. intros H. now destruct (proj2 (run_ok c turns) H) as [(W & _) _]. Qed.

(** C1.  Whatever is entered, the match-level totals agree with the point
    log: the points won by the two players add up to the number of log
    entries, and each player has played that many points. *)
Theorem totals_agree_with_log (c : Setup) (turns : list (Z * MainChoice)) :
  let st := live (fst (run c turns)) in
  let n := Z.of_nat (length (log_entries st)) in
  points_won (match_stats_p1 st) + points_won (match_stats_p2 st) = n
  /\ points_played (match_stats_p1 st) = n
  /\ points_played (match_stats_p2 st) = n.
Proof. exact (proj1 (proj2 (proj1 (run_ok c turns)))). Qed.

(** ** The point that decides the match *)












(** ** Winning a regular game *)

Lemma games_alter (f : SetScore -> SetScore) (l : list SetScore) i k :
  (forall s, games_player1 (f s) = games_player1 s
             /\ games_player2 (f s) = games_player2 s) ->
  games_player1 (alter f i l !!! k) = games_player1 (l !!! k)
  /\ games_player2 (alter f i l !!! k) = games_player2 (l !!! k).
Proof.
  intros Hf. revert i k.
  induction l as [|x l IH]; intros [|i] [|k]; cbn; auto.
Qed.

Lemma game_view_start_new_set k st :
  (k < length (sets st))%nat ->
  game_view k (start_new_set st) = game_view k st.
Proof.
  intros Hk. unfold game_view, start_new_set. cbn.
  now rewrite lookup_total_app_l.
Qed.

Lemma game_view_close_set k st w :
  (k < length (sets st))%nat ->
  game_view k (close_set_and_prepare_next st w) = game_view k st.
Proof.
  intros Hk. unfold close_set_and_prepare_next. cbv zeta.
  set (st1 := alter_current_set _ st).
  assert (E : game_view k st1 = game_view k st
              /\ length (sets st1) = length (sets st)).
  { subst st1. unfold game_view, alter_current_set. cbn.
    rewrite length_alter. split; [|reflexivity].
    destruct (games_alter (with_set_finished true) (sets st)
                (Z.to_nat (current_set_index st)) k) as [-> ->]; auto. }
  destruct E as [<- EL]. rewrite <- EL in Hk.
  set (st2 := if w =? 0 then _ else _).
  assert (E : game_view k st2 = game_view k st1
              /\ length (sets st2) = length (sets st1))
    by (subst st2; destruct (w =? 0); split; reflexivity).
  destruct E as [<- EL2]. rewrite <- EL2 in Hk.
  destruct (negb _); [|reflexivity].
  destruct (_ && (_ =? 1)); [reflexivity|].
  now apply game_view_start_new_set.
Qed.

Lemma game_points_close_set st w :
  game_points_p1 st = 0 -> game_points_p2 st = 0 ->
  game_points_p1 (close_set_and_prepare_next st w) = 0
  /\ game_points_p2 (close_set_and_prepare_next st w) = 0.
Proof.
  intros H1 H2. unfold close_set_and_prepare_next, start_new_set. cbv zeta.
  destruct (w =? 0);
    repeat match goal with
           | |- context [if ?c then _ else _] => destruct c
           end; cbn; auto.
Qed.

Lemma after_award_game_keeps k st :
  (k < length (sets st))%nat ->
  game_points_p1 st = 0 -> game_points_p2 st = 0 ->
  game_view k (after_award_game st) = game_view k st
  /\ game_points_p1 (after_award_game st) = 0
  /\ game_points_p2 (after_award_game st) = 0.
Proof.
  intros Hk H1 H2. unfold after_award_game. cbv zeta.
  set (st1 := if _ && _ then _ else st).
  assert (E : game_view k st1 = game_view k st
              /\ length (sets st1) = length (sets st)
              /\ game_points_p1 st1 = 0 /\ game_points_p2 st1 = 0).
  { subst st1. destruct (_ && _); [|auto].
    unfold game_view, alter_current_set. cbn. rewrite length_alter.
    destruct (games_alter (with_set_tiebreak_played true) (sets st)
                (Z.to_nat (current_set_index st)) k) as [-> ->]; auto. }
  destruct E as (<- & EL & G1 & G2). rewrite <- EL in Hk.
  destruct (negb (in_set_tiebreak st1)); [|auto].
  destruct (set_is_won_now st1); [|auto].
  split; [now apply game_view_close_set | now apply game_points_close_set].
Qed.

(** The test of [give_point_regular] after a point of player [w] in an
    open game: it succeeds exactly when [w] has at least 4 points and leads
    by at least 2, and then the game goes to [w]. *)
Lemma game_won_test st w :
  0 <= game_points_p1 st -> 0 <= game_points_p2 st ->
  (game_points_p1 st <= 3 /\ game_points_p2 st <= 3)
  \/ Z.abs (game_points_p1 st - game_points_p2 st) <= 1 ->
  let mine := game_points_of w st + 1 in
  let theirs := game_points_of (opponent w) st in
  let p1 := if w =? 0 then game_points_p1 st + 1 else game_points_p1 st in
  let p2 := if w =? 0 then game_points_p2 st else game_points_p2 st + 1 in
  (((p1 >=? 4) || (p2 >=? 4)) && (Z.abs (p1 - p2) >=? 2)
   = (mine >=? 4) && (mine - theirs >=? 2))
  /\ ((mine >=? 4) && (mine - theirs >=? 2) = true ->
      (if p1 >? p2 then 0 else 1) = (if w =? 0 then 0 else 1)).
Proof.
  intros Ha Hb H. cbv zeta. unfold game_points_of, opponent.
  destruct (w =? 0); cbn [Z.eqb].
  - destruct (Z.geb_spec (game_points_p1 st + 1) 4),
      (Z.geb_spec (game_points_p2 st) 4),
      (Z.geb_spec (Z.abs (game_points_p1 st + 1 - game_points_p2 st)) 2),
      (Z.geb_spec (game_points_p1 st + 1 - game_points_p2 st) 2);
      cbn; split; try reflexivity; try lia; try discriminate.
    all: intros _;
      destruct (Z.gtb_spec (game_points_p1 st + 1) (game_points_p2 st));
      [reflexivity | lia].
  - destruct (Z.geb_spec (game_points_p2 st + 1) 4),
      (Z.geb_spec (game_points_p1 st) 4),
      (Z.geb_spec (Z.abs (game_points_p1 st - (game_points_p2 st + 1))) 2),
      (Z.geb_spec (game_points_p2 st + 1 - game_points_p1 st) 2);
      cbn; split; try reflexivity; try lia; try discriminate.
    all: intros _;
      destruct (Z.gtb_spec (game_points_p1 st) (game_points_p2 st + 1));
      [lia | reflexivity].
Qed.

Lemma give_point_regular_eq st w :
  give_point_regular st w
  = let st1 := if w =? 0
               then with_game_points_p1 (game_points_p1 st + 1) st
               else with_game_points_p2 (game_points_p2 st + 1) st in
    if (game_points_p1 st1 >=? 4) || (game_points_p2 st1 >=? 4) then
      if Z.abs (game_points_p1 st1 - game_points_p2 st1) >=? 2 then
        after_award_game
          (award_game st1
             (if game_points_p1 st1 >? game_points_p2 st1 then 0 else 1))
      else st1
    else st1.
Proof. unfold give_point_regular, after_award_game. cbv zeta. reflexivity. Qed.

(** A game awarded in a state [st1] that differs from [st] in the game
    points only. *)
Lemma game_awarded st st1 p :
  sets st1 = sets st -> current_set_index st1 = current_set_index st ->
  current_server st1 = current_server st ->
  (Z.to_nat (current_set_index st) < length (sets st))%nat ->
  let st' := after_award_game (award_game st1 p) in
  let played := sets st' !!! Z.to_nat (current_set_index st) in
  games_of p played = games_of p (current_set st) + 1
  /\ games_of (opponent p) played = games_of (opponent p) (current_set st)
  /\ current_server st' = opponent (current_server st)
  /\ game_points_p1 st' = 0 /\ game_points_p2 st' = 0.
Proof.
  intros Es Ei Ec Hk. cbv zeta.
  set (st2 := award_game st1 p).
  destruct (after_award_game_keeps (Z.to_nat (current_set_index st)) st2)
    as (V & P1 & P2).
  { subst st2. unfold award_game, alter_current_set.
    destruct (p =? 0); cbn; now rewrite length_alter, Es. }
  { subst st2. unfold award_game. now destruct (p =? 0). }
  { subst st2. unfold award_game. now destruct (p =? 0). }
  unfold game_view in V.
  assert (V1 := f_equal (fun v => fst (fst v)) V).
  assert (V2 := f_equal (fun v => snd (fst v)) V).
  assert (V3 := f_equal snd V). cbn in V1, V2, V3. clear V.
  unfold games_of, opponent, current_set.
  rewrite V1, V2, V3, P1, P2.
  subst st2. unfold award_game, alter_current_set.
  destruct (p =? 0); cbn; rewrite Es, Ei, Ec;
    rewrite list_lookup_total_alter_eq by exact Hk; cbn; auto.
Qed.

(** C5.  [give_point_regular] on an open game of a running match.  The
    player who gets the point wins the game exactly when the new count is
    at least 4 and at least 2 more than the opponent's.  Then that
    player's games in the set being played go up by one, the opponent's
    stay, the server changes and both point counters are 0; otherwise the
    only change to the state is the point. *)
Theorem regular_game_won_exactly (st : MatchState) (w : Z) :
  wf st ->
  let mine := game_points_of w st + 1 in
  let theirs := game_points_of (opponent w) st in
  let st' := give_point_regular st w in
  let played := sets st' !!! Z.to_nat (current_set_index st) in
  if (mine >=? 4) && (mine - theirs >=? 2) then
    games_of w played = games_of w (current_set st) + 1
    /\ games_of (opponent w) played = games_of (opponent w) (current_set st)
    /\ current_server st' = opponent (current_server st)
    /\ game_points_p1 st' = 0 /\ game_points_p2 st' = 0
  else
    st' = if w =? 0 then with_game_points_p1 mine st
          else with_game_points_p2 mine st.
Proof.
  intros W. cbv zeta.
  destruct W as [[Hn Hi] _ _ (G1 & G2 & G) _ _ _ _ _ _ _].
  assert (Hk : (Z.to_nat (current_set_index st) < length (sets st))%nat) by lia.
  destruct (game_won_test st w G1 G2 G) as [T Gw]. cbv zeta in T, Gw.
  rewrite give_point_regular_eq. cbv zeta.
  set (st1 := if w =? 0 then _ else _).
  assert (E : sets st1 = sets st
              /\ current_set_index st1 = current_set_index st
              /\ current_server st1 = current_server st
              /\ game_points_p1 st1
                 = (if w =? 0 then game_points_p1 st + 1 else game_points_p1 st)
              /\ game_points_p2 st1
                 = (if w =? 0 then game_points_p2 st
                    else game_points_p2 st + 1)
              /\ st1 = (if w =? 0
                        then with_game_points_p1 (game_points_of w st + 1) st
                        else with_game_points_p2 (game_points_of w st + 1) st)).
  { subst st1. unfold game_points_of.
    destruct (w =? 0); repeat split; reflexivity. }
  destruct E as (Es & Ei & Ec & E1 & E2 & E3).
  rewrite E1, E2.
  rewrite <- T.
  destruct (_ || _); cbn [andb]; [|exact E3].
  destruct (_ >=? 2); [|exact E3].
  rewrite (Gw (eq_sym T)).
  pose proof (game_awarded st st1 (if w =? 0 then 0 else 1) Es Ei Ec Hk) as A.
  cbv zeta in A.
  replace (games_of (if w =? 0 then 0 else 1)) with (games_of w) in A
    by (unfold games_of; now destruct (w =? 0)).
  replace (opponent (if w =? 0 then 0 else 1)) with (opponent w) in A
    by (unfold opponent; now destruct (w =? 0)).
  exact A.
Qed.

(** ** Where sets are closed *)

(** A point in a running match either leaves the sets won as they were, or
    closes a set through [close_set_and_prepare_next], called on a state
    that satisfies the invariant and has both tiebreak flags clear. *)
Lemma set_closes_in_running_context st S entry w :
  wf st -> frame_of S = frame_of st -> in_match_tiebreak10 st = false ->
  let st' := log_and_give_point S entry w in
  (sets_won_p1 st' = sets_won_p1 st /\ sets_won_p2 st' = sets_won_p2 st)
  \/ exists stc set_winner,
       wf stc /\ in_set_tiebreak stc = false
       /\ in_match_tiebreak10 stc = false
       /\ st' = close_set_and_prepare_next stc set_winner.
Proof.
  intros W F HM. cbv zeta. unfold log_and_give_point. cbv zeta.
  set (S1 := with_log_entries _ S).
  assert (W1 : wf S1).
  { eapply wf_frame.
    - apply frame_with_log_entries, F.
    - now apply wf_with_log_entries. }
  assert (E : sets_won_p1 S1 = sets_won_p1 st
              /\ sets_won_p2 S1 = sets_won_p2 st
              /\ in_match_tiebreak10 S1 = false).
  { apply frame_fields in F. subst S1. cbn.
    destruct F as (_ & _ & _ & _ & _ & _ & _ & _ & _ & -> & _ & _ & _ & _
                   & -> & -> & _). auto. }
  destruct E as (<- & <- & HM1). clearbody S1. clear W F HM S.
  rewrite HM1.
  destruct (in_set_tiebreak S1) eqn:HS.
  - (* a set tiebreak point *)
    unfold give_point_tiebreak. cbv zeta.
    set (st1 := if w =? 0 then _ else _).
    assert (E : wf st1 /\ sets_won_p1 st1 = sets_won_p1 S1
                /\ sets_won_p2 st1 = sets_won_p2 S1
                /\ in_match_tiebreak10 st1 = false).
    { destruct W1 as [[Hn Hi] L1 L2 G T Sv TW Wn D Fin Sum].
      subst st1. destruct (w =? 0); (split; [wf_fields|auto]). }
    destruct E as (W2 & <- & <- & HM2).
    destruct (set_is_won_now st1) as [sw|]; [|auto].
    right. eexists _, sw. split; [|split; [|split]]; [| | |reflexivity].
    + destruct W2 as [[Hn Hi] L1 L2 G T Sv TW Wn D Fin Sum].
      unfold alter_current_set. wf_fields.
    + reflexivity.
    + exact HM2.
  - (* a point of a regular game *)
    rewrite give_point_regular_eq. cbv zeta.
    set (st1 := if w =? 0 then _ else _).
    assert (E : (st1 = with_game_points_p1 (game_points_p1 st1) S1
                 \/ st1 = with_game_points_p2 (game_points_p2 st1) S1)
                /\ sets_won_p1 st1 = sets_won_p1 S1
                /\ sets_won_p2 st1 = sets_won_p2 S1)
      by (subst st1; destruct (w =? 0); auto).
    destruct E as (E & E1 & E2).
    destruct (_ || _); [|auto]. destruct (_ >=? 2); [|auto].
    set (gw := if _ >? _ then 0 else 1).
    destruct (wf_award_game S1 st1 gw W1 E) as (W2 & S2 & M2).
    assert (E3 : sets_won_p1 (award_game st1 gw) = sets_won_p1 S1
                 /\ sets_won_p2 (award_game st1 gw) = sets_won_p2 S1).
    { rewrite <- E1, <- E2. unfold award_game.
      destruct (gw =? 0); split; reflexivity. }
    set (st2 := award_game st1 gw) in *.
    destruct E3 as [<- <-]. rewrite HS in S2. rewrite HM1 in M2.
    unfold after_award_game. cbv zeta.
    destruct (negb (in_match_tiebreak10 st2) && check_enter_set_tiebreak st2).
    + left. split; reflexivity.
    + rewrite S2. cbn [negb].
      destruct (set_is_won_now st2) as [sw|]; [|auto].
      right. now exists st2, sw.
Qed.

(** ** The server of a tiebreak point *)

(** The log entry of a completed point names the server the state had when
    the point was entered, which in a tiebreak is the one
    [compute_tiebreak_server] has just set. *)
Lemma play_point_logs_server st ev :
  exists e,
    log_entries (play_point st ev) = log_entries st ++ [e]
    /\ server_player e = current_server st.
Proof.
  play_cases st ev.
  all: match goal with
       | |- context [log_and_give_point ?S ?e ?w] =>
           exists e;
           destruct (give_point_keeps S e w) as (_ & _ & ->);
           split; [|reflexivity];
           f_equal; apply log_entries_frame; frame_simpl; reflexivity
       end.
Qed.

Lemma tiebreak_point_logs_computed_server ev t :
  in_set_tiebreak (live t) || in_match_tiebreak10 (live t) = true ->
  let t' := record_point_and_stats (Played ev) t in
  exists e,
    log_entries (live t') = log_entries (live t) ++ [e]
    /\ server_player e = current_server (compute_tiebreak_server (live t)).
Proof.
  intros HT. cbv zeta. unfold record_point_and_stats. cbv zeta.
  rewrite HT. cbn [live].
  destruct (play_point_logs_server (compute_tiebreak_server (live t)) ev)
    as (e & E1 & E2).
  exists e. split; [|exact E2]. rewrite E1. f_equal.
  unfold compute_tiebreak_server. cbv zeta.
  destruct ((_ =? 0) || _); reflexivity.
Qed.

(** A point that decides the match leaves the row of the match tiebreak
    behind exactly when it was a point of the match tiebreak. *)
Lemma deciding_point_row tbsv ev t :
  tracker_ok t ->
  let shown := before_menu tbsv (live t) in
  let st' := live (fst (main_turn tbsv (RecordPoint (Played ev)) t)) in
  match_is_over_now st' = true ->
  decided_by_tiebreak10 st' = in_match_tiebreak10 shown.
Proof.
  intros [G _]. cbv zeta.
  pose proof (good_before_menu tbsv _ G) as G1.
  pose proof (good_tiebreak_server _ G1) as (W & _ & _).
  unfold main_turn. cbv zeta.
  set (shown := before_menu tbsv (live t)) in *.
  unfold record_point_and_stats. cbn [live history_stack].
  set (st := if _ || _ then _ else shown) in *.
  assert (EM : in_match_tiebreak10 st = in_match_tiebreak10 shown).
  { subst st. unfold compute_tiebreak_server. cbv zeta.
    destruct (in_set_tiebreak shown || _); [|reflexivity].
    destruct ((_ =? 0) || _); reflexivity. }
  pose proof (play_point_wf st ev W) as H. cbv zeta in H.
  destruct (match_is_over_now (play_point st ev)) eqn:Over; cbn [live fst];
    rewrite Over; [|discriminate].
  intros _. rewrite <- EM. exact (proj2 H).
Qed.

(** While the match is running the current set is the last record. *)
Lemma running_current_set_is_last c turns :
  snd (run c turns) = false ->
  let st := live (fst (run c turns)) in
  current_set_index st = Z.of_nat (length (sets st)) - 1.
Proof. intros H. exact (proj2 (wf_index _ (running_wf c turns H))). Qed.

(** The original wording of the game-point predicate is right on every
    score an open game can show. *)
Lemma is_game_point_for_open_game leader trailer :
  0 <= leader -> 0 <= trailer ->
  (leader <= 3 /\ trailer <= 3) \/ Z.abs (leader - trailer) <= 1 ->
  is_game_point_for leader trailer = true
  <-> 3 <= leader /\ (trailer <= 2 \/ leader = trailer + 1).
Proof.
  intros Hl Ht H.
  unfold is_game_point_for.
  destruct (Z.leb_spec leader 2), (Z.eqb_spec leader 3),
    (Z.leb_spec trailer 2), (Z.geb_spec leader 3), (Z.geb_spec trailer 3),
    (Z.eqb_spec leader (trailer + 1)); cbn; split; intros; 
    try discriminate; try lia; try reflexivity.
Qed.

(** ** The match tiebreak row *)


(** ** Per-set totals *)

(** C4, what the code does.  After one ace in a fresh match the
    match-level objects have counted the point, won by player 1 and played
    by both, and the per-set object of the server has counted the ace, but
    no per-set object has counted a point won or played; and that is so in
    every state of every match: [add_stats_point_ownership] is only ever
    handed the match-level objects. *)
Theorem per_set_totals_never_counted :
  (let st := live (fst (run setup_full [ace])) in
   totals (match_stats_p1 st) = (1, 1)
   /\ totals (match_stats_p2 st) = (0, 1)
   /\ aces_first (set_stats_of 0 0 st) = 1
   /\ totals (set_stats_of 0 0 st) = (0, 0)
   /\ totals (set_stats_of 1 0 st) = (0, 0))
  /\ forall c turns, per_set_totals_zero (live (fst (run c turns))).
Proof.
  split.
  - vm_compute. repeat split.
  - intros c turns. exact (proj2 (proj2 (proj1 (run_ok c turns)))).
Qed.

(** ** Instances *)

(** The pattern at the seventh point of a tiebreak opened by player 1 with
    the score 4-2: seven is 3 modulo 4 and the opener serves. *)
Lemma tiebreak_server_pattern_witness :
  let st :=
    with_tb_points_p1 4
      (with_tb_points_p2 3 (live (main_init setup_full))) in
  current_server (compute_tiebreak_server st) = tb_start_server st
  <-> ((4 + 3) mod 4 = 0 \/ (4 + 3) mod 4 = 3).
Proof.
  cbv zeta.
  refine (proj1 (tiebreak_server_pattern
                   (with_tb_points_p1 4
                      (with_tb_points_p2 3 (live (main_init setup_full))))
                   _ _)); cbn; lia.
Defined.

Lemma wf_fresh_match : wf (live (main_init setup_full)).
Proof. apply (running_wf setup_full []). reflexivity. Qed.

Lemma wf_at_forty_love : wf (live (fst (run setup_full [ace; ace; ace]))).
Proof. apply running_wf. vm_compute. reflexivity. Qed.

(** At 40-0 on the opening service game the next point of the server wins
    the game. *)
Lemma regular_game_won_exactly_witness :
  let st := live (fst (run setup_full [ace; ace; ace])) in
  let st' := give_point_regular st 0 in
  wf st
  /\ games_player1 (sets st' !!! 0%nat) = 1
  /\ games_player2 (sets st' !!! 0%nat) = 0
  /\ current_server st' = 1
  /\ game_points_p1 st' = 0 /\ game_points_p2 st' = 0.
Proof.
  cbv zeta. split; [exact wf_at_forty_love|].
  pose proof (regular_game_won_exactly _ 0 wf_at_forty_love) as H.
  vm_compute in H. vm_compute. exact H.
Defined.

(** The first set of a fresh match closed for player 1: the hypotheses
    hold of the fresh state, and the case analysis applies to it. *)
Lemma close_set_decides_next_witness :
  let st := live (main_init setup_full) in
  wf st /\ in_set_tiebreak st = false /\ in_match_tiebreak10 st = false
  /\ (let st' := close_set_and_prepare_next st 0 in
      let closed :=
        alter (with_set_finished true) (Z.to_nat (current_set_index st))
          (sets st) in
      if match_is_over_now st' then
        sets st' = closed
        /\ current_set_index st' = current_set_index st
        /\ in_set_tiebreak st' = false /\ in_match_tiebreak10 st' = false
      else if (sets_completed closed =? 2)
              && (sets_won_p1 st' =? 1) && (sets_won_p2 st' =? 1)
              && is_tb10 (deciding (format st'))
      then
        in_match_tiebreak10 st' = true /\ in_set_tiebreak st' = false
        /\ tb_points_p1 st' = 0 /\ tb_points_p2 st' = 0
        /\ sets st' = closed
        /\ current_set_index st' = current_set_index st
      else
        sets st' = closed ++ [SetScore_new]
        /\ per_set_stats_p1 st' = per_set_stats_p1 st ++ [PlayerStats_new]
        /\ per_set_stats_p2 st' = per_set_stats_p2 st ++ [PlayerStats_new]
        /\ current_set_index st' = Z.of_nat (length (sets st')) - 1
        /\ game_points_p1 st' = 0 /\ game_points_p2 st' = 0
        /\ tb_points_p1 st' = 0 /\ tb_points_p2 st' = 0
        /\ in_set_tiebreak st' = false /\ in_match_tiebreak10 st' = false).
Proof.
  cbv zeta.
  split; [exact wf_fresh_match|]. split; [reflexivity|]. split; [reflexivity|].
  exact (close_set_decides_next (live (main_init setup_full)) 0
           wf_fresh_match eq_refl eq_refl).
Defined.

(** The fresh state is not decided by that set and is not at one set all:
    the third case applies, and the second set is started. *)
Lemma fresh_match_second_set :
  let st' := close_set_and_prepare_next (live (main_init setup_full)) 0 in
  match_is_over_now st' = false
  /\ sets_won_p1 st' = 1 /\ sets_won_p2 st' = 0
  /\ length (sets st') = 2%nat /\ current_set_index st' = 1.
Proof. vm_compute. repeat split. Qed.
(** * Further properties *)

(** ** Text helpers *)

Lemma length_fill n c : String.length (fill n c) = n.
Proof. induction n; cbn; congruence. Qed.

Lemma length_append (a b : string) :
  String.length (String.append a b) = (String.length a + String.length b)%nat.
Proof. induction a; cbn; congruence. Qed.

Lemma append_empty_r (a : string) : String.append a EmptyString = a.
Proof. induction a; cbn; congruence. Qed.

(** X1.  [left_pad] puts max(0, width - size) spaces before the string and
    [right_pad] puts them behind it: nothing is cut off, and the result has
    max(size, width) characters. *)
Theorem pads_fill_up_to_width (s : string) (width : Z) :
  let n := Z.to_nat (width - size s) in
  left_pad s width = String.append (fill n " ") s
  /\ right_pad s width = String.append s (fill n " ")
  /\ size (left_pad s width) = Z.max (size s) width
  /\ size (right_pad s width) = Z.max (size s) width.
Proof.
  cbv zeta. unfold left_pad, right_pad, size.
  destruct (Z.geb_spec (Z.of_nat (String.length s)) width) as [H|H].
  - replace (Z.to_nat (width - Z.of_nat (String.length s))) with 0%nat by lia.
    cbn. rewrite append_empty_r. repeat split; lia.
  - rewrite !length_append, length_fill. repeat split; lia.
Qed.

(** ** The export files *)

(** X2.  The event text written to [_points.csv] has as many characters as
    the event of the log entry and no double quote among them; it is the
    event text itself when that has none. *)
Theorem csv_event_has_no_quote (ev : string) :
  ~ In dquote (chars (csv_event ev))
  /\ String.length (csv_event ev) = String.length ev
  /\ (~ In dquote (chars ev) -> csv_event ev = ev).
Proof.
  unfold chars. induction ev as [|c r (IH1 & IH2 & IH3)]; cbn.
  - split; [intros []|auto].
  - split; [|split].
    + intros [H|H]; [|exact (IH1 H)].
      destruct (Ascii.eqb_spec c dquote); [discriminate|congruence].
    + congruence.
    + intros H. rewrite IH3 by (intros H2; apply H; now right).
      destruct (Ascii.eqb_spec c dquote) as [->|]; [|reflexivity].
      exfalso. apply H. now left.
Qed.

(** X3.  What [save_match_files] writes for the event text of a log entry
    can be read back: dropping each escaping backslash returns the event
    text, so two different events are never written alike. *)
Theorem json_event_reads_back (ev : string) :
  json_unescape (json_event ev) = ev.
Proof.
  induction ev as [|c r IH]; [reflexivity|]. cbn [json_event].
  destruct (Ascii.eqb_spec c dquote) as [->|H1].
  - cbn. now rewrite IH.
  - destruct (Ascii.eqb_spec c backslash) as [->|H2].
    + cbn. now rewrite IH.
    + cbn [json_unescape]. apply Ascii.eqb_neq in H2. rewrite H2.
      now rewrite IH.
Qed.

(** X4.  The base name of the saved files has no space in it, whatever the
    names of the players are. *)
Theorem file_base_has_no_space (st : MatchState) (stamp : string) :
  ~ In " "%char (chars (file_base st stamp)).
Proof.
  unfold file_base, chars.
  generalize (String.append (player1_name st)
                (String.append "_vs_"
                   (String.append (player2_name st)
                      (String.append "_" stamp)))).
  intros s. induction s as [|c r IH]; cbn; [intros []|].
  intros [H|H]; [|exact (IH H)].
  destruct (Ascii.eqb_spec c " "); [discriminate|congruence].
Qed.

(** ** The points row of the scoreboard *)

Lemma open_game_scores a b :
  0 <= a -> 0 <= b -> (a <= 3 /\ b <= 3) \/ Z.abs (a - b) <= 1 ->
  ((a = 0 \/ a = 1 \/ a = 2 \/ a = 3) /\ (b = 0 \/ b = 1 \/ b = 2 \/ b = 3))
  \/ (3 <= a /\ 3 <= b /\ (a = b \/ a = b + 1 \/ b = a + 1)).
Proof. lia. Qed.

(** X5.  On the scoreboard of an open regular game a player has game point
    exactly when the points row shows Ad for that player, or 40 for that
    player and less than 40 for the other. *)
Theorem scoreboard_shows_game_point (st : MatchState) :
  wf st -> in_set_tiebreak st = false -> in_match_tiebreak10 st = false ->
  let pts1 := fst (scoreboard_points st) in
  let pts2 := snd (scoreboard_points st) in
  (is_game_point_for (game_points_p1 st) (game_points_p2 st) = true
   <-> pts1 = "Ad"%string \/ (pts1 = "40"%string /\ pts2 <> "40"%string))
  /\ (is_game_point_for (game_points_p2 st) (game_points_p1 st) = true
      <-> pts2 = "Ad"%string \/ (pts2 = "40"%string /\ pts1 <> "40"%string)).
Proof.
  intros W HS HM. cbv zeta.
  destruct (wf_game st W) as (G1 & G2 & G).
  unfold scoreboard_points. rewrite HS, HM. cbn [orb].
  generalize dependent (game_points_p2 st).
  generalize dependent (game_points_p1 st).
  intros a Ha b Hb G.
  destruct (open_game_scores a b Ha Hb G) as [[A B]|(A & B & C)].
  - destruct A as [->|[->|[->| ->]]], B as [->|[->|[->| ->]]]; cbn;
      split; split; intros H; try discriminate; auto;
      repeat match goal with
             | H : _ \/ _ |- _ => destruct H
             | H : _ /\ _ |- _ => destruct H
             end; try discriminate; congruence.
  - unfold is_game_point_for.
    destruct (Z.leb_spec a 2), (Z.leb_spec b 2); try lia.
    destruct (Z.geb_spec a 3), (Z.geb_spec b 3); try lia.
    cbn [andb].
    destruct (Z.eqb_spec a 3), (Z.eqb_spec b 3),
      (Z.eqb_spec a b), (Z.eqb_spec a (b + 1)), (Z.eqb_spec b (a + 1));
      try lia; cbn; split; split; intros Hyp; try discriminate; auto;
      repeat match goal with
             | H : _ \/ _ |- _ => destruct H
             | H : _ /\ _ |- _ => destruct H
             end; try discriminate; try congruence.
Qed.

(** At 40-0 in the opening game the row shows 40 and 0, and the server has
    game point. *)
Lemma scoreboard_shows_game_point_witness :
  let st := live (fst (run setup_full [ace; ace; ace])) in
  wf st /\ in_set_tiebreak st = false /\ in_match_tiebreak10 st = false
  /\ (let pts1 := fst (scoreboard_points st) in
      let pts2 := snd (scoreboard_points st) in
      (is_game_point_for (game_points_p1 st) (game_points_p2 st) = true
       <-> pts1 = "Ad"%string \/ (pts1 = "40"%string /\ pts2 <> "40"%string))
      /\ (is_game_point_for (game_points_p2 st) (game_points_p1 st) = true
          <-> pts2 = "Ad"%string
              \/ (pts2 = "40"%string /\ pts1 <> "40"%string))).
Proof.
  cbv zeta.
  split; [exact wf_at_forty_love|]. split; [reflexivity|]. split; [reflexivity|].
  exact (scoreboard_shows_game_point _ wf_at_forty_love eq_refl eq_refl).
Defined.
(** ** Undo from both menus *)

Lemma main_loop_app p q t :
  main_loop (p ++ q) t
  = if snd (main_loop p t) then main_loop p t
    else main_loop q (fst (main_loop p t)).
Proof.
  revert t. induction p as [|[a m] p IH]; intros t; [reflexivity|].
  cbn. destruct (main_turn a m t) as [t' done]. destruct done; [reflexivity|].
  apply IH.
Qed.

Lemma running_tracker_ok c turns :
  snd (run c turns) = false -> tracker_ok (fst (run c turns)).
Proof. apply (proj2 (run_ok c turns)). Qed.

(** X6.  While the match is running, "undo last point" chosen in the admin
    menu of the point entry does what "undo last point" of the main menu
    does: the two pops of the first take back its own snapshot and the one
    of the last point, the state, the stack and the loop flag come out the
    same. *)
Theorem admin_undo_is_main_undo (c : Setup) (turns : list (Z * MainChoice))
  (tbsv : Z) :
  snd (run c turns) = false ->
  main_turn tbsv (RecordPoint AdminUndo) (fst (run c turns))
  = main_turn tbsv UndoLastPoint (fst (run c turns)).
Proof.
  intros R. destruct (running_tracker_ok c turns R) as [G H].
  set (t := fst (run c turns)) in *.
  unfold main_turn, record_point_and_stats. cbv zeta. cbn [live history_stack].
  rewrite pop_push.
  pose proof (good_before_menu tbsv _ G) as G1.
  pose proof (pop_history_good _ _ G1 H) as P.
  destruct (pop_history (before_menu tbsv (live t)) (history_stack t))
    as [[ok st'] h'].
  destruct P as [(W & _) _]. cbn [live].
  now rewrite (wf_not_over _ W).
Qed.

Lemma admin_undo_is_main_undo_witness :
  snd (run setup_full [ace]) = false
  /\ main_turn 1 (RecordPoint AdminUndo) (fst (run setup_full [ace]))
     = main_turn 1 UndoLastPoint (fst (run setup_full [ace])).
Proof.
  split; [reflexivity|].
  exact (admin_undo_is_main_undo setup_full [ace] 1 eq_refl).
Defined.

(** X7.  While the match is running, "end match" chosen in the admin menu
    of the point entry ends nothing: the snapshot pushed on entry is popped
    again, the state and the stack are those the main menu showed, and the
    loop goes on. *)
Theorem admin_end_match_goes_on (c : Setup) (turns : list (Z * MainChoice))
  (tbsv : Z) :
  snd (run c turns) = false ->
  let t := fst (run c turns) in
  main_turn tbsv (RecordPoint AdminEndMatch) t
  = (MkTracker (before_menu tbsv (live t)) (history_stack t), false).
Proof.
  intros R. cbv zeta. destruct (running_tracker_ok c turns R) as [G H].
  set (t := fst (run c turns)) in *.
  unfold main_turn, record_point_and_stats. cbv zeta. cbn [live history_stack].
  rewrite pop_push. cbn [live].
  destruct (good_before_menu tbsv _ G) as (W & _).
  now rewrite (wf_not_over _ W).
Qed.

Lemma admin_end_match_goes_on_witness :
  snd (run setup_full [ace]) = false
  /\ (let t := fst (run setup_full [ace]) in
      main_turn 1 (RecordPoint AdminEndMatch) t
      = (MkTracker (before_menu 1 (live t)) (history_stack t), false)).
Proof.
  split; [reflexivity|].
  exact (admin_end_match_goes_on setup_full [ace] 1 eq_refl).
Defined.

(** ** Undoing several points *)

Lemma played_turn_pushes a ev t :
  history_stack (fst (main_turn a (RecordPoint (Played ev)) t))
  = history_stack t ++ [before_menu a (live t)].
Proof.
  unfold main_turn, record_point_and_stats. cbv zeta. cbn [live history_stack].
  now destruct (match_is_over_now _).
Qed.

Lemma undo_all_points_from pts :
  forall us t,
    length us = length pts ->
    snd (main_loop (played_turns pts) t) = false ->
    main_loop (played_turns pts ++ undo_turns us) t
    = (match pts with
       | [] => t
       | p :: _ => MkTracker (before_menu (fst p) (live t)) (history_stack t)
       end, false).
Proof.
  induction pts as [|[a ev] pts IH]; intros us t L R.
  - destruct us; [reflexivity|discriminate].
  - destruct us as [|u us _] using rev_ind; [discriminate|].
    rewrite length_app in L. cbn in L.
    unfold undo_turns. rewrite fmap_app. fold (undo_turns us). cbn [fmap list_fmap].
    change (played_turns ((a, ev) :: pts))
      with ((a, RecordPoint (Played ev)) :: played_turns pts) in *.
    cbn [app main_loop] in *. cbn [fst snd] in *.
    pose proof (played_turn_pushes a ev t) as P.
    destruct (main_turn a (RecordPoint (Played ev)) t) as [t1 done].
    cbn [fst] in P. destruct done; [discriminate|].
    rewrite app_assoc, main_loop_app.
    rewrite (IH us t1) by (assumption || lia). cbn [fst snd].
    assert (E : forall st, main_loop [(u, UndoLastPoint)]
                  (MkTracker st (history_stack t1))
                = (MkTracker (before_menu a (live t)) (history_stack t), false)).
    { intros st. cbn. unfold main_turn. cbn [live history_stack].
      rewrite P. unfold pop_history. now rewrite last_snoc, removelast_last. }
    destruct pts as [|p pts]; [|apply E].
    destruct t1 as [st1 h1]. apply E.
Qed.

(** X8.  After any number of points that leave the match undecided, as many
    "undo last point" as there were points bring back the state the main
    menu showed before the first of them, and the undo stack of that
    moment. *)
Theorem undo_all_points (a : Z) (ev : PointEvent) (pts : list (Z * PointEvent))
  (us : list Z) (t : Tracker) :
  let points := played_turns ((a, ev) :: pts) in
  snd (main_loop points t) = false ->
  length us = length points ->
  main_loop (points ++ undo_turns us) t
  = (MkTracker (before_menu a (live t)) (history_stack t), false).
Proof.
  cbv zeta. intros R L.
  unfold played_turns in L. rewrite length_fmap in L.
  exact (undo_all_points_from ((a, ev) :: pts) us t L R).
Qed.

(** An ace and a double fault in a fresh match, undone by two undos. *)
Lemma undo_all_points_witness :
  let t := main_init setup_full in
  let points :=
    played_turns [(1, OnServe AceFirst); (1, OnServe DoubleFault)] in
  snd (main_loop points t) = false
  /\ length [1; 1] = length points
  /\ main_loop (points ++ undo_turns [1; 1]) t
     = (MkTracker (before_menu 1 (live t)) (history_stack t), false).
Proof.
  cbv zeta. split; [reflexivity|]. split; [reflexivity|].
  exact (undo_all_points 1 (OnServe AceFirst) [(1, OnServe DoubleFault)]
           [1; 1] (main_init setup_full) eq_refl eq_refl).
Defined.

(** ** The undo stack and the log *)

Lemma log_before_menu tbsv st :
  log_entries (before_menu tbsv st) = log_entries st.
Proof.
  destruct (before_menu_keeps tbsv st) as [K _].
  unfold kept_by_scoring in K. now injection K.
Qed.

Lemma log_tiebreak_server st :
  log_entries (if in_set_tiebreak st || in_match_tiebreak10 st
               then compute_tiebreak_server st else st)
  = log_entries st.
Proof.
  destruct (_ || _); [|reflexivity].
  unfold compute_tiebreak_server. cbv zeta. now destruct ((_ =? 0) || _).
Qed.

Lemma history_follows_log_same st st' h :
  log_entries st' = log_entries st ->
  history_follows_log (MkTracker st h) -> history_follows_log (MkTracker st' h).
Proof. unfold history_follows_log. cbn. now intros ->. Qed.

Lemma history_follows_log_pop st h :
  history_follows_log (MkTracker st h) ->
  let '(_, st', h') := pop_history st h in
  history_follows_log (MkTracker st' h').
Proof.
  intros [L P]. cbn [live history_stack] in *. unfold pop_history.
  destruct h as [|top h _] using rev_ind; [now split|].
  rewrite last_snoc, removelast_last.
  rewrite length_app in L. cbn in L.
  assert (T : log_entries top = take (length h) (log_entries st)).
  { apply P. rewrite lookup_app_r by lia. now rewrite Nat.sub_diag. }
  split; cbn [live history_stack].
  - rewrite T, length_take. lia.
  - intros i s Hi.
    assert (i < length h)%nat by (eapply lookup_lt_Some; eassumption).
    rewrite T, take_take. replace (i `min` length h)%nat with i by lia.
    apply P. now rewrite lookup_app_l.
Qed.

Lemma history_follows_log_push st h e st' :
  history_follows_log (MkTracker st h) ->
  log_entries st' = log_entries st ++ [e] ->
  history_follows_log (MkTracker st' (push_history st h)).
Proof.
  intros [L P] E. cbn [live history_stack] in *. unfold push_history.
  split; cbn [live history_stack]; rewrite E.
  - rewrite !length_app. cbn. lia.
  - intros i s Hi.
    destruct (decide (i < length h)%nat) as [Hlt|Hge].
    + rewrite lookup_app_l in Hi by assumption.
      rewrite take_app_le by lia. now apply P.
    + rewrite lookup_app_r in Hi by lia.
      destruct (i - length h)%nat as [|j] eqn:Ej; cbn in Hi; [|discriminate].
      injection Hi as <-.
      replace i with (length (log_entries st)) by lia.
      now rewrite take_app_length.
Qed.

Lemma history_follows_log_turn tbsv m t :
  history_follows_log t ->
  history_follows_log (fst (main_turn tbsv m t)).
Proof.
  intros J. destruct t as [st h].
  pose proof (history_follows_log_same st (before_menu tbsv st) h
                (log_before_menu tbsv st) J) as J1.
  pose proof (history_follows_log_pop _ _ J1) as JP.
  unfold main_turn. cbv zeta. cbn [live history_stack].
  set (shown := before_menu tbsv st) in *.
  destruct m as [[| |ev]| | | |]; cbn [fst].
  - unfold record_point_and_stats. cbn [live history_stack].
    rewrite pop_push.
    destruct (pop_history shown h) as [[ok st'] h'].
    now destruct (match_is_over_now _).
  - unfold record_point_and_stats. cbn [live history_stack].
    rewrite pop_push. now destruct (match_is_over_now _).
  - unfold record_point_and_stats. cbn [live history_stack].
    match goal with
    | |- history_follows_log (fst (if ?c then _ else _)) => destruct c
    end; cbn [fst].
    all: destruct (play_point_logs_server
                     (if in_set_tiebreak shown || in_match_tiebreak10 shown
                      then compute_tiebreak_server shown else shown) ev)
      as (e & E & _).
    all: apply (history_follows_log_push shown h e); [exact J1|].
    all: now rewrite E, log_tiebreak_server.
  - exact J1.
  - now destruct (pop_history shown h) as [[ok st'] h'].
  - exact J1.
  - exact J1.
Qed.

Lemma history_follows_log_loop turns t :
  history_follows_log t -> history_follows_log (fst (main_loop turns t)).
Proof.
  revert t. induction turns as [|[a m] turns IH]; intros t J; [exact J|].
  cbn. pose proof (history_follows_log_turn a m t J) as J1.
  destruct (main_turn a m t) as [t' done]. cbn [fst] in J1.
  destruct done; [exact J1|]. now apply IH.
Qed.

(** X9.  Whatever is entered, the undo stack holds one snapshot for every
    entry of the point log, and the snapshot at position [i] has the first
    [i] entries as its log: each undo takes back exactly the last logged
    point. *)
Theorem snapshots_follow_log (c : Setup) (turns : list (Z * MainChoice)) :
  let t := fst (run c turns) in
  length (history_stack t) = length (log_entries (live t))
  /\ forall i s, history_stack t !! i = Some s ->
       log_entries s = take i (log_entries (live t)).
Proof.
  apply history_follows_log_loop. split; [reflexivity|].
  intros i s Hi. destruct i; discriminate.
Qed.

(** ** The question before the match tiebreak *)

(** X10.  The top of the loop asks who serves the match tiebreak first as
    long as no point of it has been played, and the last answer counts:
    passing the top of the loop twice leaves the state the second pass
    alone would. *)
Theorem tiebreak_question_last_answer (a b : Z) (st : MatchState) :
  before_menu b (before_menu a st) = before_menu b st.
Proof.
  destruct st. unfold before_menu, compute_tiebreak_server. cbn.
  repeat match goal with
         | |- context [if ?c then _ else _] =>
             lazymatch c with
             | context [if _ then _ else _] => fail
             | _ => destruct c eqn:?
             end; cbn
         end; try reflexivity; try discriminate; try congruence.
Qed.
(** ** Invariants of every state *)

(** The top of the loop and [compute_tiebreak_server] write the two server
    fields and nothing else. *)
Lemma compute_tiebreak_server_writes st :
  exists x, compute_tiebreak_server st = with_current_server x st.
Proof.
  unfold compute_tiebreak_server. cbv zeta.
  destruct ((_ =? 0) || _); eauto.
Qed.

Lemma before_menu_writes tbsv st :
  exists x y,
    before_menu tbsv st = with_current_server x (with_tb_start_server y st).
Proof.
  assert (E : forall s, with_tb_start_server (tb_start_server s) s = s)
    by (now intros []).
  unfold before_menu. cbv zeta.
  destruct (_ && (tb_points_p2 st =? 0)).
  - match goal with
    | |- context [compute_tiebreak_server ?s] =>
        destruct (compute_tiebreak_server_writes s) as [x ->]
    end.
    destruct (_ || _); eexists _, _; reflexivity.
  - destruct (compute_tiebreak_server_writes st) as [x ->].
    destruct (_ || _).
    + exists x, (tb_start_server st). now rewrite E.
    + exists (current_server st), (tb_start_server st).
      rewrite E. now destruct st.
Qed.

(** A property of states that the start of a match establishes and that
    the top of the loop and a completed point keep holds of every state
    [main] reaches, and of every snapshot on the undo stack. *)
Section RunInvariant.
Variable P : MatchState -> Prop.
Variable c : Setup.
Hypothesis P_init : P (live (main_init c)).
Hypothesis P_servers :
  forall x y st, P st -> P (with_current_server x (with_tb_start_server y st)).
Hypothesis P_point : forall st ev, good st -> P st -> P (play_point st ev).

Lemma P_before_menu tbsv st : P st -> P (before_menu tbsv st).
Proof.
  intros H. destruct (before_menu_writes tbsv st) as (x & y & ->).
  now apply P_servers.
Qed.

Lemma P_tiebreak_server st :
  P st ->
  P (if in_set_tiebreak st || in_match_tiebreak10 st
     then compute_tiebreak_server st else st).
Proof.
  intros H. destruct (_ || _); [|exact H].
  destruct (compute_tiebreak_server_writes st) as [x ->].
  replace (with_current_server x st)
    with (with_current_server x
            (with_tb_start_server (tb_start_server st) st))
    by (now destruct st).
  now apply P_servers.
Qed.

Lemma P_pop st h :
  P st -> Forall P h ->
  let '(_, st', h') := pop_history st h in P st' /\ Forall P h'.
Proof.
  intros G H. unfold pop_history.
  destruct h as [|top h _] using rev_ind; [now split|].
  rewrite last_snoc, removelast_last.
  apply Forall_app in H as [H1 H2]. split; [|assumption].
  now apply Forall_inv in H2.
Qed.

Lemma P_turn tbsv m t :
  tracker_ok t -> P (live t) -> Forall P (history_stack t) ->
  let t' := fst (main_turn tbsv m t) in
  P (live t') /\ Forall P (history_stack t').
Proof.
  intros [G _] H1 H2. cbv zeta.
  pose proof (good_before_menu tbsv _ G) as G1.
  pose proof (P_before_menu tbsv _ H1) as H3.
  pose proof (P_pop _ _ H3 H2) as HP.
  unfold main_turn. cbv zeta.
  set (shown := before_menu tbsv (live t)) in *.
  destruct m as [[| |ev]| | | |]; cbn [fst live history_stack].
  - unfold record_point_and_stats. cbn [live history_stack].
    rewrite pop_push.
    destruct (pop_history shown (history_stack t)) as [[ok st'] h'].
    now destruct (match_is_over_now _).
  - unfold record_point_and_stats. cbn [live history_stack].
    rewrite pop_push. now destruct (match_is_over_now _).
  - unfold record_point_and_stats. cbn [live history_stack].
    match goal with
    | |- P (live (fst (if ?c then _ else _))) /\ _ => destruct c
    end; cbn [fst live history_stack].
    all: split;
      [ apply P_point; [now apply good_tiebreak_server
                       | now apply P_tiebreak_server]
      | unfold push_history; apply Forall_app; split;
        [assumption | constructor; [assumption|constructor]] ].
  - now split.
  - now destruct (pop_history shown (history_stack t)) as [[ok st'] h'].
  - now split.
  - now split.
Qed.

Lemma P_loop turns t :
  tracker_ok t -> P (live t) -> Forall P (history_stack t) ->
  let t' := fst (main_loop turns t) in
  P (live t') /\ Forall P (history_stack t').
Proof.
  revert t. induction turns as [|[a m] turns IH]; intros t T H1 H2; cbn.
  - now split.
  - pose proof (P_turn a m t T H1 H2) as H. cbv zeta in H.
    pose proof (main_turn_ok a m t T) as O.
    destruct (main_turn a m t) as [t' done]. cbn [fst] in H.
    destruct done; [exact H|].
    destruct H as [H3 H4]. apply IH; auto. now apply O.
Qed.

Lemma run_invariant turns :
  P (live (fst (run c turns)))
  /\ Forall P (history_stack (fst (run c turns))).
Proof.
  apply P_loop; [apply main_init_ok|apply P_init|constructor].
Qed.
End RunInvariant.

(** ** Modes and vectors *)

Ltac steady_tac :=
  unfold steady, one_mode, vectors_in_step in *;
  cbn -[Z.of_nat] in *;
  rewrite ?length_app, ?length_alter in *; cbn [length] in *;
  repeat match goal with
         | H : _ /\ _ |- _ => destruct H
         end;
  repeat split;
  try solve [ lia | assumption | reflexivity | congruence
            | match goal with
              | H : ?a = false |- ?a && _ = false => now rewrite H
              | H : ?b = false |- _ && ?b = false =>
                  rewrite H; apply andb_false_r
              end
            | apply andb_false_r ].

Lemma steady_frame a b : frame_of a = frame_of b -> steady b -> steady a.
Proof.
  intros E S. apply frame_fields in E.
  destruct E as (_ & _ & Es & El1 & El2 & Ei & _ & _ & Est & Emt & _).
  unfold steady, one_mode, vectors_in_step in *.
  now rewrite Es, El1, El2, Ei, Est, Emt.
Qed.

Lemma steady_close_set st w :
  steady st -> in_set_tiebreak st = false ->
  steady (close_set_and_prepare_next st w).
Proof.
  intros S HS.
  unfold close_set_and_prepare_next, start_new_set, alter_current_set.
  cbv zeta.
  destruct (w =? 0);
    repeat match goal with
           | |- context [if ?c then _ else _] => destruct c
           end; steady_tac.
Qed.

Lemma steady_give_point_regular st w :
  steady st -> steady (give_point_regular st w).
Proof.
  intros S. rewrite give_point_regular_eq. cbv zeta.
  set (st1 := if w =? 0 then _ else _).
  assert (S1 : steady st1) by (subst st1; destruct (w =? 0); steady_tac).
  clearbody st1.
  destruct (_ || _); [|exact S1]. destruct (_ >=? 2); [|exact S1].
  set (gw := if _ >? _ then 0 else 1).
  assert (S2 : steady (award_game st1 gw)).
  { unfold award_game, alter_current_set. destruct (gw =? 0); steady_tac. }
  set (st2 := award_game st1 gw) in *. clearbody st2.
  unfold after_award_game. cbv zeta.
  destruct (negb (in_match_tiebreak10 st2)) eqn:M; cbn [andb].
  - destruct (check_enter_set_tiebreak st2).
    + cbn [in_set_tiebreak with_tb_start_server with_tb_points_p2
           with_tb_points_p1 alter_current_set with_sets
           with_in_set_tiebreak negb].
      apply negb_true_iff in M. unfold alter_current_set. steady_tac.
    + destruct (negb (in_set_tiebreak st2)) eqn:T; [|exact S2].
      apply negb_true_iff in T.
      destruct (set_is_won_now st2); [|exact S2].
      now apply steady_close_set.
  - destruct (negb (in_set_tiebreak st2)) eqn:T; [|exact S2].
    apply negb_true_iff in T.
    destruct (set_is_won_now st2); [|exact S2].
    now apply steady_close_set.
Qed.

Lemma steady_give_point_tiebreak st w b :
  steady st -> steady (give_point_tiebreak st w b).
Proof.
  intros S. unfold give_point_tiebreak. cbv zeta.
  set (st1 := if w =? 0 then _ else _).
  assert (S1 : steady st1) by (subst st1; destruct (w =? 0); steady_tac).
  clearbody st1.
  destruct b.
  - destruct (set_is_won_now st1); [|exact S1].
    apply steady_close_set; [|reflexivity].
    unfold alter_current_set. steady_tac.
  - destruct (match_tiebreak10_won st1) as [mw|]; [|exact S1].
    destruct (mw =? 0); steady_tac.
Qed.

Lemma steady_log_and_give_point st entry w :
  steady st -> steady (log_and_give_point st entry w).
Proof.
  intros S. unfold log_and_give_point. cbv zeta.
  set (st1 := with_log_entries _ st).
  assert (S1 : steady st1) by exact S.
  destruct (in_set_tiebreak st1); [|destruct (in_match_tiebreak10 st1)];
    auto using steady_give_point_tiebreak, steady_give_point_regular.
Qed.

Lemma steady_play_point st ev : steady st -> steady (play_point st ev).
Proof.
  intros S. play_cases st ev.
  all: apply steady_log_and_give_point.
  all: apply (steady_frame _ st); [frame_simpl; reflexivity|exact S].
Qed.

Lemma steady_run c turns : steady (live (fst (run c turns))).
Proof.
  apply (run_invariant steady).
  - unfold main_init. steady_tac.
  - intros x y st S. exact S.
  - intros st ev _. apply steady_play_point.
Qed.

(** X11.  In every state [main] reaches, decided or not, the current set
    index is an index of [sets] and both per-set vectors have exactly one
    object for each record of [sets]: the accesses [sets[current_set_index]]
    and [per_set_stats_p1[i]], [per_set_stats_p2[i]] for [i] below
    [sets.size()] of the scoring, printing and export code are in range,
    and so is the index [show_by_set] uses when it does not return
    early. *)
Theorem vector_accesses_in_range (c : Setup) (turns : list (Z * MainChoice)) :
  let st := live (fst (run c turns)) in
  0 <= current_set_index st < Z.of_nat (length (sets st))
  /\ length (per_set_stats_p1 st) = length (sets st)
  /\ length (per_set_stats_p2 st) = length (sets st)
  /\ forall s idx,
       show_by_set_index st s = Some idx ->
       0 <= idx < Z.of_nat (length (per_set_stats_p1 st))
       /\ 0 <= idx < Z.of_nat (length (per_set_stats_p2 st)).
Proof.
  cbv zeta. destruct (steady_run c turns) as (_ & I & L1 & L2).
  repeat (split; [assumption|]).
  intros s idx. unfold show_by_set_index. rewrite L1, L2.
  destruct (Z.ltb_spec s 1); [discriminate|].
  destruct (Z.gtb_spec s (Z.of_nat (length (sets (live (fst (run c turns)))))));
    [discriminate|].
  cbn. intros E. injection E as <-. lia.
Qed.

(** X12.  In no state [main] reaches are the set tiebreak and the match
    tiebreak both on. *)
Theorem never_both_tiebreaks (c : Setup) (turns : list (Z * MainChoice)) :
  let st := live (fst (run c turns)) in
  in_set_tiebreak st && in_match_tiebreak10 st = false.
Proof. exact (proj1 (steady_run c turns)). Qed.

(** ** The serve type of the point being entered *)

Lemma cps_update_ref r f st :
  current_point_serve (update_ref r f st) = current_point_serve st.
Proof. now destruct r. Qed.

Lemma cps_bump who f st :
  current_point_serve (bump who f st) = current_point_serve st.
Proof. unfold bump. now rewrite !cps_update_ref. Qed.

Lemma cps_add_serve_attempt st server t b :
  current_point_serve (add_serve_attempt st server t b)
  = current_point_serve st.
Proof. unfold add_serve_attempt. destruct t, b; now rewrite ?cps_bump. Qed.

Lemma cps_add_return_outcome st returner kind :
  current_point_serve (add_return_outcome st returner kind)
  = current_point_serve st.
Proof.
  unfold add_return_outcome.
  repeat destruct (String.eqb _ _); now rewrite ?cps_bump.
Qed.

Lemma cps_add_rally_outcome st player kind :
  current_point_serve (add_rally_outcome st player kind)
  = current_point_serve st.
Proof.
  unfold add_rally_outcome.
  repeat destruct (String.eqb _ _); now rewrite ?cps_bump.
Qed.

Lemma cps_add_return_points_won st returner t :
  current_point_serve (add_return_points_won st returner t)
  = current_point_serve st.
Proof. unfold add_return_points_won. destruct t; now rewrite ?cps_bump. Qed.

Lemma cps_add_server_point_won st server t :
  current_point_serve (add_server_point_won st server t)
  = current_point_serve st.
Proof. unfold add_server_point_won. destruct t; now rewrite ?cps_bump. Qed.

Lemma cps_maybe_count_break_point st was_bp returner_won :
  current_point_serve (maybe_count_break_point st was_bp returner_won)
  = current_point_serve st.
Proof.
  unfold maybe_count_break_point.
  destruct was_bp, returner_won; cbn; now rewrite ?cps_bump.
Qed.

Lemma cps_add_stats_net who won st :
  current_point_serve (add_stats_net who won st) = current_point_serve st.
Proof. unfold add_stats_net. destruct won; now rewrite ?cps_update_ref. Qed.

Lemma cps_add_stats_point_ownership winner loser st :
  current_point_serve (add_stats_point_ownership winner loser st)
  = current_point_serve st.
Proof. unfold add_stats_point_ownership. now rewrite !cps_update_ref. Qed.

Create Rewrite HintDb cps.
#[local] Hint Rewrite
  cps_maybe_count_break_point cps_add_stats_net
  cps_add_stats_point_ownership cps_add_serve_attempt
  cps_add_return_outcome cps_add_rally_outcome
  cps_add_return_points_won cps_add_server_point_won : cps.

(** ** What a completed point logs *)

(** A completed point is a chain [S] of statistics updates followed by the
    push of one entry and the award of the point to the player the entry
    names as winner, who is the server or the receiver.  The entry names
    the server and the set of the state, has none of its four flags set
    and a first or second serve; the chain has counted one point won for
    the winner and one point played for both. *)
Lemma play_point_shape st ev :
  exists S e w,
    play_point st ev = log_and_give_point S e w
    /\ frame_of S = frame_of st
    /\ point_winner e = w
    /\ (w = current_server st \/ w = opponent (current_server st))
    /\ server_player e = current_server st
    /\ set_index e = current_set_index st
    /\ flags_clear e
    /\ (serve_type e = SERVE_FIRST \/ serve_type e = SERVE_SECOND)
    /\ fst (obs totals S)
       = (if w =? 0 then point_to_p1 else point_to_p2) (fst (obs totals st)).
Proof.
  unfold opponent.
  play_cases st ev.
  all: match goal with
       | |- context [log_and_give_point ?S ?e ?w] => exists S, e, w
       end.
  all: split; [reflexivity|].
  all: split; [frame_simpl; reflexivity|].
  all: split; [reflexivity|].
  all: split; [auto|].
  all: split; [reflexivity|].
  all: split; [reflexivity|].
  all: split; [repeat split|].
  all: split; [cbn [serve_type with_point_winner with_serve_type];
               autorewrite with cps; cbn; auto|].
  all: match goal with
       | H : (current_server _ =? 0) = _ |- _ => rewrite ?H
       end; cbn [Z.eqb].
  all: obs_simpl;
    first [ rewrite ownership_totals_p1; obs_simpl; reflexivity
          | rewrite ownership_totals_p2; obs_simpl; reflexivity ].
Qed.

(** The entry, the log and the match-level totals after a completed
    point. *)
Lemma play_point_logged st ev :
  exists e,
    log_entries (play_point st ev) = log_entries st ++ [e]
    /\ (point_winner e = current_server st
        \/ point_winner e = opponent (current_server st))
    /\ server_player e = current_server st
    /\ set_index e = current_set_index st
    /\ flags_clear e
    /\ (serve_type e = SERVE_FIRST \/ serve_type e = SERVE_SECOND)
    /\ fst (obs totals (play_point st ev))
       = (if point_winner e =? 0 then point_to_p1 else point_to_p2)
           (fst (obs totals st)).
Proof.
  destruct (play_point_shape st ev)
    as (S & e & w & -> & F & Ew & Hw & Es & Ei & Ef & Et & Eo).
  destruct (give_point_keeps S e w) as (E1 & E2 & E3).
  exists e. rewrite Ew.
  split; [now rewrite E3, (log_entries_frame _ _ F)|].
  repeat (split; [assumption|]).
  rewrite <- Eo. unfold obs. cbn [fst]. now rewrite E1, E2.
Qed.

Lemma wf_players st :
  wf st ->
  (current_server st = 0 \/ current_server st = 1)
  /\ (opponent (current_server st) = 0 \/ opponent (current_server st) = 1).
Proof.
  intros W. split; [exact (proj1 (wf_server st W))|].
  unfold opponent. destruct (_ =? 0); auto.
Qed.

(** X13.  No entry of the point log ever has one of its four flags set:
    the flags computed before the point are never stored in the entry
    that is pushed, so the break, game, set and match point columns of
    every listing and export are empty. *)
Theorem log_flags_never_set (c : Setup) (turns : list (Z * MainChoice)) :
  Forall
    (fun e =>
       was_break_point e = false /\ was_game_point e = false
       /\ was_set_point e = false /\ was_match_point e = false)
    (log_entries (live (fst (run c turns)))).
Proof.
  apply (run_invariant (fun st => Forall flags_clear (log_entries st))).
  - constructor.
  - intros x y st H. exact H.
  - intros st ev _ H.
    destruct (play_point_logged st ev) as (e & -> & _ & _ & _ & Ef & _).
    apply Forall_app. split; [exact H|]. now constructor.
Qed.

(** X14.  Every entry of the point log names player 0 or 1 as the server,
    player 0 or 1 as the winner, and a first or a second serve. *)
Theorem log_entries_name_players (c : Setup) (turns : list (Z * MainChoice)) :
  Forall
    (fun e =>
       (server_player e = 0 \/ server_player e = 1)
       /\ (point_winner e = 0 \/ point_winner e = 1)
       /\ (serve_type e = SERVE_FIRST \/ serve_type e = SERVE_SECOND))
    (log_entries (live (fst (run c turns)))).
Proof.
  apply (run_invariant (fun st => Forall names_players (log_entries st))).
  - constructor.
  - intros x y st H. exact H.
  - intros st ev (W & _) H.
    destruct (play_point_logged st ev) as (e & -> & Hw & Es & _ & _ & Et & _).
    destruct (wf_players st W) as [P1 P2].
    apply Forall_app. split; [exact H|]. constructor; [|constructor].
    split; [now rewrite Es|]. split; [|exact Et].
    destruct Hw as [-> | ->]; assumption.
Qed.

Lemma points_logged_for_snoc p log e :
  points_logged_for p (log ++ [e])
  = points_logged_for p log + (if point_winner e =? p then 1 else 0).
Proof.
  unfold points_logged_for. rewrite List.filter_app, length_app. cbn.
  destruct (point_winner e =? p); cbn; lia.
Qed.

(** X15.  The points won in the match-level statistics of a player are the
    entries of the point log that name that player as the winner. *)
Theorem points_won_are_logged (c : Setup) (turns : list (Z * MainChoice)) :
  let st := live (fst (run c turns)) in
  points_won (match_stats_p1 st) = points_logged_for 0 (log_entries st)
  /\ points_won (match_stats_p2 st) = points_logged_for 1 (log_entries st).
Proof.
  apply (run_invariant
           (fun st =>
              points_won (match_stats_p1 st)
              = points_logged_for 0 (log_entries st)
              /\ points_won (match_stats_p2 st)
                 = points_logged_for 1 (log_entries st))).
  - split; reflexivity.
  - intros x y st H. exact H.
  - intros st ev (W & _) [H1 H2].
    destruct (play_point_logged st ev) as (e & -> & Hw & _ & _ & _ & _ & Eo).
    destruct (wf_players st W) as [P1 P2].
    rewrite !points_logged_for_snoc.
    assert (Pw : point_winner e = 0 \/ point_winner e = 1)
      by (destruct Hw as [-> | ->]; assumption).
    unfold obs, totals, point_to_p1, point_to_p2 in Eo. cbn [fst snd] in Eo.
    destruct Pw as [Pw|Pw]; rewrite Pw in *;
      change (0 =? 0) with true in *; change (1 =? 1) with true in *;
      change (1 =? 0) with false in *; change (0 =? 1) with false in *;
      injection Eo; intros; cbv iota; split; lia.
Qed.

(** ** Game, set and match points *)

(** A game point for the player who wins the next point: the test of
    [give_point_regular] succeeds and the game goes to that player. *)
Lemma game_point_converts a b :
  is_game_point_for a b = true ->
  ((a + 1 >=? 4) || (b >=? 4)) && (Z.abs (a + 1 - b) >=? 2) = true
  /\ ((b >=? 4) || (a + 1 >=? 4)) && (Z.abs (b - (a + 1)) >=? 2) = true
  /\ (a + 1 >? b) = true /\ (b >? a + 1) = false.
Proof.
  unfold is_game_point_for.
  destruct (Z.leb_spec a 2); [discriminate|].
  destruct (Z.eqb_spec a 3), (Z.leb_spec b 2), (Z.geb_spec a 3),
    (Z.geb_spec b 3), (Z.eqb_spec a (b + 1)); cbn; try discriminate;
    try lia; intros _.
  all: destruct (Z.geb_spec (a + 1) 4), (Z.geb_spec b 4),
    (Z.geb_spec (Z.abs (a + 1 - b)) 2), (Z.geb_spec (Z.abs (b - (a + 1))) 2),
    (Z.gtb_spec (a + 1) b), (Z.gtb_spec b (a + 1)); cbn; try lia; auto.
Qed.

(** What [close_set_and_prepare_next] does to the set it closes and to the
    sets won. *)
Lemma close_set_effect st w :
  (Z.to_nat (current_set_index st) < length (sets st))%nat ->
  let st' := close_set_and_prepare_next st w in
  let closed := sets st' !!! Z.to_nat (current_set_index st) in
  closed = with_set_finished true (current_set st)
  /\ sets_won_of w st' = sets_won_of w st + 1
  /\ sets_won_of (opponent w) st' = sets_won_of (opponent w) st
  /\ sets_to_win st' = sets_to_win st.
Proof.
  intros Hk. cbv zeta.
  unfold close_set_and_prepare_next, start_new_set, alter_current_set,
    sets_won_of, opponent, current_set.
  cbv zeta.
  destruct (w =? 0);
    change (1 =? 0) with false; change (0 =? 0) with true; cbv iota;
    repeat match goal with
           | |- context [if ?c then _ else _] =>
               lazymatch c with
               | context [if _ then _ else _] => fail
               | _ => destruct c
               end
           end; cbn;
    rewrite ?lookup_total_app_l by (now rewrite length_alter);
    rewrite list_lookup_total_alter_eq by exact Hk; auto.
Qed.

Lemma award_game_current_set st p :
  (Z.to_nat (current_set_index st) < length (sets st))%nat ->
  current_set (award_game st p)
  = (if p =? 0
     then with_games_player1 (games_player1 (current_set st) + 1)
            (current_set st)
     else with_games_player2 (games_player2 (current_set st) + 1)
            (current_set st))
  /\ in_set_tiebreak (award_game st p) = in_set_tiebreak st
  /\ in_match_tiebreak10 (award_game st p) = in_match_tiebreak10 st
  /\ format (award_game st p) = format st.
Proof.
  intros Hk. unfold award_game, alter_current_set, current_set.
  destruct (p =? 0); cbn;
    rewrite list_lookup_total_alter_eq by exact Hk; auto.
Qed.

(** After [award_game], when no tiebreak starts and the set is won. *)
Lemma after_award_game_closes st w :
  check_enter_set_tiebreak st = false -> in_set_tiebreak st = false ->
  set_is_won_now st = Some w ->
  after_award_game st = close_set_and_prepare_next st w.
Proof.
  intros C HS Won. unfold after_award_game. cbv zeta.
  rewrite C, andb_false_r, HS. cbn [negb]. now rewrite Won.
Qed.

Lemma set_point_closes st p :
  (Z.to_nat (current_set_index st) < length (sets st))%nat ->
  is_set_point_if_player_wins st p = true ->
  let q := if p =? 0 then 0 else 1 in
  let st1 := if p =? 0 then with_game_points_p1 (game_points_p1 st + 1) st
             else with_game_points_p2 (game_points_p2 st + 1) st in
  give_point_regular st p = close_set_and_prepare_next (award_game st1 q) q.
Proof.
  intros Hk H. cbv zeta.
  unfold is_set_point_if_player_wins in H. cbv zeta in H.
  destruct (in_set_tiebreak st) eqn:HS; [discriminate|].
  destruct (in_match_tiebreak10 st) eqn:HM; [discriminate|].
  cbn [orb] in H.
  destruct (is_game_point_for _ _) eqn:GP in H; [|discriminate].
  cbn [negb] in H.
  destruct (_ && _) eqn:C in H; [|discriminate]. clear H.
  apply andb_prop in C as [C1 C2].
  pose proof (proj1 (Z.geb_le _ _) C1) as L1.
  pose proof (proj1 (Z.geb_le _ _) C2) as L2.
  rewrite give_point_regular_eq. cbv zeta.
  destruct (game_point_converts _ _ GP) as (T1 & T2 & T3 & T4).
  set (st1 := if p =? 0 then _ else _).
  assert (E : current_set st1 = current_set st
              /\ in_set_tiebreak st1 = false
              /\ in_match_tiebreak10 st1 = false
              /\ format st1 = format st
              /\ (Z.to_nat (current_set_index st1) < length (sets st1))%nat
              /\ ((game_points_p1 st1 >=? 4) || (game_points_p2 st1 >=? 4))
                 && (Z.abs (game_points_p1 st1 - game_points_p2 st1) >=? 2)
                 = true
              /\ (if game_points_p1 st1 >? game_points_p2 st1 then 0 else 1)
                 = (if p =? 0 then 0 else 1)).
  { subst st1. destruct (p =? 0); cbn -[Z.abs];
      rewrite ?T3, ?T4; repeat split; auto. }
  destruct E as (Ec & Es & Em & Ef & Hk1 & Test & Gw).
  apply andb_prop in Test as [-> ->]. rewrite Gw.
  destruct (award_game_current_set st1 (if p =? 0 then 0 else 1) Hk1)
    as (Ac & As & Am & Af).
  rewrite Ec in Ac. rewrite Es in As.
  apply after_award_game_closes; [| exact As |].
  - unfold check_enter_set_tiebreak. rewrite Ac, Af, Ef.
    destruct (p =? 0); cbn;
      apply andb_false_iff;
      match goal with
      | |- (?a =? ?t) = false \/ (?b =? ?t) = false =>
          destruct (Z.eqb_spec a t), (Z.eqb_spec b t); auto; lia
      end.
  - unfold set_is_won_now. rewrite As, Ac, Af, Ef. cbv zeta.
    destruct (p =? 0); cbn -[Z.abs];
      rewrite C1, ?orb_true_r; cbn -[Z.abs];
      match goal with
      | |- context [Z.abs ?x >=? 2] =>
          destruct (Z.geb_spec (Z.abs x) 2); [|lia]
      end;
      match goal with
      | |- context [?a >? ?b] =>
          destruct (Z.gtb_spec a b); try lia; reflexivity
      end.
Qed.

Lemma set_point_effect st p :
  0 <= current_set_index st < Z.of_nat (length (sets st)) ->
  is_set_point_if_player_wins st p = true ->
  let st' := give_point_regular st p in
  let played := sets st' !!! Z.to_nat (current_set_index st) in
  set_finished played = true
  /\ games_of p played = games_of p (current_set st) + 1
  /\ games_of (opponent p) played = games_of (opponent p) (current_set st)
  /\ sets_won_of p st' = sets_won_of p st + 1
  /\ sets_won_of (opponent p) st' = sets_won_of (opponent p) st
  /\ sets_to_win st' = sets_to_win st.
Proof.
  intros Hi H. cbv zeta.
  assert (Hk : (Z.to_nat (current_set_index st) < length (sets st))%nat)
    by lia.
  rewrite (set_point_closes st p Hk H).
  set (q := if p =? 0 then 0 else 1).
  set (st1 := if p =? 0 then _ else _).
  assert (E : current_set st1 = current_set st
              /\ sets st1 = sets st
              /\ current_set_index st1 = current_set_index st
              /\ sets_won_p1 st1 = sets_won_p1 st
              /\ sets_won_p2 st1 = sets_won_p2 st
              /\ sets_to_win st1 = sets_to_win st)
    by (subst st1; destruct (p =? 0); repeat split; reflexivity).
  destruct E as (Ec & Es & Ei & E1 & E2 & Et).
  assert (Hk1 : (Z.to_nat (current_set_index st1) < length (sets st1))%nat)
    by (now rewrite Ei, Es).
  destruct (award_game_current_set st1 q Hk1) as (Ac & _).
  rewrite Ec in Ac.
  assert (A : current_set_index (award_game st1 q) = current_set_index st
              /\ length (sets (award_game st1 q)) = length (sets st)
              /\ sets_won_p1 (award_game st1 q) = sets_won_p1 st
              /\ sets_won_p2 (award_game st1 q) = sets_won_p2 st
              /\ sets_to_win (award_game st1 q) = sets_to_win st).
  { rewrite <- Ei, <- Es, <- E1, <- E2, <- Et.
    unfold award_game, alter_current_set.
    destruct (q =? 0); cbn; rewrite length_alter; auto. }
  destruct A as (Ai & Al & A1 & A2 & At).
  set (st2 := award_game st1 q) in *.
  assert (Hk2 : (Z.to_nat (current_set_index st2) < length (sets st2))%nat)
    by (now rewrite Ai, Al).
  destruct (close_set_effect st2 q Hk2) as (Cc & Cw & Co & Ct).
  cbv zeta in Cc. rewrite Ai in Cc. rewrite Cc, Ac, Ct, At.
  unfold sets_won_of, opponent in *. rewrite A1, A2 in *.
  unfold games_of, opponent. subst q.
  destruct (p =? 0);
    repeat (progress (change (1 =? 0) with false in *;
                      change (0 =? 0) with true in *; cbv iota in * ));
    cbn; repeat split; auto.
Qed.

(** X16.  A set point is one: when [is_set_point_if_player_wins] holds for
    a player and that player wins the next point of the regular game, the
    game and with it the set are that player's.  The record of the set is
    marked finished with one more game for the player, whose sets won go
    up by one. *)
Theorem set_point_wins_set (st : MatchState) (p : Z) :
  0 <= current_set_index st < Z.of_nat (length (sets st)) ->
  is_set_point_if_player_wins st p = true ->
  let st' := give_point_regular st p in
  let played := sets st' !!! Z.to_nat (current_set_index st) in
  set_finished played = true
  /\ games_of p played = games_of p (current_set st) + 1
  /\ games_of (opponent p) played = games_of (opponent p) (current_set st)
  /\ sets_won_of p st' = sets_won_of p st + 1
  /\ sets_won_of (opponent p) st' = sets_won_of (opponent p) st.
Proof.
  intros Hi H. cbv zeta.
  destruct (set_point_effect st p Hi H) as (F & G1 & G2 & W1 & W2 & _).
  auto.
Qed.

Lemma at_set_point_facts :
  0 <= current_set_index at_set_point
       < Z.of_nat (length (sets at_set_point))
  /\ is_set_point_if_player_wins at_set_point 0 = true
  /\ is_break_point_if_receiver_wins at_set_point = true
  /\ is_match_point_if_player_wins at_set_point 0 = false.
Proof. vm_compute. repeat split; discriminate. Qed.

Lemma at_match_point_facts :
  0 <= current_set_index at_match_point
       < Z.of_nat (length (sets at_match_point))
  /\ is_match_point_if_player_wins at_match_point 0 = true.
Proof. vm_compute. repeat split; discriminate. Qed.

(** Player 1 at 5-0 and 40-0 on the serve of player 2. *)
Lemma set_point_wins_set_witness :
  let st := at_set_point in
  0 <= current_set_index st < Z.of_nat (length (sets st))
  /\ is_set_point_if_player_wins st 0 = true
  /\ (let st' := give_point_regular st 0 in
      let played := sets st' !!! Z.to_nat (current_set_index st) in
      set_finished played = true
      /\ games_of 0 played = games_of 0 (current_set st) + 1
      /\ games_of (opponent 0) played = games_of (opponent 0) (current_set st)
      /\ sets_won_of 0 st' = sets_won_of 0 st + 1
      /\ sets_won_of (opponent 0) st' = sets_won_of (opponent 0) st).
Proof.
  cbv zeta.
  split; [exact (proj1 at_set_point_facts)|].
  split; [exact (proj1 (proj2 at_set_point_facts))|].
  exact (set_point_wins_set at_set_point 0 (proj1 at_set_point_facts)
           (proj1 (proj2 at_set_point_facts))).
Defined.

(** X17.  A match point is one: when [is_match_point_if_player_wins] holds
    for a player and that player wins the next point of the regular game,
    the player has the sets needed and the match is over. *)
Theorem match_point_wins_match (st : MatchState) (p : Z) :
  0 <= current_set_index st < Z.of_nat (length (sets st)) ->
  is_match_point_if_player_wins st p = true ->
  let st' := give_point_regular st p in
  sets_won_of p st' = sets_to_win st' /\ match_is_over_now st' = true.
Proof.
  intros Hi H. cbv zeta.
  unfold is_match_point_if_player_wins in H.
  destruct (_ || _); [discriminate|].
  destruct (is_set_point_if_player_wins st p) eqn:SP; [|discriminate].
  cbn [negb] in H. cbv zeta in H. apply Z.eqb_eq in H.
  destruct (set_point_effect st p Hi SP) as (_ & _ & _ & W1 & _ & T).
  cbv zeta in W1, T.
  assert (E : sets_won_of p (give_point_regular st p)
              = sets_to_win (give_point_regular st p)).
  { rewrite W1, T. unfold sets_won_of. destruct (p =? 0); lia. }
  split; [exact E|].
  unfold match_is_over_now. unfold sets_won_of in E.
  destruct (p =? 0); rewrite E, Z.eqb_refl; [reflexivity|apply orb_true_r].
Qed.

(** Player 1 a set up, at 5-0 and 40-0 on the serve of player 2. *)
Lemma match_point_wins_match_witness :
  let st := at_match_point in
  0 <= current_set_index st < Z.of_nat (length (sets st))
  /\ is_match_point_if_player_wins st 0 = true
  /\ (let st' := give_point_regular st 0 in
      sets_won_of 0 st' = sets_to_win st' /\ match_is_over_now st' = true).
Proof.
  cbv zeta.
  split; [exact (proj1 at_match_point_facts)|].
  split; [exact (proj2 at_match_point_facts)|].
  exact (match_point_wins_match at_match_point 0 (proj1 at_match_point_facts)
           (proj2 at_match_point_facts)).
Defined.

(** X18.  A break point is one: when [is_break_point_if_receiver_wins]
    holds and the receiver wins the next point of the regular game, the
    game goes to the receiver, who serves the next one. *)
Theorem break_point_breaks (st : MatchState) :
  0 <= current_set_index st < Z.of_nat (length (sets st)) ->
  is_break_point_if_receiver_wins st = true ->
  let receiver := opponent (current_server st) in
  let st' := give_point_regular st receiver in
  let played := sets st' !!! Z.to_nat (current_set_index st) in
  games_of receiver played = games_of receiver (current_set st) + 1
  /\ games_of (opponent receiver) played
     = games_of (opponent receiver) (current_set st)
  /\ current_server st' = receiver
  /\ game_points_p1 st' = 0 /\ game_points_p2 st' = 0.
Proof.
  intros Hi H. cbv zeta.
  assert (Hk : (Z.to_nat (current_set_index st) < length (sets st))%nat)
    by lia.
  unfold is_break_point_if_receiver_wins in H. cbv zeta in H.
  fold (opponent (current_server st)) in H.
  set (r := opponent (current_server st)) in *.
  destruct (game_point_converts _ _ H) as (T1 & T2 & T3 & T4).
  rewrite give_point_regular_eq. cbv zeta.
  set (st1 := if r =? 0 then _ else _).
  assert (E : sets st1 = sets st
              /\ current_set_index st1 = current_set_index st
              /\ current_server st1 = current_server st
              /\ ((game_points_p1 st1 >=? 4) || (game_points_p2 st1 >=? 4))
                 && (Z.abs (game_points_p1 st1 - game_points_p2 st1) >=? 2)
                 = true
              /\ (if game_points_p1 st1 >? game_points_p2 st1 then 0 else 1)
                 = (if r =? 0 then 0 else 1)).
  { subst st1. destruct (r =? 0); cbn -[Z.abs];
      rewrite ?T3, ?T4; repeat split; auto. }
  destruct E as (Es & Ei & Ec & Test & Gw).
  apply andb_prop in Test as [-> ->]. rewrite Gw.
  pose proof (game_awarded st st1 (if r =? 0 then 0 else 1) Es Ei Ec Hk) as A.
  cbv zeta in A.
  replace (games_of (if r =? 0 then 0 else 1)) with (games_of r) in A
    by (unfold games_of; now destruct (r =? 0)).
  replace (opponent (if r =? 0 then 0 else 1)) with (opponent r) in A
    by (unfold opponent; now destruct (r =? 0)).
  exact A.
Qed.

Lemma break_point_breaks_witness :
  let st := at_set_point in
  0 <= current_set_index st < Z.of_nat (length (sets st))
  /\ is_break_point_if_receiver_wins st = true
  /\ (let receiver := opponent (current_server st) in
      let st' := give_point_regular st receiver in
      let played := sets st' !!! Z.to_nat (current_set_index st) in
      games_of receiver played = games_of receiver (current_set st) + 1
      /\ games_of (opponent receiver) played
         = games_of (opponent receiver) (current_set st)
      /\ current_server st' = receiver
      /\ game_points_p1 st' = 0 /\ game_points_p2 st' = 0).
Proof.
  cbv zeta.
  split; [exact (proj1 at_set_point_facts)|].
  split; [exact (proj1 (proj2 (proj2 at_set_point_facts)))|].
  exact (break_point_breaks at_set_point (proj1 at_set_point_facts)
           (proj1 (proj2 (proj2 at_set_point_facts)))).
Defined.

(** X19.  The four flags computed before a point are nested: a match point
    is a set point, a set point is a game point, and a break point is a
    game point; during a tiebreak none of them is raised. *)
Theorem point_flags_nested (st : MatchState) :
  let '(bp, gp, sp, mp) := point_flags st in
  (mp = true -> sp = true) /\ (sp = true -> gp = true)
  /\ (bp = true -> gp = true)
  /\ (in_set_tiebreak st || in_match_tiebreak10 st = true ->
      (bp, gp, sp, mp) = (false, false, false, false)).
Proof.
  unfold point_flags, is_match_point_if_player_wins,
    is_set_point_if_player_wins, is_break_point_if_receiver_wins.
  cbv zeta.
  destruct (in_set_tiebreak st), (in_match_tiebreak10 st); cbn;
    try (repeat split; auto; discriminate).
  destruct (current_server st =? 0);
    change (1 =? 0) with false; change (0 =? 0) with true;
    change (1 =? 1) with true; change (0 =? 1) with false; cbv iota;
    destruct (is_game_point_for (game_points_p1 st) (game_points_p2 st)),
      (is_game_point_for (game_points_p2 st) (game_points_p1 st)); cbn;
    repeat match goal with
           | |- context [if ?c then _ else _] =>
               lazymatch c with
               | context [if _ then _ else _] => fail
               | _ => destruct c; cbn
               end
           end;
    repeat split; auto; try discriminate;
    repeat match goal with
           | |- context [?a =? ?b] => destruct (a =? b); cbn
           end; auto; discriminate.
Qed.

(** ** The statistics updates of a point, collected *)

Lemma on_stats_id st : on_stats id id id id st = st.
Proof.
  unfold on_stats. cbv zeta.
  rewrite !(list_alter_id id) by reflexivity. now destruct st.
Qed.

Lemma on_stats_on_stats f1 f2 h1 h2 g1 g2 k1 k2 st :
  on_stats f1 f2 h1 h2 (on_stats g1 g2 k1 k2 st)
  = on_stats (compose f1 g1) (compose f2 g2) (compose h1 k1) (compose h2 k2)
      st.
Proof.
  unfold on_stats. cbn. now rewrite !list_alter_alter_eq.
Qed.

Lemma update_ref_match_p1 f st :
  update_ref MatchP1 f st = on_stats f id id id st.
Proof.
  unfold on_stats. cbn. rewrite !(list_alter_id id) by reflexivity.
  now destruct st.
Qed.

Lemma update_ref_match_p2 f st :
  update_ref MatchP2 f st = on_stats id f id id st.
Proof.
  unfold on_stats. cbn. rewrite !(list_alter_id id) by reflexivity.
  now destruct st.
Qed.

Lemma update_ref_set_p1 f st :
  update_ref (SetP1 (current_set_index st)) f st = on_stats id id f id st.
Proof.
  unfold on_stats. cbn. rewrite !(list_alter_id id) by reflexivity.
  now destruct st.
Qed.

Lemma update_ref_set_p2 f st :
  update_ref (SetP2 (current_set_index st)) f st = on_stats id id id f st.
Proof.
  unfold on_stats. cbn. rewrite !(list_alter_id id) by reflexivity.
  now destruct st.
Qed.

Lemma bump_on_stats who f st :
  bump who f st
  = if who =? 0 then on_stats f id f id st else on_stats id f id f st.
Proof.
  unfold bump, ms_ref, ps_ref. cbv zeta.
  destruct (who =? 0).
  - rewrite update_ref_match_p1.
    change (current_set_index st)
      with (current_set_index (on_stats f id id id st)).
    now rewrite update_ref_set_p1, on_stats_on_stats.
  - rewrite update_ref_match_p2.
    change (current_set_index st)
      with (current_set_index (on_stats id f id id st)).
    now rewrite update_ref_set_p2, on_stats_on_stats.
Qed.

Lemma on_stats_current_point_serve t f1 f2 h1 h2 st :
  with_current_point_serve t (on_stats f1 f2 h1 h2 st)
  = on_stats f1 f2 h1 h2 (with_current_point_serve t st).
Proof. reflexivity. Qed.

Lemma bump_p1 who f st :
  (who =? 0) = true -> bump who f st = on_stats f id f id st.
Proof. intros H. now rewrite bump_on_stats, H. Qed.

Lemma bump_p2 who f st :
  (who =? 0) = false -> bump who f st = on_stats id f id f st.
Proof. intros H. now rewrite bump_on_stats, H. Qed.

(** The statistics functions as updates of the four objects. *)
Lemma add_serve_attempt_first st server b :
  add_serve_attempt st server SERVE_FIRST b
  = bump server
      (if b then compose inc_first_serves_in inc_first_serves_attempted
       else inc_first_serves_attempted) st.
Proof.
  unfold add_serve_attempt. destruct b; [|reflexivity].
  rewrite !bump_on_stats. destruct (server =? 0);
    now rewrite on_stats_on_stats.
Qed.

Lemma add_serve_attempt_second st server b :
  add_serve_attempt st server SERVE_SECOND b
  = bump server
      (if b then compose inc_second_serves_in inc_second_serves_attempted
       else inc_second_serves_attempted) st.
Proof.
  unfold add_serve_attempt. destruct b; [|reflexivity].
  rewrite !bump_on_stats. destruct (server =? 0);
    now rewrite on_stats_on_stats.
Qed.

Lemma add_return_outcome_winner st r :
  add_return_outcome st r "winner" = bump r inc_return_winners st.
Proof. reflexivity. Qed.
Lemma add_return_outcome_ue st r :
  add_return_outcome st r "ue" = bump r inc_return_unforced_errors st.
Proof. reflexivity. Qed.
Lemma add_return_outcome_fe st r :
  add_return_outcome st r "fe" = bump r inc_return_forced_errors st.
Proof. reflexivity. Qed.
Lemma add_rally_outcome_winner st r :
  add_rally_outcome st r "winner" = bump r inc_rally_winners st.
Proof. reflexivity. Qed.
Lemma add_rally_outcome_ue st r :
  add_rally_outcome st r "ue" = bump r inc_unforced_errors st.
Proof. reflexivity. Qed.
Lemma add_rally_outcome_fedrawn st r :
  add_rally_outcome st r "fedrawn" = bump r inc_forced_errors_drawn st.
Proof. reflexivity. Qed.

Lemma maybe_count_break_point_frame st0 st was_bp returner_won :
  frame_of st = frame_of st0 ->
  maybe_count_break_point st was_bp returner_won
  = bump (if current_server st0 =? 0 then 1 else 0)
      (break_point_count was_bp returner_won) st.
Proof.
  intros F. apply frame_fields in F.
  destruct F as (_ & _ & _ & _ & _ & _ & _ & _ & _ & _ & _ & _ & _ & <- & _).
  unfold maybe_count_break_point, break_point_count. cbv zeta.
  rewrite !bump_on_stats.
  destruct was_bp; cbn [negb].
  - destruct returner_won; [|reflexivity].
    destruct (_ =? 0); now rewrite on_stats_on_stats.
  - destruct (_ =? 0); now rewrite on_stats_id.
Qed.

Lemma add_stats_net_eq who won st :
  add_stats_net who won st = update_ref who (net_count won) st.
Proof.
  unfold add_stats_net, net_count. cbv zeta. destruct won; [|reflexivity].
  destruct who; cbn; now rewrite ?list_alter_alter_eq.
Qed.

Lemma net_pair_p1 won st :
  add_stats_net (SetP1 (current_set_index (add_stats_net MatchP1 won st)))
    won (add_stats_net MatchP1 won st)
  = on_stats (net_count won) id (net_count won) id st.
Proof.
  rewrite !add_stats_net_eq, update_ref_match_p1, update_ref_set_p1.
  now rewrite on_stats_on_stats.
Qed.

Lemma net_pair_p2 won st :
  add_stats_net (SetP2 (current_set_index (add_stats_net MatchP2 won st)))
    won (add_stats_net MatchP2 won st)
  = on_stats id (net_count won) id (net_count won) st.
Proof.
  rewrite !add_stats_net_eq, update_ref_match_p2, update_ref_set_p2.
  now rewrite on_stats_on_stats.
Qed.

Lemma add_stats_point_ownership_p1 st :
  add_stats_point_ownership MatchP1 MatchP2 st
  = on_stats (compose inc_points_played inc_points_won) inc_points_played
      id id st.
Proof.
  unfold add_stats_point_ownership. cbv zeta.
  now rewrite !update_ref_match_p1, update_ref_match_p2, !on_stats_on_stats.
Qed.

Lemma add_stats_point_ownership_p2 st :
  add_stats_point_ownership MatchP2 MatchP1 st
  = on_stats inc_points_played (compose inc_points_played inc_points_won)
      id id st.
Proof.
  unfold add_stats_point_ownership. cbv zeta.
  now rewrite !update_ref_match_p2, update_ref_match_p1, !on_stats_on_stats.
Qed.

Lemma serve_just_set t st :
  current_point_serve (with_current_point_serve t st) = t.
Proof. reflexivity. Qed.

#[local] Hint Rewrite serve_just_set : cps.

Create Rewrite HintDb collect.
#[local] Hint Rewrite
  add_serve_attempt_first add_serve_attempt_second
  add_return_outcome_winner add_return_outcome_ue add_return_outcome_fe
  add_rally_outcome_winner add_rally_outcome_ue add_rally_outcome_fedrawn
  add_stats_point_ownership_p1 add_stats_point_ownership_p2 : collect.

Create Rewrite HintDb merge.
#[local] Hint Rewrite on_stats_on_stats on_stats_current_point_serve : merge.

(** Brings the chain of statistics updates of a goal produced by
    [play_cases] into the form [on_stats f1 f2 h1 h2 (with_current_point_serve
    t st)]. *)
Ltac collect_stats st :=
  autorewrite with cps;
  rewrite ?(maybe_count_break_point_frame st) by (frame_simpl; reflexivity);
  rewrite ?net_pair_p1, ?net_pair_p2;
  repeat match goal with
         | H : (current_server st =? 0) = _ |- _ => rewrite ?H
         end;
  cbv iota;
  unfold add_double_fault, add_ace, add_service_winner,
    add_return_points_won, add_server_point_won;
  autorewrite with collect;
  repeat first [ rewrite bump_p1 by (assumption || reflexivity)
               | rewrite bump_p2 by (assumption || reflexivity) ];
  autorewrite with merge.


(** ** Updates that add a constant *)

Ltac stats_fields :=
  repeat match goal with
         | s : PlayerStats |- _ => destruct s
         end;
  unfold shift in *; cbn in *.

Lemma shift_shift d e s : shift d (shift e s) = shift (shift d e) s.
Proof. stats_fields. f_equal; lia. Qed.

Lemma is_shift_id : is_shift id.
Proof. intros s. unfold id. stats_fields. f_equal; lia. Qed.

Lemma is_shift_compose f g : is_shift f -> is_shift g -> is_shift (compose f g).
Proof.
  intros Hf Hg s. unfold compose.
  rewrite (Hf (g s)), (Hg s), (Hf (g PlayerStats_new)). apply shift_shift.
Qed.

Lemma is_shift_inc_first_serves_attempted : is_shift inc_first_serves_attempted.
Proof. intros s. unfold inc_first_serves_attempted. stats_fields. f_equal; lia. Qed.
Lemma is_shift_inc_first_serves_in : is_shift inc_first_serves_in.
Proof. intros s. unfold inc_first_serves_in. stats_fields. f_equal; lia. Qed.
Lemma is_shift_inc_second_serves_attempted : is_shift inc_second_serves_attempted.
Proof. intros s. unfold inc_second_serves_attempted. stats_fields. f_equal; lia. Qed.
Lemma is_shift_inc_second_serves_in : is_shift inc_second_serves_in.
Proof. intros s. unfold inc_second_serves_in. stats_fields. f_equal; lia. Qed.
Lemma is_shift_inc_aces_first : is_shift inc_aces_first.
Proof. intros s. unfold inc_aces_first. stats_fields. f_equal; lia. Qed.
Lemma is_shift_inc_aces_second : is_shift inc_aces_second.
Proof. intros s. unfold inc_aces_second. stats_fields. f_equal; lia. Qed.
Lemma is_shift_inc_service_winners_first : is_shift inc_service_winners_first.
Proof. intros s. unfold inc_service_winners_first. stats_fields. f_equal; lia. Qed.
Lemma is_shift_inc_service_winners_second : is_shift inc_service_winners_second.
Proof. intros s. unfold inc_service_winners_second. stats_fields. f_equal; lia. Qed.
Lemma is_shift_inc_double_faults : is_shift inc_double_faults.
Proof. intros s. unfold inc_double_faults. stats_fields. f_equal; lia. Qed.
Lemma is_shift_inc_points_won_on_first_serve : is_shift inc_points_won_on_first_serve.
Proof. intros s. unfold inc_points_won_on_first_serve. stats_fields. f_equal; lia. Qed.
Lemma is_shift_inc_points_won_on_second_serve : is_shift inc_points_won_on_second_serve.
Proof. intros s. unfold inc_points_won_on_second_serve. stats_fields. f_equal; lia. Qed.
Lemma is_shift_inc_return_points_won_vs_first : is_shift inc_return_points_won_vs_first.
Proof. intros s. unfold inc_return_points_won_vs_first. stats_fields. f_equal; lia. Qed.
Lemma is_shift_inc_return_points_won_vs_second : is_shift inc_return_points_won_vs_second.
Proof. intros s. unfold inc_return_points_won_vs_second. stats_fields. f_equal; lia. Qed.
Lemma is_shift_inc_return_winners : is_shift inc_return_winners.
Proof. intros s. unfold inc_return_winners. stats_fields. f_equal; lia. Qed.
Lemma is_shift_inc_return_unforced_errors : is_shift inc_return_unforced_errors.
Proof. intros s. unfold inc_return_unforced_errors. stats_fields. f_equal; lia. Qed.
Lemma is_shift_inc_return_forced_errors : is_shift inc_return_forced_errors.
Proof. intros s. unfold inc_return_forced_errors. stats_fields. f_equal; lia. Qed.
Lemma is_shift_inc_rally_winners : is_shift inc_rally_winners.
Proof. intros s. unfold inc_rally_winners. stats_fields. f_equal; lia. Qed.
Lemma is_shift_inc_unforced_errors : is_shift inc_unforced_errors.
Proof. intros s. unfold inc_unforced_errors. stats_fields. f_equal; lia. Qed.
Lemma is_shift_inc_forced_errors_drawn : is_shift inc_forced_errors_drawn.
Proof. intros s. unfold inc_forced_errors_drawn. stats_fields. f_equal; lia. Qed.
Lemma is_shift_inc_net_points_won : is_shift inc_net_points_won.
Proof. intros s. unfold inc_net_points_won. stats_fields. f_equal; lia. Qed.
Lemma is_shift_inc_net_points_total : is_shift inc_net_points_total.
Proof. intros s. unfold inc_net_points_total. stats_fields. f_equal; lia. Qed.
Lemma is_shift_inc_break_points_won : is_shift inc_break_points_won.
Proof. intros s. unfold inc_break_points_won. stats_fields. f_equal; lia. Qed.
Lemma is_shift_inc_break_points_total : is_shift inc_break_points_total.
Proof. intros s. unfold inc_break_points_total. stats_fields. f_equal; lia. Qed.
Lemma is_shift_inc_points_won : is_shift inc_points_won.
Proof. intros s. unfold inc_points_won. stats_fields. f_equal; lia. Qed.
Lemma is_shift_inc_points_played : is_shift inc_points_played.
Proof. intros s. unfold inc_points_played. stats_fields. f_equal; lia. Qed.

Create HintDb shifts.
#[local] Hint Resolve is_shift_id is_shift_compose
  is_shift_inc_first_serves_attempted is_shift_inc_first_serves_in
  is_shift_inc_second_serves_attempted is_shift_inc_second_serves_in
  is_shift_inc_aces_first is_shift_inc_aces_second
  is_shift_inc_service_winners_first is_shift_inc_service_winners_second
  is_shift_inc_double_faults is_shift_inc_points_won_on_first_serve
  is_shift_inc_points_won_on_second_serve
  is_shift_inc_return_points_won_vs_first
  is_shift_inc_return_points_won_vs_second is_shift_inc_return_winners
  is_shift_inc_return_unforced_errors is_shift_inc_return_forced_errors
  is_shift_inc_rally_winners is_shift_inc_unforced_errors
  is_shift_inc_forced_errors_drawn is_shift_inc_net_points_won
  is_shift_inc_net_points_total is_shift_inc_break_points_won
  is_shift_inc_break_points_total is_shift_inc_points_won
  is_shift_inc_points_played : shifts.

Lemma is_shift_break_point_count was_bp returner_won :
  is_shift (break_point_count was_bp returner_won).
Proof.
  unfold break_point_count. destruct was_bp, returner_won; auto with shifts.
Qed.

Lemma is_shift_net_count won : is_shift (net_count won).
Proof. unfold net_count. destruct won; auto with shifts. Qed.

#[local] Hint Resolve is_shift_break_point_count is_shift_net_count : shifts.

(** The conditions on the counters are linear: they hold of a sum when
    they hold of both summands. *)
Lemma accounted_shift d1 d2 a b :
  accounted d1 d2 -> accounted a b -> accounted (shift d1 a) (shift d2 b).
Proof.
  unfold accounted, counters_nonneg, serving_accounted.
  stats_fields. intros. repeat split; lia.
Qed.

Lemma points_won_accounted_shift d1 d2 a b :
  points_won_accounted d1 d2 -> points_won_accounted a b ->
  points_won_accounted (shift d1 a) (shift d2 b).
Proof. unfold points_won_accounted. stats_fields. lia. Qed.

Lemma accounted_new : accounted PlayerStats_new PlayerStats_new.
Proof.
  unfold accounted, counters_nonneg, serving_accounted. cbn.
  repeat split; lia.
Qed.

(** ** The statistics of one point *)

(** Case analysis on a completed point for a known server: the flags, the
    event, who serves, and who was at the net. *)
Ltac play_cases_server st ev Hs :=
  unfold play_point;
  destruct (point_flags st) as [[[? ?] ?] ?];
  destruct ev as [[]|[] []|[] [] [?|]];
  cbn [serve_in_play];
  destruct Hs as [Hs|Hs]; rewrite ?Hs;
  repeat (progress (change (0 =? 0) with true; change (1 =? 0) with false;
                    change (1 =? 1) with true; change (0 =? 1) with false;
                    cbv iota));
  repeat match goal with
         | |- context [?np =? 1] =>
             destruct (np =? 1);
             repeat (progress (change (0 =? 0) with true;
                               change (1 =? 0) with false; cbv iota))
         end.

Ltac collect_stats_server st Hs :=
  autorewrite with cps;
  rewrite ?(maybe_count_break_point_frame st) by (frame_simpl; reflexivity);
  rewrite ?Hs;
  change (0 =? 0) with true; change (1 =? 0) with false; cbv iota;
  rewrite ?net_pair_p1, ?net_pair_p2;
  unfold add_double_fault, add_ace, add_service_winner,
    add_return_points_won, add_server_point_won;
  autorewrite with collect;
  repeat first [ rewrite bump_p1 by reflexivity
               | rewrite bump_p2 by reflexivity ];
  autorewrite with merge.

Ltac point_counted_tac :=
  unfold point_counted;
  repeat match goal with
         | |- context [break_point_count ?b _] => is_var b; destruct b
         end;
  vm_compute;
  repeat split; try reflexivity; intros; discriminate.

Lemma play_point_counted st ev :
  current_server st = 0 \/ current_server st = 1 ->
  exists f1 f2 h1 h2 t e,
    play_point st ev
    = log_and_give_point
        (on_stats f1 f2 h1 h2 (with_current_point_serve t st)) e
        (point_winner e)
    /\ server_player e = current_server st
    /\ is_shift f1 /\ is_shift f2 /\ is_shift h1 /\ is_shift h2
    /\ point_counted (current_server st) (point_winner e) f1 f2 h1 h2.
Proof.
  intros Hs.
  play_cases_server st ev Hs.
  all: collect_stats_server st Hs.
  all: match goal with
       | |- context [log_and_give_point
                       (on_stats ?F1 ?F2 ?H1 ?H2
                          (with_current_point_serve ?T _)) ?E _] =>
           exists F1, F2, H1, H2, T, E
       end; split; [reflexivity|].
  all: split; [reflexivity|].
  all: do 4 (split; [auto 20 with shifts|]).
  all: cbn [point_winner with_point_winner with_serve_type].
  all: point_counted_tac.
Qed.

(** ** The statistics of a match *)

Lemma set_counters_shift d s :
  Forall (fun g => g (shift d s) = g s + g d) set_counters.
Proof. unfold set_counters. repeat constructor. Qed.

Lemma set_counters_new :
  Forall (fun g => g PlayerStats_new = 0) set_counters.
Proof. unfold set_counters. repeat constructor. Qed.

Lemma fmap_eq_Forall {A B} (f f' : A -> B) (l : list A) :
  f <$> l = f' <$> l -> Forall (fun x => f x = f' x) l.
Proof.
  induction l as [|x l IH]; cbn; intros E; constructor.
  - now injection E.
  - apply IH. now injection E.
Qed.

Lemma sum_over_alter g h i (l : list PlayerStats) x :
  l !! i = Some x ->
  sum_over g (alter h i l) = sum_over g l + (g (h x) - g x).
Proof.
  unfold sum_over.
  revert i. induction l as [|y l IH]; intros [|i] E; cbn in *;
    try discriminate.
  - injection E as ->. lia.
  - rewrite (IH _ E). lia.
Qed.

Lemma sum_over_snoc g (l : list PlayerStats) x :
  sum_over g (l ++ [x]) = sum_over g l + g x.
Proof. unfold sum_over. induction l as [|y l IH]; cbn; lia. Qed.

Lemma points_served_by_snoc p log e :
  points_served_by p (log ++ [e])
  = points_served_by p log + (if server_player e =? p then 1 else 0).
Proof.
  unfold points_served_by. rewrite List.filter_app, length_app. cbn.
  destruct (server_player e =? p); cbn; lia.
Qed.

Lemma serves_counted_shift d s :
  serves_counted (shift d s) = serves_counted s + serves_counted d.
Proof. unfold serves_counted. stats_fields. lia. Qed.

(** The per-set objects after the statistics updates of a point: the
    objects of the current set are rewritten. *)
Lemma sets_add_up_on_stats st f1 f2 h1 h2 :
  (Z.to_nat (current_set_index st) < length (per_set_stats_p1 st))%nat ->
  (Z.to_nat (current_set_index st) < length (per_set_stats_p2 st))%nat ->
  is_shift f1 -> is_shift f2 -> is_shift h1 -> is_shift h2 ->
  ((fun g => g (f1 PlayerStats_new)) <$> set_counters)
  = ((fun g => g (h1 PlayerStats_new)) <$> set_counters) ->
  ((fun g => g (f2 PlayerStats_new)) <$> set_counters)
  = ((fun g => g (h2 PlayerStats_new)) <$> set_counters) ->
  sets_add_up st -> sets_add_up (on_stats f1 f2 h1 h2 st).
Proof.
  intros L1 L2 F1 F2 H1 H2 E1 E2 A.
  apply fmap_eq_Forall in E1, E2.
  destruct (lookup_lt_is_Some_2 _ _ L1) as [x1 X1].
  destruct (lookup_lt_is_Some_2 _ _ L2) as [x2 X2].
  unfold sets_add_up in *. cbn [on_stats match_stats_p1 match_stats_p2
    per_set_stats_p1 per_set_stats_p2 with_per_set_stats_p1
    with_per_set_stats_p2 with_match_stats_p1 with_match_stats_p2
    current_set_index].
  rewrite Forall_forall in *. intros g Hg.
  destruct (A g Hg) as [A1 A2].
  pose proof (E1 g Hg) as D1. pose proof (E2 g Hg) as D2. cbn beta in D1, D2.
  rewrite (sum_over_alter g h1 _ _ x1 X1), (sum_over_alter g h2 _ _ x2 X2).
  rewrite (F1 (match_stats_p1 st)), (F2 (match_stats_p2 st)),
    (H1 x1), (H2 x2).
  pose proof (set_counters_shift (f1 PlayerStats_new) (match_stats_p1 st)) as S1.
  pose proof (set_counters_shift (f2 PlayerStats_new) (match_stats_p2 st)) as S2.
  pose proof (set_counters_shift (h1 PlayerStats_new) x1) as S3.
  pose proof (set_counters_shift (h2 PlayerStats_new) x2) as S4.
  rewrite Forall_forall in S1, S2, S3, S4.
  rewrite (S1 g Hg), (S2 g Hg), (S3 g Hg), (S4 g Hg). lia.
Qed.

Lemma sets_add_up_grown st st' :
  match_stats_p1 st' = match_stats_p1 st ->
  match_stats_p2 st' = match_stats_p2 st ->
  per_sets st' = per_sets st \/ per_sets st' = grown st ->
  sets_add_up st -> sets_add_up st'.
Proof.
  intros M1 M2 P A. unfold sets_add_up in *. rewrite M1, M2.
  destruct P as [P|P]; unfold per_sets, grown in P; injection P as -> ->;
    [exact A|].
  pose proof set_counters_new as N.
  rewrite Forall_forall in *. intros g Hg.
  rewrite !sum_over_snoc, (N g Hg), !Z.add_0_r. now apply A.
Qed.

Lemma accounted_grown (l1 l2 l1' l2' : list PlayerStats) :
  (l1', l2') = (l1, l2)
  \/ (l1', l2') = (l1 ++ [PlayerStats_new], l2 ++ [PlayerStats_new]) ->
  Forall2 accounted l1 l2 -> Forall2 accounted l1' l2'.
Proof.
  intros [E|E] A; injection E as -> ->; [exact A|].
  apply Forall2_app; [exact A|].
  constructor; [apply accounted_new|constructor].
Qed.

Lemma stats_accounted_play_point st ev :
  good st -> stats_accounted st -> stats_accounted (play_point st ev).
Proof.
  intros (W & _) (A & AS & W1 & W2 & SU & S1 & S2).
  destruct (wf_index st W) as [Hn Hi].
  pose proof (wf_len1 st W) as L1. pose proof (wf_len2 st W) as L2.
  destruct (play_point_counted st ev (proj1 (wf_server st W)))
    as (f1 & f2 & h1 & h2 & t & e & -> & Es & F1 & F2 & H1 & H2 & C).
  destruct C as (C1 & C2 & C3 & C4 & C5 & C6 & _ & _ & C7 & C8 & _ & _).
  set (S := on_stats f1 f2 h1 h2 (with_current_point_serve t st)).
  destruct (give_point_keeps S e (point_winner e)) as (M1 & M2 & ML).
  pose proof (per_sets_log_and_give_point S e (point_winner e)) as PS.
  set (st' := log_and_give_point S e (point_winner e)) in *.
  assert (SU' : sets_add_up S).
  { apply (sets_add_up_on_stats (with_current_point_serve t st)); auto;
      cbn; lia. }
  unfold stats_accounted. rewrite M1, M2, ML.
  split; [|split; [|split; [|split; [|split; [|split]]]]].
  - subst S. cbn. rewrite (F1 (match_stats_p1 st)), (F2 (match_stats_p2 st)).
    now apply accounted_shift.
  - apply (accounted_grown (per_set_stats_p1 S) (per_set_stats_p2 S));
      [exact PS|].
    subst S. cbn. apply Forall2_alter; [exact AS|].
    intros x y _ _ Axy. rewrite (H1 x), (H2 y). now apply accounted_shift.
  - subst S. cbn. rewrite (F1 (match_stats_p1 st)), (F2 (match_stats_p2 st)).
    now apply points_won_accounted_shift.
  - subst S. cbn. rewrite (F1 (match_stats_p1 st)), (F2 (match_stats_p2 st)).
    now apply points_won_accounted_shift.
  - now apply (sets_add_up_grown S).
  - subst S. cbn. rewrite (F1 (match_stats_p1 st)), serves_counted_shift,
      points_served_by_snoc, C7, Es, S1. reflexivity.
  - subst S. cbn. rewrite (F2 (match_stats_p2 st)), serves_counted_shift,
      points_served_by_snoc, C8, Es, S2.
    destruct (proj1 (wf_server st W)) as [-> | ->]; reflexivity.
Qed.

Lemma stats_accounted_run c turns :
  stats_accounted (live (fst (run c turns))).
Proof.
  apply (run_invariant stats_accounted).
  - unfold stats_accounted, main_init. cbn.
    repeat split; try apply accounted_new.
    + constructor; [apply accounted_new|constructor].
    + unfold sets_add_up, set_counters. cbn. repeat constructor.
  - intros x y st H. exact H.
  - apply stats_accounted_play_point.
Qed.

(** X20.  In every state [main] reaches, each counter of a match-level
    statistics object other than the two totals is the sum of that counter
    over the per-set objects of the player: the per-set screens and the
    per-set export add up to the match totals. *)
Theorem match_counters_are_set_sums (c : Setup)
  (turns : list (Z * MainChoice)) :
  let st := live (fst (run c turns)) in
  Forall
    (fun g =>
       g (match_stats_p1 st) = sum_over g (per_set_stats_p1 st)
       /\ g (match_stats_p2 st) = sum_over g (per_set_stats_p2 st))
    set_counters.
Proof.
  destruct (stats_accounted_run c turns) as (_ & _ & _ & _ & SU & _).
  exact SU.
Qed.

Lemma accounted_ratios a b :
  accounted a b -> 0 <= points_won a <= points_played a ->
  ratios_bounded a.
Proof.
  unfold accounted, counters_nonneg, serving_accounted, ratios_bounded.
  intros. repeat split; lia.
Qed.

Lemma accounted_sym a b : accounted a b -> accounted b a.
Proof. unfold accounted. tauto. Qed.

Lemma accounted_sets_ratios (l1 l2 : list PlayerStats) :
  Forall2 accounted l1 l2 ->
  Forall (fun s => totals s = (0, 0)) l1 ->
  Forall (fun s => totals s = (0, 0)) l2 ->
  Forall ratios_bounded l1 /\ Forall ratios_bounded l2.
Proof.
  induction 1 as [|a b l1 l2 A _ IH]; intros Z1 Z2; [split; constructor|].
  apply Forall_cons in Z1 as [Za Z1]. apply Forall_cons in Z2 as [Zb Z2].
  destruct (IH Z1 Z2) as [I1 I2].
  unfold totals in Za, Zb. injection Za as Wa Pa. injection Zb as Wb Pb.
  split; constructor; try assumption.
  - apply (accounted_ratios a b A). lia.
  - apply (accounted_ratios b a (accounted_sym _ _ A)). lia.
Qed.

(** X21.  In every state [main] reaches, the seven ratios of the statistics
    screens and of the text summary are between 0 and 1 for every
    statistics object, match-level or per-set: serves in of serves
    attempted, points won of serves in, net points won of net points,
    break points won of break points, and points won of points played. *)
Theorem printed_ratios_bounded (c : Setup) (turns : list (Z * MainChoice)) :
  let st := live (fst (run c turns)) in
  ratios_bounded (match_stats_p1 st) /\ ratios_bounded (match_stats_p2 st)
  /\ Forall ratios_bounded (per_set_stats_p1 st)
  /\ Forall ratios_bounded (per_set_stats_p2 st).
Proof.
  cbv zeta.
  destruct (stats_accounted_run c turns) as (A & AS & _).
  destruct (proj1 (run_ok c turns)) as (_ & (T1 & T2 & T3) & Z1 & Z2).
  cbv zeta in T1, T2, T3.
  assert (N : 0 <= points_won (match_stats_p1 (live (fst (run c turns))))
              /\ 0 <= points_won (match_stats_p2 (live (fst (run c turns))))).
  { unfold accounted, counters_nonneg in A. tauto. }
  split; [|split].
  - apply (accounted_ratios _ _ A). lia.
  - apply (accounted_ratios _ _ (accounted_sym _ _ A)). lia.
  - now apply accounted_sets_ratios.
Qed.

(** X22.  In every state [main] reaches, for the match-level objects of the
    two players and for their objects of each set: the first serves a
    player put in are the points the player won on the first serve and the
    points the opponent won returning it, likewise for the second serve,
    and the second serves attempted are those put in and the double
    faults. *)
Theorem serves_are_accounted (c : Setup) (turns : list (Z * MainChoice)) :
  let st := live (fst (run c turns)) in
  let served a b :=
    first_serves_in a
    = points_won_on_first_serve a + return_points_won_vs_first b
    /\ second_serves_in a
       = points_won_on_second_serve a + return_points_won_vs_second b
    /\ second_serves_attempted a = second_serves_in a + double_faults a in
  served (match_stats_p1 st) (match_stats_p2 st)
  /\ served (match_stats_p2 st) (match_stats_p1 st)
  /\ Forall2 (fun a b => served a b /\ served b a)
       (per_set_stats_p1 st) (per_set_stats_p2 st).
Proof.
  cbv zeta.
  destruct (stats_accounted_run c turns) as (A & AS & _).
  split; [|split].
  - unfold accounted, serving_accounted in A. tauto.
  - unfold accounted, serving_accounted in A. tauto.
  - eapply Forall2_impl; [exact AS|]. cbn.
    intros a b H. unfold accounted, serving_accounted in H. tauto.
Qed.

(** X23.  In every state [main] reaches, the points won in the match-level
    statistics of a player are the points won on first and second serve,
    the points won returning a first and a second serve, and the double
    faults of the opponent. *)
Theorem points_won_break_down (c : Setup) (turns : list (Z * MainChoice)) :
  let st := live (fst (run c turns)) in
  let won a b :=
    points_won a
    = points_won_on_first_serve a + points_won_on_second_serve a
      + return_points_won_vs_first a + return_points_won_vs_second a
      + double_faults b in
  won (match_stats_p1 st) (match_stats_p2 st)
  /\ won (match_stats_p2 st) (match_stats_p1 st).
Proof.
  cbv zeta.
  destruct (stats_accounted_run c turns) as (_ & _ & W1 & W2 & _).
  split; assumption.
Qed.

(** X24.  In every state [main] reaches, the first serves in, second serves
    in and double faults of a player in the match-level statistics add up
    to the number of log entries that name the player as server: every
    point is counted as exactly one of the three for its server. *)
Theorem serves_counted_are_logged (c : Setup) (turns : list (Z * MainChoice)) :
  let st := live (fst (run c turns)) in
  first_serves_in (match_stats_p1 st) + second_serves_in (match_stats_p1 st)
  + double_faults (match_stats_p1 st)
  = points_served_by 0 (log_entries st)
  /\ first_serves_in (match_stats_p2 st) + second_serves_in (match_stats_p2 st)
     + double_faults (match_stats_p2 st)
     = points_served_by 1 (log_entries st).
Proof.
  cbv zeta.
  destruct (stats_accounted_run c turns) as (_ & _ & _ & _ & _ & S1 & S2).
  split; assumption.
Qed.

(** ** The setup of the match *)

Lemma setup_of_close_set st w :
  setup_of (close_set_and_prepare_next st w) = setup_of st.
Proof.
  unfold close_set_and_prepare_next, start_new_set. cbv zeta.
  destruct (w =? 0);
    repeat match goal with
           | |- context [if ?c then _ else _] => destruct c
           end; reflexivity.
Qed.

Lemma setup_of_give_point_regular st w :
  setup_of (give_point_regular st w) = setup_of st.
Proof.
  rewrite give_point_regular_eq. cbv zeta.
  set (st1 := if w =? 0 then _ else _).
  assert (E : setup_of st1 = setup_of st)
    by (subst st1; destruct (w =? 0); reflexivity).
  rewrite <- E. clearbody st1.
  destruct (_ || _); [|reflexivity]. destruct (_ >=? 2); [|reflexivity].
  set (gw := if _ >? _ then 0 else 1).
  set (st2 := award_game st1 gw).
  assert (E2 : setup_of st2 = setup_of st1).
  { subst st2. unfold award_game. destruct (gw =? 0); reflexivity. }
  rewrite <- E2. clearbody st2.
  unfold after_award_game. cbv zeta.
  set (st3 := if _ && _ then _ else st2).
  assert (E3 : setup_of st3 = setup_of st2)
    by (subst st3; now destruct (_ && _)).
  rewrite <- E3. clearbody st3.
  destruct (negb _); [|reflexivity].
  destruct (set_is_won_now st3); [|reflexivity].
  apply setup_of_close_set.
Qed.

Lemma setup_of_give_point_tiebreak st w b :
  setup_of (give_point_tiebreak st w b) = setup_of st.
Proof.
  unfold give_point_tiebreak. cbv zeta.
  set (st1 := if w =? 0 then _ else _).
  assert (E : setup_of st1 = setup_of st)
    by (subst st1; now destruct (w =? 0)).
  rewrite <- E. clearbody st1.
  destruct b.
  - destruct (set_is_won_now st1); [|reflexivity].
    now rewrite setup_of_close_set.
  - destruct (match_tiebreak10_won st1) as [mw|]; [|reflexivity].
    now destruct (mw =? 0).
Qed.

Lemma setup_of_log_and_give_point st e w :
  setup_of (log_and_give_point st e w) = setup_of st.
Proof.
  unfold log_and_give_point. cbv zeta.
  set (st1 := with_log_entries _ st).
  change (setup_of st) with (setup_of st1).
  destruct (in_set_tiebreak st1); [|destruct (in_match_tiebreak10 st1)];
    auto using setup_of_give_point_tiebreak, setup_of_give_point_regular.
Qed.

Lemma setup_of_frame a b : frame_of a = frame_of b -> setup_of a = setup_of b.
Proof.
  unfold frame_of, setup_of. intros E. injection E. intros. congruence.
Qed.

Lemma setup_of_play_point st ev : setup_of (play_point st ev) = setup_of st.
Proof.
  destruct (play_point_shape st ev) as (S & e & w & -> & F & _).
  now rewrite setup_of_log_and_give_point, (setup_of_frame _ _ F).
Qed.

(** X25.  Nothing that is entered after the setup changes the names, the
    location or the format: in every state [main] reaches they are what
    was entered before the first point, the match is best of three and two
    sets win it. *)
Theorem setup_is_kept (c : Setup) (turns : list (Z * MainChoice)) :
  let st := live (fst (run c turns)) in
  player1_name st = setup_player1 c /\ player2_name st = setup_player2 c
  /\ location st = setup_location c
  /\ format st = get_format_by_choice (fchoice c)
  /\ best_of_sets st = 3 /\ sets_to_win st = 2.
Proof.
  cbv zeta.
  assert (E : setup_of (live (fst (run c turns)))
              = setup_of (live (main_init c))).
  { apply (run_invariant
             (fun st => setup_of st = setup_of (live (main_init c)))).
    - reflexivity.
    - intros x y st H. exact H.
    - intros st ev _ H. now rewrite setup_of_play_point. }
  unfold setup_of in E. cbn in E. injection E.
  intros. repeat split; assumption.
Qed.

(** ** Tiebreaks *)

Lemma tiebreak_open_love target st :
  0 < target -> tb_points_p1 st = 0 -> tb_points_p2 st = 0 ->
  tiebreak_open target st.
Proof.
  intros T E1 E2. unfold tiebreak_open. rewrite E1, E2.
  destruct (Z.geb_spec 0 target); [lia|reflexivity].
Qed.

(** The test of both tiebreaks after a point of player [w], when the
    tiebreak was open before: it succeeds exactly when [w] has reached the
    target and leads by two, and then the winner it names is [w]. *)
Lemma tiebreak_won_test target a b w :
  ((a >=? target) || (b >=? target)) && (Z.abs (a - b) >=? 2) = false ->
  let mine := (if w =? 0 then a else b) + 1 in
  let theirs := if w =? 0 then b else a in
  let a' := if w =? 0 then a + 1 else a in
  let b' := if w =? 0 then b else b + 1 in
  (((a' >=? target) || (b' >=? target)) && (Z.abs (a' - b') >=? 2)
   = (mine >=? target) && (mine - theirs >=? 2))
  /\ ((mine >=? target) && (mine - theirs >=? 2) = true ->
      (if a' >? b' then 0 else 1) = (if w =? 0 then 0 else 1)).
Proof.
  intros O. cbv zeta.
  destruct (w =? 0).
  - destruct (Z.geb_spec a target), (Z.geb_spec b target),
      (Z.geb_spec (Z.abs (a - b)) 2), (Z.geb_spec (a + 1) target),
      (Z.geb_spec (Z.abs (a + 1 - b)) 2), (Z.geb_spec (a + 1 - b) 2),
      (Z.gtb_spec (a + 1) b);
      cbn in *; try discriminate; split; try reflexivity; try lia;
      intros; try discriminate; try reflexivity; lia.
  - destruct (Z.geb_spec a target), (Z.geb_spec b target),
      (Z.geb_spec (Z.abs (a - b)) 2), (Z.geb_spec (b + 1) target),
      (Z.geb_spec (Z.abs (a - (b + 1))) 2), (Z.geb_spec (b + 1 - a) 2),
      (Z.gtb_spec a (b + 1));
      cbn in *; try discriminate; split; try reflexivity; try lia;
      intros; try discriminate; try reflexivity; lia.
Qed.

Lemma close_set_leaves_set_tiebreak st w :
  in_set_tiebreak st = false ->
  in_set_tiebreak (close_set_and_prepare_next st w) = false.
Proof.
  intros H. unfold close_set_and_prepare_next, start_new_set.
  cbv zeta.
  destruct (w =? 0);
    repeat match goal with
           | |- context [if ?c then _ else _] => destruct c
           end; cbn; auto.
Qed.

(** X26.  A point of a set tiebreak that was not decided before: the
    player who gets it wins the tiebreak exactly when the new count has
    reached the target of the format and is two more than the opponent's.
    Then the set is that player's: its record is marked finished and keeps
    the games it had, the tiebreak score is stored in it, and the state
    leaves the set tiebreak.  Otherwise the only change is the point. *)
Theorem set_tiebreak_won_exactly (st : MatchState) (w : Z) :
  0 <= current_set_index st < Z.of_nat (length (sets st)) ->
  in_set_tiebreak st = true ->
  tiebreak_open (set_tiebreak_points (format st)) st ->
  let mine := tb_points_of w st + 1 in
  let theirs := tb_points_of (opponent w) st in
  let st' := give_point_tiebreak st w true in
  let played := sets st' !!! Z.to_nat (current_set_index st) in
  if (mine >=? set_tiebreak_points (format st)) && (mine - theirs >=? 2) then
    set_finished played = true
    /\ (ss_tb_points_p1 played, ss_tb_points_p2 played)
       = (if w =? 0 then (mine, theirs) else (theirs, mine))
    /\ games_player1 played = games_player1 (current_set st)
    /\ games_player2 played = games_player2 (current_set st)
    /\ sets_won_of w st' = sets_won_of w st + 1
    /\ sets_won_of (opponent w) st' = sets_won_of (opponent w) st
    /\ in_set_tiebreak st' = false
  else
    st' = if w =? 0 then with_tb_points_p1 mine st
          else with_tb_points_p2 mine st.
Proof.
  intros Hi HS O. cbv zeta.
  assert (Hk : (Z.to_nat (current_set_index st) < length (sets st))%nat)
    by lia.
  destruct (tiebreak_won_test _ _ _ w O) as [T Gw]. cbv zeta in T, Gw.
  unfold give_point_tiebreak. cbv zeta.
  set (st1 := if w =? 0 then _ else _).
  assert (E : in_set_tiebreak st1 = true /\ format st1 = format st
              /\ tb_points_p1 st1
                 = (if w =? 0 then tb_points_p1 st + 1 else tb_points_p1 st)
              /\ tb_points_p2 st1
                 = (if w =? 0 then tb_points_p2 st else tb_points_p2 st + 1)
              /\ sets st1 = sets st
              /\ current_set_index st1 = current_set_index st
              /\ sets_won_p1 st1 = sets_won_p1 st
              /\ sets_won_p2 st1 = sets_won_p2 st
              /\ st1 = (if w =? 0
                        then with_tb_points_p1 (tb_points_of w st + 1) st
                        else with_tb_points_p2 (tb_points_of w st + 1) st)).
  { subst st1. unfold tb_points_of.
    destruct (w =? 0); repeat split; assumption || reflexivity. }
  destruct E as (Es & Ef & E1 & E2 & El & Ei & W1 & W2 & E).
  unfold set_is_won_now. rewrite Es, Ef, E1, E2. cbv zeta.
  unfold tb_points_of, opponent.
  replace ((if w =? 0 then 1 else 0) =? 0) with (negb (w =? 0))
    by (now destruct (w =? 0)).
  replace (if negb (w =? 0) then tb_points_p1 st else tb_points_p2 st)
    with (if w =? 0 then tb_points_p2 st else tb_points_p1 st)
    by (now destruct (w =? 0)).
  rewrite T. clear T.
  match goal with
  | |- if ?c then _ else _ => destruct c eqn:C
  end; [|exact E].
  rewrite (Gw eq_refl).
  set (q := if w =? 0 then 0 else 1).
  set (st2 := with_in_set_tiebreak false _).
  assert (A : current_set st2
              = with_ss_tb_points_p2 (tb_points_p2 st1)
                  (with_ss_tb_points_p1 (tb_points_p1 st1) (current_set st))
              /\ current_set_index st2 = current_set_index st
              /\ length (sets st2) = length (sets st)
              /\ sets_won_p1 st2 = sets_won_p1 st
              /\ sets_won_p2 st2 = sets_won_p2 st
              /\ in_set_tiebreak st2 = false).
  { subst st2. unfold alter_current_set, current_set. cbn.
    rewrite Ei, El, !length_alter.
    rewrite !list_lookup_total_alter_eq
      by (rewrite ?length_alter; exact Hk).
    rewrite <- E1. repeat split; auto. }
  destruct A as (Ac & Ai & Al & A1 & A2 & As).
  assert (Hk2 : (Z.to_nat (current_set_index st2) < length (sets st2))%nat)
    by (now rewrite Ai, Al).
  destruct (close_set_effect st2 q Hk2) as (Cc & Cw & Co & _).
  cbv zeta in Cc. rewrite Ai in Cc. rewrite Cc, Ac, E1, E2.
  rewrite (close_set_leaves_set_tiebreak st2 q As).
  unfold sets_won_of, opponent in *. rewrite A1, A2 in *. subst q.
  destruct (w =? 0);
    repeat (progress (change (1 =? 0) with false in *;
                      change (0 =? 0) with true in *; cbv iota in * ));
    cbn; repeat split; auto.
Qed.

Lemma tiebreak_six_love_facts :
  0 <= current_set_index tiebreak_six_love
       < Z.of_nat (length (sets tiebreak_six_love))
  /\ in_set_tiebreak tiebreak_six_love = true
  /\ tiebreak_open (set_tiebreak_points (format tiebreak_six_love))
       tiebreak_six_love.
Proof. vm_compute. repeat split; discriminate. Qed.

(** At 6-0 in the tiebreak of the first set the next point of player 1
    wins the set. *)
Lemma set_tiebreak_won_exactly_witness :
  let st := tiebreak_six_love in
  0 <= current_set_index st < Z.of_nat (length (sets st))
  /\ in_set_tiebreak st = true
  /\ tiebreak_open (set_tiebreak_points (format st)) st
  /\ (let mine := tb_points_of 0 st + 1 in
      let theirs := tb_points_of (opponent 0) st in
      let st' := give_point_tiebreak st 0 true in
      let played := sets st' !!! Z.to_nat (current_set_index st) in
      if (mine >=? set_tiebreak_points (format st)) && (mine - theirs >=? 2)
      then
        set_finished played = true
        /\ (ss_tb_points_p1 played, ss_tb_points_p2 played)
           = (if 0 =? 0 then (mine, theirs) else (theirs, mine))
        /\ games_player1 played = games_player1 (current_set st)
        /\ games_player2 played = games_player2 (current_set st)
        /\ sets_won_of 0 st' = sets_won_of 0 st + 1
        /\ sets_won_of (opponent 0) st' = sets_won_of (opponent 0) st
        /\ in_set_tiebreak st' = false
      else
        st' = if 0 =? 0 then with_tb_points_p1 mine st
              else with_tb_points_p2 mine st).
Proof.
  cbv zeta.
  split; [exact (proj1 tiebreak_six_love_facts)|].
  split; [exact (proj1 (proj2 tiebreak_six_love_facts))|].
  split; [exact (proj2 (proj2 tiebreak_six_love_facts))|].
  exact (set_tiebreak_won_exactly tiebreak_six_love 0
           (proj1 tiebreak_six_love_facts)
           (proj1 (proj2 tiebreak_six_love_facts))
           (proj2 (proj2 tiebreak_six_love_facts))).
Defined.

(** X27.  A point of a match tiebreak that was not decided before, in a
    running match: the player who gets it wins the tiebreak exactly when
    the new count has reached the target of the format and is two more
    than the opponent's.  Then the player has two sets to one and the
    match is over; a row with the games of the last record and the
    tiebreak score, not marked finished, is appended to [sets], and the
    current set index stays.  Otherwise the only change is the point. *)
Theorem match_tiebreak_won_exactly (st : MatchState) (w : Z) :
  wf st -> in_match_tiebreak10 st = true ->
  tiebreak_open (deciding_tb_points (format st)) st ->
  let mine := tb_points_of w st + 1 in
  let theirs := tb_points_of (opponent w) st in
  let st' := give_point_tiebreak st w false in
  if (mine >=? deciding_tb_points (format st)) && (mine - theirs >=? 2) then
    sets_won_of w st' = 2 /\ sets_won_of (opponent w) st' = 1
    /\ match_is_over_now st' = true
    /\ in_match_tiebreak10 st' = false
    /\ sets st'
       = sets st
         ++ [MkSetScore (games_player1 (last_set st))
               (games_player2 (last_set st)) false true
               (if w =? 0 then mine else theirs)
               (if w =? 0 then theirs else mine)]
    /\ current_set_index st' = current_set_index st
  else
    st' = if w =? 0 then with_tb_points_p1 mine st
          else with_tb_points_p2 mine st.
Proof.
  intros W HM O. cbv zeta.
  destruct (wf_decider st W HM) as (_ & D1 & D2).
  pose proof (wf_to_win st W) as TW.
  destruct (tiebreak_won_test _ _ _ w O) as [T Gw]. cbv zeta in T, Gw.
  unfold give_point_tiebreak. cbv zeta.
  set (st1 := if w =? 0 then _ else _).
  assert (E : in_match_tiebreak10 st1 = true /\ format st1 = format st
              /\ tb_points_p1 st1
                 = (if w =? 0 then tb_points_p1 st + 1 else tb_points_p1 st)
              /\ tb_points_p2 st1
                 = (if w =? 0 then tb_points_p2 st else tb_points_p2 st + 1)
              /\ st1 = (if w =? 0
                        then with_tb_points_p1 (tb_points_of w st + 1) st
                        else with_tb_points_p2 (tb_points_of w st + 1) st)).
  { subst st1. unfold tb_points_of.
    destruct (w =? 0); repeat split; assumption || reflexivity. }
  destruct E as (Em & Ef & E1 & E2 & E).
  unfold match_tiebreak10_won. rewrite Em, Ef, E1, E2. cbn [negb].
  unfold tb_points_of, opponent.
  replace ((if w =? 0 then 1 else 0) =? 0) with (negb (w =? 0))
    by (now destruct (w =? 0)).
  replace (if negb (w =? 0) then tb_points_p1 st else tb_points_p2 st)
    with (if w =? 0 then tb_points_p2 st else tb_points_p1 st)
    by (now destruct (w =? 0)).
  rewrite T. clear T.
  match goal with
  | |- if ?c then _ else _ => destruct c eqn:C
  end; [|exact E].
  rewrite (Gw eq_refl).
  unfold sets_won_of, match_is_over_now, last_set. subst st1.
  destruct (w =? 0);
    repeat (progress (change (1 =? 0) with false;
                      change (0 =? 0) with true; cbv iota));
    cbn; rewrite D1, D2, TW; repeat split; reflexivity.
Qed.

Lemma match_tiebreak_nine_love_facts :
  in_match_tiebreak10 match_tiebreak_nine_love = true
  /\ tiebreak_open (deciding_tb_points (format match_tiebreak_nine_love))
       match_tiebreak_nine_love.
Proof. vm_compute. repeat split; discriminate. Qed.

Lemma wf_match_tiebreak_nine_love : wf match_tiebreak_nine_love.
Proof. apply running_wf. vm_compute. reflexivity. Qed.

(** At 9-0 in the match tiebreak the next point of player 1 wins the
    match. *)
Lemma match_tiebreak_won_exactly_witness :
  let st := match_tiebreak_nine_love in
  wf st /\ in_match_tiebreak10 st = true
  /\ tiebreak_open (deciding_tb_points (format st)) st
  /\ (let mine := tb_points_of 0 st + 1 in
      let theirs := tb_points_of (opponent 0) st in
      let st' := give_point_tiebreak st 0 false in
      if (mine >=? deciding_tb_points (format st)) && (mine - theirs >=? 2)
      then
        sets_won_of 0 st' = 2 /\ sets_won_of (opponent 0) st' = 1
        /\ match_is_over_now st' = true
        /\ in_match_tiebreak10 st' = false
        /\ sets st'
           = sets st
             ++ [MkSetScore (games_player1 (last_set st))
                   (games_player2 (last_set st)) false true
                   (if 0 =? 0 then mine else theirs)
                   (if 0 =? 0 then theirs else mine)]
        /\ current_set_index st' = current_set_index st
      else
        st' = if 0 =? 0 then with_tb_points_p1 mine st
              else with_tb_points_p2 mine st).
Proof.
  cbv zeta.
  split; [exact wf_match_tiebreak_nine_love|].
  split; [exact (proj1 match_tiebreak_nine_love_facts)|].
  split; [exact (proj2 match_tiebreak_nine_love_facts)|].
  exact (match_tiebreak_won_exactly match_tiebreak_nine_love 0
           wf_match_tiebreak_nine_love
           (proj1 match_tiebreak_nine_love_facts)
           (proj2 match_tiebreak_nine_love_facts)).
Defined.

(** ** A tiebreak in progress is undecided *)

Lemma tiebreaks_open_frame a b :
  frame_of a = frame_of b -> tiebreaks_open b -> tiebreaks_open a.
Proof.
  intros E O. apply frame_fields in E.
  destruct E as (Ef & _ & _ & _ & _ & _ & _ & _ & Est & Emt & Et1 & Et2 & _).
  unfold tiebreaks_open, tiebreak_open in *.
  now rewrite Ef, Est, Emt, Et1, Et2.
Qed.

(** A state with both flags clear, or with a flag set and the tiebreak
    score at 0-0. *)
Lemma tiebreaks_open_fresh st :
  0 < set_tiebreak_points (format st) ->
  0 < deciding_tb_points (format st) ->
  (in_set_tiebreak st = false /\ in_match_tiebreak10 st = false)
  \/ (tb_points_p1 st = 0 /\ tb_points_p2 st = 0) ->
  tiebreaks_open st.
Proof.
  intros T1 T2 H. split; [exact T1|]. split; [exact T2|].
  destruct H as [[H1 H2]|[H1 H2]].
  - rewrite H1, H2. split; discriminate.
  - split; intros _; now apply tiebreak_open_love.
Qed.

Lemma tiebreaks_open_close_set st w :
  tiebreaks_open st ->
  in_set_tiebreak st = false -> in_match_tiebreak10 st = false ->
  tiebreaks_open (close_set_and_prepare_next st w).
Proof.
  intros (T1 & T2 & _) HS HM.
  unfold close_set_and_prepare_next, start_new_set. cbv zeta.
  destruct (w =? 0);
    repeat match goal with
           | |- context [if ?c then _ else _] => destruct c
           end;
    apply tiebreaks_open_fresh; cbn; auto.
Qed.

Lemma tiebreaks_open_give_point_regular st w :
  tiebreaks_open st ->
  in_set_tiebreak st = false -> in_match_tiebreak10 st = false ->
  tiebreaks_open (give_point_regular st w).
Proof.
  intros O HS HM. rewrite give_point_regular_eq. cbv zeta.
  set (st1 := if w =? 0 then _ else _).
  assert (E : tiebreaks_open st1 /\ in_set_tiebreak st1 = false
              /\ in_match_tiebreak10 st1 = false)
    by (subst st1; destruct (w =? 0); auto).
  clearbody st1. destruct E as (O1 & S1 & M1).
  destruct (_ || _); [|exact O1]. destruct (_ >=? 2); [|exact O1].
  set (gw := if _ >? _ then 0 else 1).
  assert (E : tiebreaks_open (award_game st1 gw)
              /\ in_set_tiebreak (award_game st1 gw) = false
              /\ in_match_tiebreak10 (award_game st1 gw) = false).
  { unfold award_game. destruct (gw =? 0); auto. }
  set (st2 := award_game st1 gw) in *. clearbody st2.
  destruct E as (O2 & S2 & M2).
  unfold after_award_game. cbv zeta. rewrite M2. cbn [negb andb].
  destruct (check_enter_set_tiebreak st2).
  - cbn [in_set_tiebreak with_tb_start_server with_tb_points_p2
         with_tb_points_p1 alter_current_set with_sets
         with_in_set_tiebreak negb].
    destruct O2 as (T1 & T2 & _).
    apply tiebreaks_open_fresh; cbn; auto.
  - rewrite S2. cbn [negb].
    destruct (set_is_won_now st2); [|exact O2].
    now apply tiebreaks_open_close_set.
Qed.

Lemma tiebreaks_open_give_point_tiebreak st w b :
  tiebreaks_open st ->
  in_set_tiebreak st = b -> in_match_tiebreak10 st = negb b ->
  tiebreaks_open (give_point_tiebreak st w b).
Proof.
  intros (T1 & T2 & _) HS HM. unfold give_point_tiebreak. cbv zeta.
  set (st1 := if w =? 0 then _ else _).
  assert (E : format st1 = format st /\ in_set_tiebreak st1 = b
              /\ in_match_tiebreak10 st1 = negb b)
    by (subst st1; destruct (w =? 0); auto).
  clearbody st1. destruct E as (Ef & S1 & M1).
  rewrite <- Ef in T1, T2.
  destruct b; cbn [negb] in *.
  - destruct (set_is_won_now st1) as [sw|] eqn:Won.
    + apply tiebreaks_open_close_set; [|reflexivity|exact M1].
      apply tiebreaks_open_fresh; cbn; auto.
    + split; [exact T1|]. split; [exact T2|].
      rewrite M1. split; [intros _|discriminate].
      unfold set_is_won_now in Won. rewrite S1 in Won.
      unfold tiebreak_open. now destruct (_ && _).
  - destruct (match_tiebreak10_won st1) as [mw|] eqn:Won.
    + apply tiebreaks_open_fresh; destruct (mw =? 0); cbn; auto.
    + split; [exact T1|]. split; [exact T2|].
      rewrite S1. split; [discriminate|intros _].
      unfold match_tiebreak10_won in Won. rewrite M1 in Won.
      cbn [negb] in Won. unfold tiebreak_open. now destruct (_ && _).
Qed.

Lemma tiebreaks_open_log_and_give_point st e w :
  tiebreaks_open st -> one_mode st ->
  tiebreaks_open (log_and_give_point st e w).
Proof.
  intros O M. unfold log_and_give_point. cbv zeta.
  set (st1 := with_log_entries _ st).
  assert (E : tiebreaks_open st1 /\ one_mode st1) by (split; assumption).
  clearbody st1. destruct E as [O1 M1]. unfold one_mode in M1.
  destruct (in_set_tiebreak st1) eqn:S1.
  - apply tiebreaks_open_give_point_tiebreak; auto.
  - destruct (in_match_tiebreak10 st1) eqn:M2.
    + apply tiebreaks_open_give_point_tiebreak; auto.
    + now apply tiebreaks_open_give_point_regular.
Qed.

Lemma wf_one_mode st : wf st -> one_mode st.
Proof.
  intros W. unfold one_mode.
  destruct (in_match_tiebreak10 st) eqn:M; [|apply andb_false_r].
  destruct (wf_decider st W M) as (-> & _). reflexivity.
Qed.

Lemma one_mode_frame a b : frame_of a = frame_of b -> one_mode b -> one_mode a.
Proof.
  intros E. apply frame_fields in E.
  destruct E as (_ & _ & _ & _ & _ & _ & _ & _ & Est & Emt & _).
  unfold one_mode. now rewrite Est, Emt.
Qed.

(** X28.  In every state [main] reaches, the targets of both tiebreaks are
    positive and a tiebreak that is being played has not been won at the
    score of the state: no player has reached the target with a lead of
    two. *)
Theorem tiebreak_in_progress_is_open (c : Setup)
  (turns : list (Z * MainChoice)) :
  let st := live (fst (run c turns)) in
  0 < set_tiebreak_points (format st) /\ 0 < deciding_tb_points (format st)
  /\ (in_set_tiebreak st = true ->
      tiebreak_open (set_tiebreak_points (format st)) st)
  /\ (in_match_tiebreak10 st = true ->
      tiebreak_open (deciding_tb_points (format st)) st).
Proof.
  apply (run_invariant tiebreaks_open).
  - apply tiebreaks_open_fresh; unfold main_init, get_format_by_choice;
      cbn; auto;
      destruct (fchoice c =? 1); cbn; try lia;
      destruct (fchoice c =? 2); cbn; lia.
  - intros x y st H. exact H.
  - intros st ev (W & _) O.
    destruct (play_point_shape st ev) as (S & e & w & -> & F & _).
    apply tiebreaks_open_log_and_give_point.
    + now apply (tiebreaks_open_frame _ st).
    + apply (one_mode_frame _ st F). now apply wf_one_mode.
Qed.

(** ** The start of a set tiebreak *)

(** X29.  The game that makes both game counts of the set equal to the
    tiebreak threshold of the format starts the set tiebreak: when the
    player with game point wins the point, the state enters the set
    tiebreak at 0-0, the record of the set is marked as having a tiebreak
    and stays open, and the player who received in that game is the
    server and the one who starts the tiebreak. *)
Theorem set_tiebreak_starts (st : MatchState) (w : Z) :
  0 <= current_set_index st < Z.of_nat (length (sets st)) ->
  in_match_tiebreak10 st = false ->
  is_game_point_for (game_points_of w st) (game_points_of (opponent w) st)
  = true ->
  games_of w (current_set st) + 1 = tiebreak_at_games (format st) ->
  games_of (opponent w) (current_set st) = tiebreak_at_games (format st) ->
  let st' := give_point_regular st w in
  in_set_tiebreak st' = true
  /\ tb_points_p1 st' = 0 /\ tb_points_p2 st' = 0
  /\ tb_start_server st' = opponent (current_server st)
  /\ current_server st' = opponent (current_server st)
  /\ current_set_index st' = current_set_index st
  /\ current_set st'
     = with_set_tiebreak_played true
         (with_games_player2 (tiebreak_at_games (format st))
            (with_games_player1 (tiebreak_at_games (format st))
               (current_set st))).
Proof.
  intros Hi HM GP G1 G2. cbv zeta.
  assert (Hk : (Z.to_nat (current_set_index st) < length (sets st))%nat)
    by lia.
  destruct (game_point_converts _ _ GP) as (T1 & T2 & T3 & T4).
  rewrite give_point_regular_eq. cbv zeta.
  set (st1 := if w =? 0 then _ else _).
  assert (E : current_set st1 = current_set st
              /\ in_match_tiebreak10 st1 = false
              /\ format st1 = format st
              /\ current_server st1 = current_server st
              /\ current_set_index st1 = current_set_index st
              /\ sets st1 = sets st
              /\ ((game_points_p1 st1 >=? 4) || (game_points_p2 st1 >=? 4))
                 && (Z.abs (game_points_p1 st1 - game_points_p2 st1) >=? 2)
                 = true
              /\ (if game_points_p1 st1 >? game_points_p2 st1 then 0 else 1)
                 = (if w =? 0 then 0 else 1)).
  { subst st1. unfold game_points_of, opponent in *.
    destruct (w =? 0);
      repeat (progress (change (1 =? 0) with false in *;
                        change (0 =? 0) with true in *; cbv iota in * ));
      cbn -[Z.abs]; rewrite ?T3, ?T4; repeat split; auto. }
  destruct E as (Ec & Em & Ef & Es & Ei & El & Test & Gw).
  apply andb_prop in Test as [-> ->]. rewrite Gw.
  set (q := if w =? 0 then 0 else 1).
  assert (Hk1 : (Z.to_nat (current_set_index st1) < length (sets st1))%nat)
    by (now rewrite Ei, El).
  destruct (award_game_current_set st1 q Hk1) as (Ac & _ & Am & Af).
  rewrite Ec in Ac. rewrite Em in Am. rewrite Ef in Af.
  assert (A : current_server (award_game st1 q) = opponent (current_server st)
              /\ current_set_index (award_game st1 q) = current_set_index st
              /\ length (sets (award_game st1 q)) = length (sets st)).
  { rewrite <- Es, <- Ei, <- El. unfold award_game, alter_current_set, opponent.
    destruct (q =? 0); cbn; rewrite length_alter; auto. }
  destruct A as (As & Ai & Al).
  set (st2 := award_game st1 q) in *.
  assert (C : check_enter_set_tiebreak st2 = true).
  { unfold check_enter_set_tiebreak. rewrite Ac, Af. subst q.
    unfold games_of, opponent in G1, G2.
    destruct (w =? 0);
      repeat (progress (change (1 =? 0) with false in *;
                        change (0 =? 0) with true in *; cbv iota in * ));
      cbn; rewrite G1, G2, !Z.eqb_refl; reflexivity. }
  unfold current_set in Ac. rewrite Ai in Ac. clearbody st2.
  unfold after_award_game. cbv zeta. rewrite Am, C. cbn [negb andb].
  cbn [in_set_tiebreak with_tb_start_server with_tb_points_p2
       with_tb_points_p1 alter_current_set with_sets with_in_set_tiebreak
       negb].
  unfold current_set. cbn. rewrite As, Ai.
  rewrite list_lookup_total_alter_eq by (now rewrite Al).
  rewrite Ac. fold (current_set st). subst q.
  unfold games_of, opponent in G1, G2.
  destruct (w =? 0);
    repeat (progress (change (1 =? 0) with false in *;
                      change (0 =? 0) with true in *; cbv iota in * ));
    rewrite G1; repeat split; auto;
    destruct (current_set st); cbn in *; now rewrite G2.
Qed.

Lemma before_tiebreak_facts :
  0 <= current_set_index before_tiebreak
       < Z.of_nat (length (sets before_tiebreak))
  /\ in_match_tiebreak10 before_tiebreak = false
  /\ is_game_point_for (game_points_of 1 before_tiebreak)
       (game_points_of (opponent 1) before_tiebreak) = true
  /\ games_of 1 (current_set before_tiebreak) + 1
     = tiebreak_at_games (format before_tiebreak)
  /\ games_of (opponent 1) (current_set before_tiebreak)
     = tiebreak_at_games (format before_tiebreak).
Proof. vm_compute. repeat split; discriminate. Qed.

(** Player 2 serves at 5-6 and 40-0, and holds. *)
Lemma set_tiebreak_starts_witness :
  let st := before_tiebreak in
  0 <= current_set_index st < Z.of_nat (length (sets st))
  /\ in_match_tiebreak10 st = false
  /\ is_game_point_for (game_points_of 1 st) (game_points_of (opponent 1) st)
     = true
  /\ games_of 1 (current_set st) + 1 = tiebreak_at_games (format st)
  /\ games_of (opponent 1) (current_set st) = tiebreak_at_games (format st)
  /\ (let st' := give_point_regular st 1 in
      in_set_tiebreak st' = true
      /\ tb_points_p1 st' = 0 /\ tb_points_p2 st' = 0
      /\ tb_start_server st' = opponent (current_server st)
      /\ current_server st' = opponent (current_server st)
      /\ current_set_index st' = current_set_index st
      /\ current_set st'
         = with_set_tiebreak_played true
             (with_games_player2 (tiebreak_at_games (format st))
                (with_games_player1 (tiebreak_at_games (format st))
                   (current_set st)))).
Proof.
  cbv zeta.
  destruct before_tiebreak_facts as (F1 & F2 & F3 & F4 & F5).
  split; [exact F1|]. split; [exact F2|]. split; [exact F3|].
  split; [exact F4|]. split; [exact F5|].
  exact (set_tiebreak_starts before_tiebreak 1 F1 F2 F3 F4 F5).
Defined.

(** ** Best of three *)

Lemma wf_best_of_three st : wf st -> best_of_three st.
Proof.
  intros W. destruct W as [[Hn Hi] _ _ _ _ _ _ [W1 W2] _ _ Sum].
  unfold best_of_three. destruct (in_match_tiebreak10 st); lia.
Qed.

Lemma close_set_best_of_three st w :
  wf st -> in_match_tiebreak10 st = false ->
  best_of_three (close_set_and_prepare_next st w).
Proof.
  intros W HM. destruct W as [[Hn Hi] _ _ _ _ _ TW [W1 W2] _ _ Sum].
  rewrite HM in Sum.
  unfold best_of_three, close_set_and_prepare_next, start_new_set,
    alter_current_set. cbv zeta.
  destruct (w =? 0); cbn -[Z.of_nat]; rewrite TW;
    repeat match goal with
           | |- context [?a =? ?b] =>
               destruct (Z.eqb_spec a b); cbn -[Z.of_nat]
           end;
    rewrite ?length_app, ?length_alter; cbn [length];
    try match goal with
        | |- context [match ?d with DECIDING_REGULAR => _ | _ => _ end] =>
            destruct d; cbn -[Z.of_nat];
            rewrite ?length_app, ?length_alter; cbn [length]
        end; lia.
Qed.

Lemma match_tiebreak_best_of_three st w :
  wf st -> in_match_tiebreak10 st = true ->
  best_of_three (give_point_tiebreak st w false).
Proof.
  intros W HM. destruct (wf_decider st W HM) as (_ & D1 & D2).
  destruct W as [[Hn Hi] _ _ _ _ _ TW _ _ _ Sum].
  rewrite HM, D1, D2 in Sum.
  unfold best_of_three, give_point_tiebreak. cbv zeta.
  set (st1 := if w =? 0 then _ else _).
  assert (E : sets_won_p1 st1 = 1 /\ sets_won_p2 st1 = 1
              /\ sets st1 = sets st)
    by (subst st1; destruct (w =? 0); auto).
  clearbody st1. destruct E as (E1 & E2 & E3).
  destruct (match_tiebreak10_won st1) as [mw|].
  - destruct (mw =? 0); cbn -[Z.of_nat];
      rewrite E1, E2, E3, length_app; cbn [length]; lia.
  - rewrite E1, E2, E3. lia.
Qed.

Lemma best_of_three_play_point st ev :
  wf st -> best_of_three (play_point st ev).
Proof.
  intros W.
  pose proof (play_point_wf st ev W) as H. cbv zeta in H.
  destruct (match_is_over_now (play_point st ev)) eqn:Over;
    [|now apply wf_best_of_three].
  clear H.
  pose proof (setup_of_play_point st ev) as SU.
  unfold match_is_over_now in Over.
  assert (TW : sets_to_win (play_point st ev) = 2).
  { unfold setup_of in SU. injection SU as _ _ _ _ _ ->. apply W. }
  rewrite TW in Over. clear SU TW.
  destruct (play_point_shape st ev) as (S & e & w & Eq & F & _).
  rewrite Eq in *. clear Eq.
  destruct (in_match_tiebreak10 st) eqn:HM.
  - unfold log_and_give_point. cbv zeta.
    set (S1 := with_log_entries _ S).
    assert (W1 : wf S1).
    { eapply wf_frame.
      - apply frame_with_log_entries, F.
      - now apply wf_with_log_entries. }
    assert (M1 : in_match_tiebreak10 S1 = true).
    { apply frame_fields in F. subst S1. cbn. intuition congruence. }
    destruct (wf_decider S1 W1 M1) as (-> & _). rewrite M1.
    now apply match_tiebreak_best_of_three.
  - destruct (set_closes_in_running_context st S e w W F HM)
      as [[E1 E2]|(stc & sw & Wc & _ & Mc & ->)].
    + rewrite E1, E2 in Over. destruct (wf_won st W) as [W1 W2].
      apply orb_prop in Over as [O|O]; apply Z.eqb_eq in O; lia.
    + now apply close_set_best_of_three.
Qed.

(** X30.  The match is best of three in every state [main] reaches: no
    player has more than two sets, the players have at most three between
    them, and [sets] has at most three records, the row of a match
    tiebreak included. *)
Theorem match_is_best_of_three (c : Setup) (turns : list (Z * MainChoice)) :
  let st := live (fst (run c turns)) in
  0 <= sets_won_p1 st <= 2 /\ 0 <= sets_won_p2 st <= 2
  /\ sets_won_p1 st + sets_won_p2 st <= 3
  /\ (length (sets st) <= 3)%nat.
Proof.
  apply (run_invariant best_of_three).
  - unfold best_of_three, main_init. cbn. lia.
  - intros x y st H. exact H.
  - intros st ev (W & _) _. now apply best_of_three_play_point.
Qed.
